(** * Window Merge: the widget surgery of merge.c over a model of the toolkit

    merge.c owns no data of its own: every effect is a call into GTK+ 2,
    GLib's object system or the host client (Pidgin / libpurple).  The
    development therefore has three layers:

    - [World], the part of the host object graph merge.c can observe or
      change (widget tree, per-object data, signal handlers, preferences,
      the GtkIMHtml binding set);
    - the toolkit and host entry points merge.c calls, each as a function on
      [World];
    - the functions of merge.c, transcribed statement by statement.  *)

From Stdlib Require Import ZArith Lia Ascii String.
From stdpp Require Import base option gmap strings list fin_maps relations.

Open Scope string_scope.
Open Scope list_scope.
Open Scope nat_scope.

(** ** Addresses and pointers *)

(** A widget (any GObject) is named by its address. *)
Abbreviation widget := nat (only parsing).

(** The buddy list structure of the host.  merge.c only reads its fields, so
    the structure is passed by value. *)
Record PidginBuddyList := {
  blist_window : widget;
  blist_notebook : widget;
  blist_menutray : widget
}.

(** The conversation window structure of the host.  merge.c overwrites its
    [window] field (possibly with a [NULL] read back from a slot), so these
    live in the heap of the [World]. *)
Record PidginWindow := {
  conv_window : option widget;
  conv_notebook : widget;
  conv_menubar : widget
}.

(** What a [gpointer] handed to [g_object_set_data] or to a signal handler may
    point at. *)
Inductive gpointer :=
| NULL
| PWidget (w : widget)
| PString (str : string)
| PList (l : list widget)
| PConvWin (addr : nat)
| PBlist (b : PidginBuddyList).

#[global] Instance PidginBuddyList_eq_dec : EqDecision PidginBuddyList.
Proof. solve_decision. Defined.
#[global] Instance PidginWindow_eq_dec : EqDecision PidginWindow.
Proof. solve_decision. Defined.
#[global] Instance gpointer_eq_dec : EqDecision gpointer.
Proof. solve_decision. Defined.

(** A [GList *] is [NULL] exactly when the list is empty. *)
Definition of_glist (l : list widget) : gpointer :=
  match l with [] => NULL | _ => PList l end.

Definition as_glist (p : gpointer) : list widget :=
  match p with PList l => l | _ => [] end.

(** A checked cast to [GtkWidget *]: anything that is not a widget is
    rejected by the toolkit's type checks like a [NULL]. *)
Definition as_widget (p : gpointer) : option widget :=
  match p with PWidget w => Some w | _ => None end.

Definition of_widget (o : option widget) : gpointer :=
  match o with Some w => PWidget w | None => NULL end.

Definition as_string (p : gpointer) : option string :=
  match p with PString t => Some t | _ => None end.

Definition of_string (o : option string) : gpointer :=
  match o with Some t => PString t | None => NULL end.

(** ** Widgets *)

Inductive GType :=
| GTK_TYPE_WINDOW
| GTK_TYPE_BOX
| GTK_TYPE_MENU_BAR
| GTK_TYPE_MENU_ITEM
| GTK_TYPE_MENU
| GTK_TYPE_NOTEBOOK
| GTK_TYPE_LABEL
| GTK_TYPE_PANED.

#[global] Instance GType_eq_dec : EqDecision GType.
Proof. solve_decision. Defined.

(** The two slots of a GtkPaned, the per-child "resize" property, the slider
    ("position" is [child1_size]) and the "max-position" property. *)
Record GtkPaned := {
  vertical : bool;
  child1 : option widget;
  child2 : option widget;
  child1_resize : bool;
  child2_resize : bool;
  child1_size : Z;
  position_set : bool;
  max_position : Z
}.

(** A container is either a sequence of children (GtkBox, GtkMenuShell,
    GtkNotebook, and a GtkWindow with its single child) or a paned. *)
Inductive container :=
| Children (l : list widget)
| Paned (p : GtkPaned).

#[global] Instance GtkPaned_eq_dec : EqDecision GtkPaned.
Proof. solve_decision. Defined.
#[global] Instance container_eq_dec : EqDecision container.
Proof. solve_decision. Defined.

(** ** Signals *)

Inductive GCallback :=
| cb_notify_position
| cb_notify_max_position
| cb_focus_in_event.

#[global] Instance GCallback_eq_dec : EqDecision GCallback.
Proof. solve_decision. Defined.

Record handler := {
  h_object : widget;
  h_signal : string;
  h_callback : GCallback;
  h_data : gpointer
}.

#[global] Instance handler_eq_dec : EqDecision handler.
Proof. solve_decision. Defined.

(** ** Key bindings *)

Inductive GtkBindingEntry :=
| Bound (signals : list string)
| Skipped.

#[global] Instance GtkBindingEntry_eq_dec : EqDecision GtkBindingEntry.
Proof. solve_decision. Defined.

Definition GDK_Up : N := 0xff52.
Definition GDK_Down : N := 0xff54.
Definition GDK_Page_Up : N := 0xff55.
Definition GDK_Page_Down : N := 0xff56.
Definition GDK_KP_Page_Up : N := 0xff9a.
Definition GDK_KP_Page_Down : N := 0xff9b.
Definition GDK_CONTROL_MASK : N := 4.

(** ** The world *)

Record World := {
  next_id : nat;                              (* allocator: next free address *)
  parent : gmap nat nat;                      (* widget->parent *)
  containers : gmap nat container;
  gtype : gmap nat GType;
  visible : gset nat;
  title : gmap nat string;                    (* GtkWindow titles *)
  icon_list : gmap nat (list nat);            (* GtkWindow icon lists *)
  accel_groups : gset (nat * nat);            (* (window, group) attached *)
  submenu : gmap nat nat;                     (* GtkMenuItem -> its submenu *)
  menu_accel : gmap nat nat;                  (* GtkMenu -> its accel group *)
  object_data : gmap (nat * string) gpointer; (* g_object_set_data *)
  handlers : list handler;                    (* connected, oldest first *)
  convwins : gmap nat PidginWindow;           (* heap of PidginWindow *)
  prefs_int : gmap string Z;                  (* host preferences, integers *)
  prefs_string : gmap string string;          (* host preferences, strings *)
  imhtml_bindings : gmap (N * N) GtkBindingEntry;
  events : list (nat * string);               (* events sent by gtk_widget_event *)
  host_conv_menus : list bool                 (* menu bar of a new conversation
                                                 window: an item per entry,
                                                 [true] when it has a submenu *)
}.

(** Field updates.  Each one rebuilds the record from the projections, so
    that reading a field of an updated world computes. *)

Definition upd_next_id (f : nat → nat) (s : World) : World :=
  {| next_id := f (next_id s); parent := parent s;
     containers := containers s; gtype := gtype s; visible := visible s;
     title := title s; icon_list := icon_list s;
     accel_groups := accel_groups s; submenu := submenu s;
     menu_accel := menu_accel s; object_data := object_data s;
     handlers := handlers s; convwins := convwins s;
     prefs_int := prefs_int s; prefs_string := prefs_string s;
     imhtml_bindings := imhtml_bindings s; events := events s;
     host_conv_menus := host_conv_menus s |}.

Definition upd_parent (f : gmap nat nat → gmap nat nat) (s : World) : World :=
  {| next_id := next_id s; parent := f (parent s);
     containers := containers s; gtype := gtype s; visible := visible s;
     title := title s; icon_list := icon_list s;
     accel_groups := accel_groups s; submenu := submenu s;
     menu_accel := menu_accel s; object_data := object_data s;
     handlers := handlers s; convwins := convwins s;
     prefs_int := prefs_int s; prefs_string := prefs_string s;
     imhtml_bindings := imhtml_bindings s; events := events s;
     host_conv_menus := host_conv_menus s |}.

Definition upd_containers (f : gmap nat container → gmap nat container) (s : World) : World :=
  {| next_id := next_id s; parent := parent s;
     containers := f (containers s); gtype := gtype s; visible := visible s;
     title := title s; icon_list := icon_list s;
     accel_groups := accel_groups s; submenu := submenu s;
     menu_accel := menu_accel s; object_data := object_data s;
     handlers := handlers s; convwins := convwins s;
     prefs_int := prefs_int s; prefs_string := prefs_string s;
     imhtml_bindings := imhtml_bindings s; events := events s;
     host_conv_menus := host_conv_menus s |}.

Definition upd_gtype (f : gmap nat GType → gmap nat GType) (s : World) : World :=
  {| next_id := next_id s; parent := parent s; containers := containers s;
     gtype := f (gtype s); visible := visible s; title := title s;
     icon_list := icon_list s; accel_groups := accel_groups s;
     submenu := submenu s; menu_accel := menu_accel s;
     object_data := object_data s; handlers := handlers s;
     convwins := convwins s; prefs_int := prefs_int s;
     prefs_string := prefs_string s; imhtml_bindings := imhtml_bindings s;
     events := events s; host_conv_menus := host_conv_menus s |}.

Definition upd_visible (f : gset nat → gset nat) (s : World) : World :=
  {| next_id := next_id s; parent := parent s; containers := containers s;
     gtype := gtype s; visible := f (visible s); title := title s;
     icon_list := icon_list s; accel_groups := accel_groups s;
     submenu := submenu s; menu_accel := menu_accel s;
     object_data := object_data s; handlers := handlers s;
     convwins := convwins s; prefs_int := prefs_int s;
     prefs_string := prefs_string s; imhtml_bindings := imhtml_bindings s;
     events := events s; host_conv_menus := host_conv_menus s |}.

Definition upd_title (f : gmap nat string → gmap nat string) (s : World) : World :=
  {| next_id := next_id s; parent := parent s; containers := containers s;
     gtype := gtype s; visible := visible s; title := f (title s);
     icon_list := icon_list s; accel_groups := accel_groups s;
     submenu := submenu s; menu_accel := menu_accel s;
     object_data := object_data s; handlers := handlers s;
     convwins := convwins s; prefs_int := prefs_int s;
     prefs_string := prefs_string s; imhtml_bindings := imhtml_bindings s;
     events := events s; host_conv_menus := host_conv_menus s |}.

Definition upd_icon_list (f : gmap nat (list nat) → gmap nat (list nat)) (s : World) : World :=
  {| next_id := next_id s; parent := parent s; containers := containers s;
     gtype := gtype s; visible := visible s; title := title s;
     icon_list := f (icon_list s); accel_groups := accel_groups s;
     submenu := submenu s; menu_accel := menu_accel s;
     object_data := object_data s; handlers := handlers s;
     convwins := convwins s; prefs_int := prefs_int s;
     prefs_string := prefs_string s; imhtml_bindings := imhtml_bindings s;
     events := events s; host_conv_menus := host_conv_menus s |}.

Definition upd_accel_groups (f : gset (nat * nat) → gset (nat * nat)) (s : World) : World :=
  {| next_id := next_id s; parent := parent s; containers := containers s;
     gtype := gtype s; visible := visible s; title := title s;
     icon_list := icon_list s; accel_groups := f (accel_groups s);
     submenu := submenu s; menu_accel := menu_accel s;
     object_data := object_data s; handlers := handlers s;
     convwins := convwins s; prefs_int := prefs_int s;
     prefs_string := prefs_string s; imhtml_bindings := imhtml_bindings s;
     events := events s; host_conv_menus := host_conv_menus s |}.

Definition upd_submenu (f : gmap nat nat → gmap nat nat) (s : World) : World :=
  {| next_id := next_id s; parent := parent s; containers := containers s;
     gtype := gtype s; visible := visible s; title := title s;
     icon_list := icon_list s; accel_groups := accel_groups s;
     submenu := f (submenu s); menu_accel := menu_accel s;
     object_data := object_data s; handlers := handlers s;
     convwins := convwins s; prefs_int := prefs_int s;
     prefs_string := prefs_string s; imhtml_bindings := imhtml_bindings s;
     events := events s; host_conv_menus := host_conv_menus s |}.

Definition upd_menu_accel (f : gmap nat nat → gmap nat nat) (s : World) : World :=
  {| next_id := next_id s; parent := parent s; containers := containers s;
     gtype := gtype s; visible := visible s; title := title s;
     icon_list := icon_list s; accel_groups := accel_groups s;
     submenu := submenu s; menu_accel := f (menu_accel s);
     object_data := object_data s; handlers := handlers s;
     convwins := convwins s; prefs_int := prefs_int s;
     prefs_string := prefs_string s; imhtml_bindings := imhtml_bindings s;
     events := events s; host_conv_menus := host_conv_menus s |}.

Definition upd_object_data (f : gmap (nat * string) gpointer → gmap (nat * string) gpointer) (s : World) : World :=
  {| next_id := next_id s; parent := parent s; containers := containers s;
     gtype := gtype s; visible := visible s; title := title s;
     icon_list := icon_list s; accel_groups := accel_groups s;
     submenu := submenu s; menu_accel := menu_accel s;
     object_data := f (object_data s); handlers := handlers s;
     convwins := convwins s; prefs_int := prefs_int s;
     prefs_string := prefs_string s; imhtml_bindings := imhtml_bindings s;
     events := events s; host_conv_menus := host_conv_menus s |}.

Definition upd_handlers (f : list handler → list handler) (s : World) : World :=
  {| next_id := next_id s; parent := parent s; containers := containers s;
     gtype := gtype s; visible := visible s; title := title s;
     icon_list := icon_list s; accel_groups := accel_groups s;
     submenu := submenu s; menu_accel := menu_accel s;
     object_data := object_data s; handlers := f (handlers s);
     convwins := convwins s; prefs_int := prefs_int s;
     prefs_string := prefs_string s; imhtml_bindings := imhtml_bindings s;
     events := events s; host_conv_menus := host_conv_menus s |}.

Definition upd_convwins (f : gmap nat PidginWindow → gmap nat PidginWindow) (s : World) : World :=
  {| next_id := next_id s; parent := parent s; containers := containers s;
     gtype := gtype s; visible := visible s; title := title s;
     icon_list := icon_list s; accel_groups := accel_groups s;
     submenu := submenu s; menu_accel := menu_accel s;
     object_data := object_data s; handlers := handlers s;
     convwins := f (convwins s); prefs_int := prefs_int s;
     prefs_string := prefs_string s; imhtml_bindings := imhtml_bindings s;
     events := events s; host_conv_menus := host_conv_menus s |}.

Definition upd_prefs_int (f : gmap string Z → gmap string Z) (s : World) : World :=
  {| next_id := next_id s; parent := parent s; containers := containers s;
     gtype := gtype s; visible := visible s; title := title s;
     icon_list := icon_list s; accel_groups := accel_groups s;
     submenu := submenu s; menu_accel := menu_accel s;
     object_data := object_data s; handlers := handlers s;
     convwins := convwins s; prefs_int := f (prefs_int s);
     prefs_string := prefs_string s; imhtml_bindings := imhtml_bindings s;
     events := events s; host_conv_menus := host_conv_menus s |}.

Definition upd_prefs_string (f : gmap string string → gmap string string) (s : World) : World :=
  {| next_id := next_id s; parent := parent s; containers := containers s;
     gtype := gtype s; visible := visible s; title := title s;
     icon_list := icon_list s; accel_groups := accel_groups s;
     submenu := submenu s; menu_accel := menu_accel s;
     object_data := object_data s; handlers := handlers s;
     convwins := convwins s; prefs_int := prefs_int s;
     prefs_string := f (prefs_string s);
     imhtml_bindings := imhtml_bindings s; events := events s;
     host_conv_menus := host_conv_menus s |}.

Definition upd_imhtml_bindings (f : gmap (N * N) GtkBindingEntry → gmap (N * N) GtkBindingEntry) (s : World) : World :=
  {| next_id := next_id s; parent := parent s; containers := containers s;
     gtype := gtype s; visible := visible s; title := title s;
     icon_list := icon_list s; accel_groups := accel_groups s;
     submenu := submenu s; menu_accel := menu_accel s;
     object_data := object_data s; handlers := handlers s;
     convwins := convwins s; prefs_int := prefs_int s;
     prefs_string := prefs_string s;
     imhtml_bindings := f (imhtml_bindings s); events := events s;
     host_conv_menus := host_conv_menus s |}.

Definition upd_events (f : list (nat * string) → list (nat * string)) (s : World) : World :=
  {| next_id := next_id s; parent := parent s; containers := containers s;
     gtype := gtype s; visible := visible s; title := title s;
     icon_list := icon_list s; accel_groups := accel_groups s;
     submenu := submenu s; menu_accel := menu_accel s;
     object_data := object_data s; handlers := handlers s;
     convwins := convwins s; prefs_int := prefs_int s;
     prefs_string := prefs_string s; imhtml_bindings := imhtml_bindings s;
     events := f (events s); host_conv_menus := host_conv_menus s |}.

(** ** GLib: allocation, object data, signal connections *)

Definition alloc (s : World) : nat * World :=
  (next_id s, upd_next_id S s).

(** [g_object_set_data]: storing [NULL] removes the association. *)
Definition g_object_set_data (obj : widget) (key : string) (v : gpointer)
    (s : World) : World :=
  match v with
  | NULL => upd_object_data (delete (obj, key)) s
  | _ => upd_object_data (insert (obj, key) v) s
  end.

Definition g_object_get_data (obj : widget) (key : string) (s : World)
    : gpointer :=
  default NULL (object_data s !! (obj, key)).

Definition g_object_steal_data (obj : widget) (key : string) (s : World)
    : World :=
  upd_object_data (delete (obj, key)) s.

(** The signal named by a [g_object_connect] specification; only the
    "signal::" form is used by merge.c, any other form is refused here. *)
Definition signal_of_spec (spec : string) : option string :=
  if String.prefix "signal::" spec
  then Some (String.substring 8 (String.length spec - 8) spec)
  else None.

Definition g_object_connect (obj : widget) (spec : string) (cb : GCallback)
    (data : gpointer) (s : World) : World :=
  match signal_of_spec spec with
  | Some sig =>
      upd_handlers (λ hs, hs ++ [ {| h_object := obj; h_signal := sig;
                                     h_callback := cb; h_data := data |} ]) s
  | None => s
  end.

Definition handler_matches (obj : widget) (cb : GCallback) (data : gpointer)
    (h : handler) : Prop :=
  h_object h = obj ∧ h_callback h = cb ∧ h_data h = data.

#[global] Instance handler_matches_dec obj cb data h :
  Decision (handler_matches obj cb data h).
Proof. unfold handler_matches. apply _. Defined.

(** [g_object_disconnect] with "any_signal": every handler of the object
    with this callback and this data goes, whatever its signal. *)
Definition g_object_disconnect (obj : widget) (spec : string) (cb : GCallback)
    (data : gpointer) (s : World) : World :=
  if decide (spec = "any_signal")
  then upd_handlers (filter (λ h, ¬ handler_matches obj cb data h)) s
  else s.

(** ** GTK: the widget tree *)

Definition gtk_widget_get_parent (w : widget) (s : World) : option widget :=
  parent s !! w.

Definition container_children (c : container) : list widget :=
  match c with
  | Children l => l
  | Paned p => option_list (child1 p) ++ option_list (child2 p)
  end.

Definition gtk_container_get_children (c : widget) (s : World) : list widget :=
  from_option container_children [] (containers s !! c).

Definition paned_set_child1 (c : option widget) (r : bool) (p : GtkPaned)
    : GtkPaned :=
  {| vertical := vertical p; child1 := c; child2 := child2 p;
     child1_resize := r; child2_resize := child2_resize p;
     child1_size := child1_size p; position_set := position_set p;
     max_position := max_position p |}.

Definition paned_set_child2 (c : option widget) (r : bool) (p : GtkPaned)
    : GtkPaned :=
  {| vertical := vertical p; child1 := child1 p; child2 := c;
     child1_resize := child1_resize p; child2_resize := r;
     child1_size := child1_size p; position_set := position_set p;
     max_position := max_position p |}.

Definition paned_set_position (pos : Z) (set : bool) (p : GtkPaned)
    : GtkPaned :=
  {| vertical := vertical p; child1 := child1 p; child2 := child2 p;
     child1_resize := child1_resize p; child2_resize := child2_resize p;
     child1_size := pos; position_set := set;
     max_position := max_position p |}.

Definition container_remove_child (w : widget) (c : container) : container :=
  match c with
  | Children l => Children (filter (λ x, x ≠ w) l)
  | Paned p =>
      let p := if decide (child1 p = Some w)
               then paned_set_child1 None (child1_resize p) p else p in
      let p := if decide (child2 p = Some w)
               then paned_set_child2 None (child2_resize p) p else p in
      Paned p
  end.

(** [gtk_container_remove]: refused unless the widget is a child of the
    container. *)
Definition gtk_container_remove (c w : widget) (s : World) : World :=
  if decide (parent s !! w = Some c)
  then upd_parent (delete w)
         (upd_containers (alter (container_remove_child w) c) s)
  else s.

(** [gtk_container_add]: a box, menu shell or notebook appends; a paned
    fills its first free slot ([gtk_paned_add1] packs without resize,
    [gtk_paned_add2] with) and refuses a third child; a widget that still
    has a parent is refused. *)
Definition gtk_container_add (c w : widget) (s : World) : World :=
  match parent s !! w with
  | Some _ => s
  | None =>
      match containers s !! c with
      | Some (Children l) =>
          upd_parent (insert w c)
            (upd_containers (insert c (Children (l ++ [w]))) s)
      | Some (Paned p) =>
          match child1 p, child2 p with
          | None, _ =>
              upd_parent (insert w c)
                (upd_containers
                   (insert c (Paned (paned_set_child1 (Some w) false p))) s)
          | Some _, None =>
              upd_parent (insert w c)
                (upd_containers
                   (insert c (Paned (paned_set_child2 (Some w) true p))) s)
          | Some _, Some _ => s
          end
      | None => s
      end
  end.

(** [gtk_widget_reparent]: refused for a widget without a parent or for a
    [NULL] container, nothing to do when the parent is already the new one. *)
Definition gtk_widget_reparent (w : widget) (new_parent : option widget)
    (s : World) : World :=
  match parent s !! w, new_parent with
  | Some old, Some new =>
      if decide (old = new) then s
      else gtk_container_add new w (gtk_container_remove old w s)
  | _, _ => s
  end.

Definition gtk_widget_show (w : widget) (s : World) : World :=
  upd_visible (λ v, v ∪ {[w]}) s.

Definition gtk_widget_hide (w : widget) (s : World) : World :=
  upd_visible (λ v, v ∖ {[w]}) s.

(** What finalizing one object releases: its entries in every table, its
    object data and the handlers connected to it. *)
Definition dispose (w : widget) (s : World) : World :=
  upd_containers (delete w)
  (upd_gtype (delete w)
  (upd_visible (λ v, v ∖ {[w]})
  (upd_title (delete w)
  (upd_icon_list (delete w)
  (upd_accel_groups (filter (λ wg, wg.1 ≠ w))
  (upd_submenu (delete w)
  (upd_menu_accel (delete w)
  (upd_object_data (filter (λ kv, kv.1.1 ≠ w))
  (upd_handlers (filter (λ h, h_object h ≠ w)) s))))))))).

(** [gtk_widget_destroy]: the widget leaves its parent, a container destroys
    its children first.  The recursion is bounded by the depth given. *)
Fixpoint destroy_rec (depth : nat) (w : widget) (s : World) : World :=
  let s := match parent s !! w with
           | Some p => gtk_container_remove p w s
           | None => s
           end in
  let s := match depth with
           | 0 => s
           | S d => foldl (λ s c, destroy_rec d c s) s
                      (gtk_container_get_children w s)
           end in
  dispose w s.

Definition gtk_widget_destroy (w : widget) (s : World) : World :=
  destroy_rec (S (size (containers s))) w s.

(** ** GTK: windows, menus, key bindings *)

Definition gtk_window_get_title (w : widget) (s : World) : option string :=
  title s !! w.

Definition gtk_window_set_title (w : widget) (t : option string) (s : World)
    : World :=
  match t with
  | Some t => upd_title (insert w t) s
  | None => upd_title (delete w) s
  end.

Definition gtk_window_set_icon_list (w : widget) (icons : list nat)
    (s : World) : World :=
  match icons with
  | [] => upd_icon_list (delete w) s
  | _ => upd_icon_list (insert w icons) s
  end.

(** Attaching a group that is attached, detaching one that is not, or
    passing [NULL] for the group is refused with a warning. *)
Definition gtk_window_add_accel_group (w : widget) (g : option nat)
    (s : World) : World :=
  match g with
  | None => s
  | Some g => upd_accel_groups (λ a, a ∪ {[(w, g)]}) s
  end.

Definition gtk_window_remove_accel_group (w : widget) (g : option nat)
    (s : World) : World :=
  match g with
  | None => s
  | Some g => upd_accel_groups (λ a, a ∖ {[(w, g)]}) s
  end.

Definition GTK_IS_MENU_ITEM (w : widget) (s : World) : bool :=
  bool_decide (gtype s !! w = Some GTK_TYPE_MENU_ITEM).

Definition GTK_IS_MENU (w : option widget) (s : World) : bool :=
  match w with
  | Some w => bool_decide (gtype s !! w = Some GTK_TYPE_MENU)
  | None => false
  end.

Definition gtk_menu_item_get_submenu (item : widget) (s : World)
    : option widget :=
  submenu s !! item.

Definition gtk_menu_get_accel_group (menu : option widget) (s : World)
    : option nat :=
  menu ≫= λ m, menu_accel s !! m.

(** [gtk_binding_entry_skip]: whatever was bound to the key is dropped and
    the key is marked as unbound. *)
Definition gtk_binding_entry_skip (keyval modifiers : N) (s : World) : World :=
  upd_imhtml_bindings (insert (keyval, modifiers) Skipped) s.

(** ** GTK: paned widgets *)

Definition G_MAXINT : Z := 2147483647.

(** Arithmetic on [gint] wraps to 32 bits. *)
Definition gint (z : Z) : Z := (z + 2147483648) mod 4294967296 - 2147483648.

Definition new_paned (is_vertical : bool) : GtkPaned :=
  {| vertical := is_vertical; child1 := None; child2 := None;
     child1_resize := false; child2_resize := true;
     child1_size := 0%Z; position_set := false; max_position := G_MAXINT |}.

Definition gtk_paned_new (is_vertical : bool) (s : World) : nat * World :=
  let '(w, s) := alloc s in
  (w, upd_gtype (insert w GTK_TYPE_PANED)
        (upd_containers (insert w (Paned (new_paned is_vertical))) s)).

Definition gtk_vpaned_new : World → nat * World := gtk_paned_new true.
Definition gtk_hpaned_new : World → nat * World := gtk_paned_new false.

Definition gtk_label_new (s : World) : nat * World :=
  let '(w, s) := alloc s in
  (w, upd_gtype (insert w GTK_TYPE_LABEL) s).

Definition as_paned (w : widget) (s : World) : option GtkPaned :=
  match containers s !! w with
  | Some (Paned p) => Some p
  | _ => None
  end.

Definition GTK_IS_VPANED (w : widget) (s : World) : bool :=
  from_option vertical false (as_paned w s).

Definition GTK_IS_HPANED (w : widget) (s : World) : bool :=
  from_option (λ p, negb (vertical p)) false (as_paned w s).

Definition gtk_paned_get_position (w : widget) (s : World) : Z :=
  from_option child1_size 0%Z (as_paned w s).

Definition gtk_paned_get_child1 (w : widget) (s : World) : option widget :=
  as_paned w s ≫= child1.

Definition gtk_paned_get_child2 (w : widget) (s : World) : option widget :=
  as_paned w s ≫= child2.

(** [g_object_get (gobject, "max-position", &max_position, NULL)]: an object
    without the property leaves the variable unset. *)
Definition g_object_get_max_position (w : widget) (s : World) : option Z :=
  max_position <$> as_paned w s.

(** [gtk_container_child_set_property (paned, child, "resize", value)]. *)
Definition gtk_container_child_set_resize (c child : widget) (v : bool)
    (s : World) : World :=
  if decide (parent s !! child = Some c)
  then match as_paned c s with
       | Some p =>
           if decide (child1 p = Some child)
           then upd_containers
                  (insert c (Paned (paned_set_child1 (child1 p) v p))) s
           else upd_containers
                  (insert c (Paned (paned_set_child2 (child2 p) v p))) s
       | None => s
       end
  else s.

(** ** libpurple: preferences *)

Definition purple_prefs_get_int (name : string) (s : World) : Z :=
  default 0%Z (prefs_int s !! name).

Definition purple_prefs_set_int (name : string) (v : Z) (s : World) : World :=
  upd_prefs_int (insert name v) s.

Definition purple_prefs_get_string (name : string) (s : World)
    : option string :=
  prefs_string s !! name.

(** ** The host client: conversation windows *)

Definition insert_all {V} (ks : list nat) (f : nat → V) (m : gmap nat V)
    : gmap nat V :=
  foldr (λ k m, <[k := f k]> m) m ks.

(** The addresses, counted from [i], of the entries of [flags] that are set. *)
Fixpoint flagged (i : nat) (flags : list bool) : list nat :=
  match flags with
  | [] => []
  | b :: rest => (if b then [i] else []) ++ flagged (S i) rest
  end.

(** [pidgin_conv_window_new]: a new top-level window holding a box with the
    menu bar and the (still empty) notebook of conversations.  The menu bar
    has one item per entry of [host_conv_menus]; the submenus share the
    accelerator group of the window, as menus built by one item factory do.
    Nothing here is shown on screen before [pidgin_conv_window_show]. *)
Definition pidgin_conv_window_new (s : World) : nat * World :=
  let n := next_id s in
  let k := length (host_conv_menus s) in
  let win := n + 1 in
  let vbox := n + 2 in
  let menubar := n + 3 in
  let notebook := n + 4 in
  let accel := n + 5 in
  let items := seq (n + 6) k in
  let with_submenu := flagged (n + 6) (host_conv_menus s) in
  (n,
   upd_next_id (λ _, n + 6 + k + k)
   (upd_convwins
      (insert n {| conv_window := Some win; conv_notebook := notebook;
                   conv_menubar := menubar |})
   (upd_parent
      (λ m, insert_all items (λ _, menubar)
              (<[vbox := win]> (<[menubar := vbox]> (<[notebook := vbox]> m))))
   (upd_containers
      (λ m, <[win := Children [vbox]]>
              (<[vbox := Children [menubar; notebook]]>
                 (<[menubar := Children items]>
                    (<[notebook := Children []]> m))))
   (upd_gtype
      (λ m, insert_all ((λ i, i + k) <$> with_submenu) (λ _, GTK_TYPE_MENU)
              (insert_all items (λ _, GTK_TYPE_MENU_ITEM)
                 (<[win := GTK_TYPE_WINDOW]>
                    (<[vbox := GTK_TYPE_BOX]>
                       (<[menubar := GTK_TYPE_MENU_BAR]>
                          (<[notebook := GTK_TYPE_NOTEBOOK]> m))))))
   (upd_visible
      (λ v, v ∪ list_to_set (vbox :: menubar :: notebook :: items))
   (upd_submenu (insert_all with_submenu (λ i, i + k))
   (upd_menu_accel
      (insert_all ((λ i, i + k) <$> with_submenu) (λ _, accel))
   (upd_accel_groups (λ a, a ∪ {[(win, accel)]}) s))))))))).

Definition deref_convwin (p : gpointer) (s : World) : option PidginWindow :=
  match p with
  | PConvWin addr => convwins s !! addr
  | _ => None
  end.

(** [gtkconvwin->window = w]. *)
Definition set_conv_window (p : gpointer) (w : option widget) (s : World)
    : World :=
  match p with
  | PConvWin addr =>
      upd_convwins
        (alter (λ cw, {| conv_window := w; conv_notebook := conv_notebook cw;
                         conv_menubar := conv_menubar cw |}) addr) s
  | _ => s
  end.

Definition pidgin_conv_window_show (cw : PidginWindow) (s : World) : World :=
  match conv_window cw with
  | Some w => gtk_widget_show w s
  | None => s
  end.

(** ** The plugin outside merge.c *)

(** Modelled from the spec: the preference keys, defined in plugin.h, which
    is not among the sources.  The spec names three persisted keys, "pane
    width, pane height, pane placement side"; the strings are the plugin's
    own subtree of the host's preference store. *)
Definition PREF_HEIGHT : string := "/plugins/gtk/window_merge/blist_height".
Definition PREF_WIDTH : string := "/plugins/gtk/window_merge/blist_width".
Definition PREF_SIDE : string := "/plugins/gtk/window_merge/convs_side".

(** Modelled from the spec: [pwm_store], [pwm_fetch] and [pwm_clear], macros
    of window_merge.h, which is not among the sources.  The spec describes
    the saved-state slots as "data associated with a given buddy-list
    window" held through "generic key-value tagging on toolkit widgets";
    like the "pwm_convs" tag that merge.c sets by hand, a slot is object
    data of the buddy list's notebook under the slot's name prefixed with
    "pwm_". *)
Definition pwm_store (gtkblist : PidginBuddyList) (id : string)
    (value : gpointer) (s : World) : World :=
  g_object_set_data (blist_notebook gtkblist) (String.append "pwm_" id) value s.

Definition pwm_fetch (gtkblist : PidginBuddyList) (id : string) (s : World)
    : gpointer :=
  g_object_get_data (blist_notebook gtkblist) (String.append "pwm_" id) s.

Definition pwm_clear (gtkblist : PidginBuddyList) (id : string) (s : World)
    : World :=
  g_object_steal_data (blist_notebook gtkblist) (String.append "pwm_" id) s.

(** Modelled from the spec: [pwm_blist_get_convs] of window_merge.h reads the
    buddy list's side of the "bidirectional pointers attached via generic
    key-value tagging", the tag merge.c sets with
    [g_object_set_data (gtkblist->notebook, "pwm_convs", gtkconvwin)]. *)
Definition pwm_blist_get_convs (gtkblist : PidginBuddyList) (s : World)
    : gpointer :=
  g_object_get_data (blist_notebook gtkblist) "pwm_convs" s.

Definition list_subst (x y : nat) (l : list nat) : list nat :=
  (λ z, if decide (z = x) then y else z) <$> l.

(** [replacement] takes the slot of [original] in a container. *)
Definition container_substitute (original replacement : widget)
    (c : container) : container :=
  match c with
  | Children l => Children (list_subst original replacement l)
  | Paned p =>
      let p := if decide (child1 p = Some original)
               then paned_set_child1 (Some replacement) (child1_resize p) p
               else p in
      let p := if decide (child2 p = Some original)
               then paned_set_child2 (Some replacement) (child2_resize p) p
               else p in
      Paned p
  end.

(** Modelled from the spec: [pwm_widget_replace] is defined in
    window_merge.c, which is not among the sources.  The spec speaks of
    "reparenting widgets" and of a placeholder and a paned container "used
    to reverse the merge later"; merge.c calls it as
    (original, replacement, new parent of the original or [NULL]).  The
    replacement is taken out of wherever it is and put in the place of the
    original under the original's parent; the original moves to its new
    parent or, without one, is destroyed.  Nothing happens without an
    original, a replacement, or a parent of the original. *)
Definition pwm_widget_replace (original replacement new_parent : option widget)
    (s : World) : World :=
  match original, replacement with
  | Some o, Some r =>
      match gtk_widget_get_parent o s with
      | None => s
      | Some p =>
          let s := match gtk_widget_get_parent r s with
                   | Some q => gtk_container_remove q r s
                   | None => s
                   end in
          let s := upd_parent (λ m, <[r := p]> (delete o m))
                     (upd_containers (alter (container_substitute o r) p) s) in
          match new_parent with
          | Some np => gtk_container_add np o s
          | None => gtk_widget_destroy o s
          end
      end
  | _, _ => s
  end.

(** Modelled from the spec: the three functions of the instructions tab are
    defined in window_merge.c, which is not among the sources, and the spec
    does not describe them; merge.c says of them "display instructions for
    users" and "free its instructions tab".  The tab is kept in a slot of
    its own, is a page of the conversation notebook while shown, and is
    destroyed when freed. *)
Definition pwm_init_dummy_conversation (gtkblist : PidginBuddyList)
    (s : World) : World :=
  if decide (pwm_fetch gtkblist "fake_tab" s ≠ NULL) then s
  else
    let '(tab, s) := gtk_label_new s in
    pwm_store gtkblist "fake_tab" (PWidget tab) s.

Definition pwm_show_dummy_conversation (gtkblist : PidginBuddyList)
    (s : World) : World :=
  match deref_convwin (pwm_blist_get_convs gtkblist s) s,
        as_widget (pwm_fetch gtkblist "fake_tab" s) with
  | Some cw, Some tab => gtk_container_add (conv_notebook cw) tab s
  | _, _ => s
  end.

Definition pwm_free_dummy_conversation (gtkblist : PidginBuddyList)
    (s : World) : World :=
  match as_widget (pwm_fetch gtkblist "fake_tab" s) with
  | Some tab => pwm_clear gtkblist "fake_tab" (gtk_widget_destroy tab s)
  | None => s
  end.

(** * merge.c *)

Definition as_blist (p : gpointer) : option PidginBuddyList :=
  match p with PBlist b => Some b | _ => None end.

(** The first character a [char *] points at: the terminating NUL for an
    empty string. *)
Definition first_char (str : string) : ascii :=
  match str with
  | String c _ => c
  | EmptyString => Ascii.zero
  end.

(** The test of merge.c on the preference string: [side] is not [NULL] and
    its first character is [a] or [b]. *)
Definition side_is (side : option string) (a b : ascii) : bool :=
  match side with
  | Some str =>
      bool_decide (first_char str = a) || bool_decide (first_char str = b)
  | None => false
  end.

(** ** The callbacks

    A callback runs inside a signal emission and may itself cause one:
    [gtk_paned_set_position] notifies "position", [gtk_widget_event]
    delivers a "focus-in-event".  The callbacks are therefore written over
    the emission function [emit] they are run by; [None] stands for a run
    without a defined result (a [NULL] or mistyped pointer dereferenced, an
    unset variable read, or the emission depth exhausted). *)
Section callbacks.

Variable emit : widget → string → World → option World.

(** [gtk_paned_set_position]: a negative position only unsets
    "position-set"; both properties are notified. *)
Definition gtk_paned_set_position (paned : widget) (position : Z)
    (s : World) : option World :=
  match as_paned paned s with
  | Some p =>
      let p := if decide (0 ≤ position)%Z
               then paned_set_position position true p
               else paned_set_position (child1_size p) false p in
      let s := upd_containers (insert paned (Paned p)) s in
      s ← emit paned "notify::position" s;
      emit paned "notify::position-set" s
  | None => Some s
  end.

(** [gtk_widget_event] for a focus change. *)
Definition gtk_widget_event_focus_in (w : option widget) (s : World)
    : option World :=
  match w with
  | Some w =>
      emit w "focus-in-event"
        (upd_events (λ es, es ++ [(w, "focus-in-event")]) s)
  | None => Some s
  end.

(** merge.c, lines 47-68. *)
Definition notify_position_cb (gobject : widget) (data : gpointer)
    (s : World) : option World :=
  gtkblist ← as_blist data;
  let size := gtk_paned_get_position gobject s in
  (* If the Buddy List is not the first pane, invert the size preference. *)
  size ← (if decide (gtk_paned_get_child1 gobject s
                     ≠ Some (blist_notebook gtkblist))
          then max_position ← g_object_get_max_position gobject s;
               Some (gint (max_position - size))
          else Some size);
  (* Store this size as a user preference (depending on orientation). *)
  if GTK_IS_VPANED gobject s
  then Some (purple_prefs_set_int PREF_HEIGHT size s)
  else Some (purple_prefs_set_int PREF_WIDTH size s).

(** merge.c, lines 83-114. *)
Definition notify_max_position_cb (gobject : widget) (data : gpointer)
    (s : World) : option World :=
  gtkblist ← as_blist data;
  (* Fetch the user's preferred Buddy List size. *)
  let size := if GTK_IS_VPANED gobject s
              then purple_prefs_get_int PREF_HEIGHT s
              else purple_prefs_get_int PREF_WIDTH s in
  (* If the Buddy List is not the first pane, invert the size preference. *)
  size ← (if decide (gtk_paned_get_child1 gobject s
                     ≠ Some (blist_notebook gtkblist))
          then max_position ← g_object_get_max_position gobject s;
               Some (gint (max_position - size))
          else Some size);
  (* Adjust the panes' slider. *)
  s ← gtk_paned_set_position gobject size s;
  (* Disconnect this callback. *)
  let s := g_object_disconnect gobject "any_signal"
             cb_notify_max_position data s in
  (* Now monitor user changes. *)
  Some (g_object_connect gobject "signal::notify::position"
          cb_notify_position data s).

(** merge.c, lines 128-148.  The return value, always [FALSE], lets the
    emission go on and is not represented. *)
Definition focus_in_event_cb (data : gpointer) (s : World) : option World :=
  let other_widget := as_widget data in
  gtk_widget_event_focus_in other_widget s.

Definition run_callback (h : handler) (s : World) : option World :=
  match h_callback h with
  | cb_notify_position => notify_position_cb (h_object h) (h_data h) s
  | cb_notify_max_position =>
      notify_max_position_cb (h_object h) (h_data h) s
  | cb_focus_in_event => focus_in_event_cb (h_data h) s
  end.

(** The handlers of one emission, taken when it starts; one that has been
    disconnected in the meantime is passed over. *)
Fixpoint run_handlers (hs : list handler) (s : World) : option World :=
  match hs with
  | [] => Some s
  | h :: rest =>
      s ← (if decide (h ∈ handlers s) then run_callback h s else Some s);
      run_handlers rest s
  end.

End callbacks.

Definition handlers_of (obj : widget) (sig : string) (s : World)
    : list handler :=
  filter (λ h, h_object h = obj ∧ h_signal h = sig) (handlers s).

(** Signal emission, nested at most [depth] deep. *)
Fixpoint g_signal_emit (depth : nat) (obj : widget) (sig : string) (s : World)
    : option World :=
  match depth with
  | 0 => None
  | S d => run_handlers (g_signal_emit d) (handlers_of obj sig s) s
  end.

Arguments g_signal_emit : simpl never.

(** ** Layout, merge and split *)

(** merge.c, lines 319-376. *)
Definition pwm_create_paned_layout (gtkblist : PidginBuddyList)
    (side : option string) (s : World) : option World :=
  let gtkconvwin := pwm_blist_get_convs gtkblist s in
  let old_paned := pwm_fetch gtkblist "paned" s in
  (* Create the requested vertical or horizontal paned layout. *)
  let '(paned, s) := if side_is side "t"%char "b"%char
                     then gtk_vpaned_new s else gtk_hpaned_new s in
  let s := gtk_widget_show paned s in
  let s := pwm_store gtkblist "paned" (PWidget paned) s in
  (* When the size of the panes is determined, reset the Buddy List size. *)
  let s := g_object_connect paned "signal::notify::max-position"
             cb_notify_max_position (PBlist gtkblist) s in
  cw ← deref_convwin gtkconvwin s;
  let s :=
    if decide (old_paned = NULL) then
      (* If the Buddy List is pristine, make the panes and replace its
         notebook. *)
      let '(placeholder, s) := gtk_label_new s in
      let s :=
        if side_is side "t"%char "l"%char then
          let s := pwm_widget_replace (Some (conv_notebook cw))
                     (Some placeholder) (Some paned) s in
          pwm_widget_replace (Some (blist_notebook gtkblist))
            (Some paned) (Some paned) s
        else
          let s := pwm_widget_replace (Some (blist_notebook gtkblist))
                     (Some paned) (Some paned) s in
          pwm_widget_replace (Some (conv_notebook cw))
            (Some placeholder) (Some paned) s in
      pwm_store gtkblist "placeholder" (PWidget placeholder) s
    else
      (* If existing panes are being replaced, define the new layout and
         use it. *)
      let s :=
        if side_is side "t"%char "l"%char then
          let s := gtk_widget_reparent (conv_notebook cw) (Some paned) s in
          gtk_widget_reparent (blist_notebook gtkblist) (Some paned) s
        else
          let s := gtk_widget_reparent (blist_notebook gtkblist)
                     (Some paned) s in
          gtk_widget_reparent (conv_notebook cw) (Some paned) s in
      pwm_widget_replace (as_widget old_paned) (Some paned) None s in
  (* Make conversations resize with the window so the Buddy List is fixed. *)
  let s := gtk_container_child_set_resize paned (conv_notebook cw) true s in
  let s := gtk_container_child_set_resize paned (blist_notebook gtkblist)
             false s in
  Some s.

(** merge.c, lines 385-400. *)
Definition pwm_set_conv_menus_visible (gtkblist : PidginBuddyList)
    (visible : bool) (s : World) : World :=
  let items := as_glist (pwm_fetch gtkblist "conv_menus" s) in
  if visible
  then foldl (λ s item, gtk_widget_show item s) s items
  else foldl (λ s item, gtk_widget_hide item s) s items.

(** Body of the loop of merge.c, lines 192-204. *)
Definition merge_conv_menu_item (gtkblist : PidginBuddyList)
    (blist_menu : option widget) (s : World) (item : widget) : World :=
  let s := gtk_widget_reparent item blist_menu s in
  (* Register the submenus' accelerator groups with the Buddy List window. *)
  if GTK_IS_MENU_ITEM item s then
    let submenu := gtk_menu_item_get_submenu item s in
    if GTK_IS_MENU submenu s
    then gtk_window_add_accel_group (blist_window gtkblist)
           (gtk_menu_get_accel_group submenu s) s
    else s
  else s.

(** merge.c, lines 160-230. *)
Definition pwm_merge_conversation (gtkblist : PidginBuddyList) (s : World)
    : option World :=
  (* Sanity check: If the Buddy List is already merged, don't mess with it. *)
  if decide (pwm_blist_get_convs gtkblist s ≠ NULL) then Some s
  else
    let blist_menu := gtk_widget_get_parent (blist_menutray gtkblist) s in
    let '(addr, s) := pidgin_conv_window_new s in
    let gtkconvwin := PConvWin addr in
    cw ← deref_convwin gtkconvwin s;
    (* Tie the Buddy List and conversation window instances together. *)
    let s := g_object_set_data (blist_notebook gtkblist) "pwm_convs"
               gtkconvwin s in
    let s := g_object_set_data (conv_notebook cw) "pwm_blist"
               (PBlist gtkblist) s in
    (* Backup the Buddy List window title for restoring it later. *)
    let s := pwm_store gtkblist "title"
               (of_string (gtk_window_get_title (blist_window gtkblist) s))
               s in
    (* Move the conversation notebook into the Buddy List window. *)
    s ← pwm_create_paned_layout gtkblist (purple_prefs_get_string PREF_SIDE s)
          s;
    (* Migrate conversation menu items into the Buddy List bar. *)
    let items := gtk_container_get_children (conv_menubar cw) s in
    let s := gtk_widget_reparent (blist_menutray gtkblist)
               (Some (conv_menubar cw)) s in
    let s := foldl (merge_conv_menu_item gtkblist blist_menu) s items in
    let s := gtk_widget_reparent (blist_menutray gtkblist) blist_menu s in
    let s := pwm_store gtkblist "conv_menus" (of_glist items) s in
    (* Display instructions for users, and hide menu items for real convs. *)
    let s := pwm_init_dummy_conversation gtkblist s in
    let s := pwm_show_dummy_conversation gtkblist s in
    let s := pwm_set_conv_menus_visible gtkblist false s in
    (* Pass focus events from Buddy List to conversation window. *)
    let s := g_object_connect (blist_window gtkblist) "signal::focus-in-event"
               cb_focus_in_event (of_widget (conv_window cw)) s in
    (* Point the conversation window structure at the Buddy List's window. *)
    let s := pwm_store gtkblist "conv_window" (of_widget (conv_window cw)) s in
    let s := set_conv_window gtkconvwin (Some (blist_window gtkblist)) s in
    (* Block these "move-cursor" bindings for conversation event handlers. *)
    let s := gtk_binding_entry_skip GDK_Up GDK_CONTROL_MASK s in
    let s := gtk_binding_entry_skip GDK_Down GDK_CONTROL_MASK s in
    let s := gtk_binding_entry_skip GDK_Page_Up GDK_CONTROL_MASK s in
    let s := gtk_binding_entry_skip GDK_Page_Down GDK_CONTROL_MASK s in
    let s := gtk_binding_entry_skip GDK_KP_Page_Up GDK_CONTROL_MASK s in
    let s := gtk_binding_entry_skip GDK_KP_Page_Down GDK_CONTROL_MASK s in
    Some s.

(** Body of the loop of merge.c, lines 270-282. *)
Definition split_conv_menu_item (gtkblist : PidginBuddyList)
    (menubar : widget) (s : World) (item : widget) : World :=
  (* Remove the submenus' accelerator groups from the Buddy List window. *)
  let s :=
    if GTK_IS_MENU_ITEM item s then
      let submenu := gtk_menu_item_get_submenu item s in
      if GTK_IS_MENU submenu s
      then gtk_window_remove_accel_group (blist_window gtkblist)
             (gtk_menu_get_accel_group submenu s) s
      else s
    else s in
  gtk_widget_reparent item (Some menubar) s.

(** merge.c, lines 242-304. *)
Definition pwm_split_conversation (gtkblist : PidginBuddyList) (s : World)
    : option World :=
  let gtkconvwin := pwm_blist_get_convs gtkblist s in
  let items := as_glist (pwm_fetch gtkblist "conv_menus" s) in
  let paned := as_widget (pwm_fetch gtkblist "paned" s) in
  let title := as_string (pwm_fetch gtkblist "title" s) in
  (* End the association between the Buddy List and its conversation
     window. *)
  let s := g_object_steal_data (blist_notebook gtkblist) "pwm_convs" s in
  cw ← deref_convwin gtkconvwin s;
  let s := g_object_steal_data (conv_notebook cw) "pwm_blist" s in
  (* Point the conversation window's structure back to its original
     window. *)
  let window := as_widget (pwm_fetch gtkblist "conv_window" s) in
  let s := set_conv_window gtkconvwin window s in
  let s := pwm_clear gtkblist "conv_window" s in
  (* Stop passing focus events from Buddy List to conversation window. *)
  let s := g_object_disconnect (blist_window gtkblist) "any_signal"
             cb_focus_in_event (of_widget window) s in
  (* Return the conversation menu items to their original window's menu
     bar. *)
  let s := foldl (split_conv_menu_item gtkblist (conv_menubar cw)) s items in
  let s := pwm_clear gtkblist "conv_menus" s in
  (* Restore the conversation window's notebook. *)
  let s := pwm_widget_replace (as_widget (pwm_fetch gtkblist "placeholder" s))
             (Some (conv_notebook cw)) None s in
  let s := pwm_clear gtkblist "placeholder" s in
  (* Display the conversation window, and free its instructions tab. *)
  cw' ← deref_convwin gtkconvwin s;
  let s := pidgin_conv_window_show cw' s in
  let s := pwm_free_dummy_conversation gtkblist s in
  (* Restore the Buddy List's original structure, and destroy the panes. *)
  let s := pwm_widget_replace paned (Some (blist_notebook gtkblist)) None s in
  let s := pwm_clear gtkblist "paned" s in
  (* Restore the window title and icons from before conversations set
     them. *)
  let s := gtk_window_set_icon_list (blist_window gtkblist) [] s in
  let s := gtk_window_set_title (blist_window gtkblist) title s in
  let s := pwm_clear gtkblist "title" s in
  Some s.

(** * Vocabulary of the statements *)

(** The range the toolkit keeps the "position" and "max-position"
    properties of a paned in. *)
Definition paned_in_range (p : GtkPaned) : Prop :=
  (0 ≤ child1_size p ≤ G_MAXINT)%Z ∧ (0 ≤ max_position p ≤ G_MAXINT)%Z.

(** A handler that only records the slider of a paned. *)
Definition quiet_handler (s : World) (h : handler) : Prop :=
  h_callback h = cb_notify_position ∧ is_Some (as_blist (h_data h))
  ∧ is_Some (as_paned (h_object h) s).

(** Nothing but [notify_position_cb] listens to the slider of [gobject]. *)
Definition position_watchers_only (gobject : widget) (s : World) : Prop :=
  ∀ h, h ∈ handlers s → h_object h = gobject →
       h_signal h = "notify::position" ∨ h_signal h = "notify::position-set" →
       h_callback h = cb_notify_position ∧ is_Some (as_blist (h_data h)).

(** A pointer to a widget points below [n]. *)
Definition data_below (n : nat) (p : gpointer) : Prop :=
  match p with
  | PWidget w => w < n
  | _ => True
  end.

#[global] Instance data_below_dec n p : Decision (data_below n p).
Proof. destruct p; cbn; apply _. Defined.

(** No table of the world mentions an address from [n] on: what the
    allocator hands out next is new everywhere. *)
Definition unused_from (n : nat) (s : World) : Prop :=
  map_Forall (λ w _, w < n) (parent s)
  ∧ map_Forall (λ w c, w < n ∧ Forall (λ x, x < n) (container_children c))
      (containers s)
  ∧ map_Forall (λ w _, w < n) (gtype s)
  ∧ set_Forall (λ w, w < n) (visible s)
  ∧ map_Forall (λ w _, w < n) (title s)
  ∧ map_Forall (λ w _, w < n) (icon_list s)
  ∧ set_Forall (λ wg, wg.1 < n ∧ wg.2 < n) (accel_groups s)
  ∧ map_Forall (λ w _, w < n) (submenu s)
  ∧ map_Forall (λ w _, w < n) (menu_accel s)
  ∧ map_Forall (λ k _, k.1 < n) (object_data s)
  ∧ Forall (λ h, h_object h < n ∧ data_below n (h_data h)) (handlers s)
  ∧ map_Forall (λ w _, w < n) (convwins s).

#[global] Instance unused_from_dec n s : Decision (unused_from n s).
Proof. unfold unused_from. apply _. Defined.

(** The paned that [pwm_create_paned_layout] builds: conversations first or
    last, the conversations resizing with the window. *)
Definition paned_layout (is_vertical convs_first : bool) (nb cnb : widget)
    : GtkPaned :=
  {| vertical := is_vertical;
     child1 := Some (if convs_first then cnb else nb);
     child2 := Some (if convs_first then nb else cnb);
     child1_resize := convs_first; child2_resize := negb convs_first;
     child1_size := 0; position_set := false; max_position := G_MAXINT |}.

Definition max_position_handler (paned : widget) (b : PidginBuddyList)
    : handler :=
  {| h_object := paned; h_signal := "notify::max-position";
     h_callback := cb_notify_max_position; h_data := PBlist b |}.

Definition position_handler (paned : widget) (b : PidginBuddyList)
    : handler :=
  {| h_object := paned; h_signal := "notify::position";
     h_callback := cb_notify_position; h_data := PBlist b |}.

(** The preference string is not [NULL] and starts with [a] or [b]. *)
Definition side_starts_with (side : option string) (a b : ascii) : Prop :=
  ∃ str, side = Some str ∧ (first_char str = a ∨ first_char str = b).

(** A buddy list tied to a conversation window [cw] but still laid out as
    the host built it: no paned yet, each notebook a child of a box of its
    own window. *)
Record layout_initial (b : PidginBuddyList) (cw : PidginWindow)
    (box cbox : widget) (bl cl : list widget) (s : World) : Prop := {
  li_convs : deref_convwin (pwm_blist_get_convs b s) s = Some cw;
  li_no_paned : pwm_fetch b "paned" s = NULL;
  li_unused : unused_from (next_id s) s;
  li_nb : parent s !! blist_notebook b = Some box;
  li_box : containers s !! box = Some (Children bl);
  li_cnb : parent s !! conv_notebook cw = Some cbox;
  li_cbox : containers s !! cbox = Some (Children cl);
  li_distinct : NoDup [blist_notebook b; conv_notebook cw; box; cbox]
}.

(** The world [pwm_create_paned_layout] makes of such a buddy list. *)
Definition laid_out_initial (b : PidginBuddyList) (cw : PidginWindow)
    (box cbox : widget) (bl cl : list widget) (side : option string)
    (s : World) : World :=
  let n := next_id s in
  let nb := blist_notebook b in
  let cnb := conv_notebook cw in
  {| next_id := S (S n);
     parent := <[nb := n]> (<[cnb := n]> (<[n := box]>
                 (<[S n := cbox]> (parent s))));
     containers :=
       <[n := Paned (paned_layout (side_is side "t" "b")
                       (side_is side "t" "l") nb cnb)]>
         (<[box := Children (list_subst nb n bl)]>
            (<[cbox := Children (list_subst cnb (S n) cl)]> (containers s)));
     gtype := <[S n := GTK_TYPE_LABEL]> (<[n := GTK_TYPE_PANED]> (gtype s));
     visible := visible s ∪ {[n]};
     title := title s; icon_list := icon_list s;
     accel_groups := accel_groups s; submenu := submenu s;
     menu_accel := menu_accel s;
     object_data := <[(nb, "pwm_placeholder") := PWidget (S n)]>
                      (<[(nb, "pwm_paned") := PWidget n]> (object_data s));
     handlers := handlers s ++ [max_position_handler n b];
     convwins := convwins s; prefs_int := prefs_int s;
     prefs_string := prefs_string s; imhtml_bindings := imhtml_bindings s;
     events := events s; host_conv_menus := host_conv_menus s |}.

(** A merged buddy list: the paned [old] of the slot holds the two
    notebooks and sits in the container [q]. *)
Record layout_merged (b : PidginBuddyList) (cw : PidginWindow)
    (old q : widget) (po : GtkPaned) (cq : container) (s : World) : Prop := {
  lm_convs : deref_convwin (pwm_blist_get_convs b s) s = Some cw;
  lm_paned : pwm_fetch b "paned" s = PWidget old;
  lm_unused : unused_from (next_id s) s;
  lm_old : containers s !! old = Some (Paned po);
  lm_children :
    (child1 po = Some (blist_notebook b)
     ∧ child2 po = Some (conv_notebook cw))
    ∨ (child1 po = Some (conv_notebook cw)
       ∧ child2 po = Some (blist_notebook b));
  lm_nb : parent s !! blist_notebook b = Some old;
  lm_cnb : parent s !! conv_notebook cw = Some old;
  lm_q : parent s !! old = Some q;
  lm_cq : containers s !! q = Some cq;
  lm_distinct : NoDup [blist_notebook b; conv_notebook cw; old; q]
}.

(** The world [pwm_create_paned_layout] makes of a merged buddy list. *)
Definition laid_out_again (b : PidginBuddyList) (cw : PidginWindow)
    (old q : widget) (cq : container) (side : option string)
    (s : World) : World :=
  let n := next_id s in
  let nb := blist_notebook b in
  let cnb := conv_notebook cw in
  {| next_id := S n;
     parent := <[nb := n]> (<[cnb := n]> (<[n := q]> (delete old (parent s))));
     containers :=
       <[n := Paned (paned_layout (side_is side "t" "b")
                       (side_is side "t" "l") nb cnb)]>
         (<[q := container_substitute old n cq]> (delete old (containers s)));
     gtype := delete old (<[n := GTK_TYPE_PANED]> (gtype s));
     visible := (visible s ∪ {[n]}) ∖ {[old]};
     title := delete old (title s);
     icon_list := delete old (icon_list s);
     accel_groups := filter (λ wg, wg.1 ≠ old) (accel_groups s);
     submenu := delete old (submenu s);
     menu_accel := delete old (menu_accel s);
     object_data := filter (λ kv, kv.1.1 ≠ old)
                      (<[(nb, "pwm_paned") := PWidget n]> (object_data s));
     handlers := filter (λ h, h_object h ≠ old)
                   (handlers s ++ [max_position_handler n b]);
     convwins := convwins s; prefs_int := prefs_int s;
     prefs_string := prefs_string s; imhtml_bindings := imhtml_bindings s;
     events := events s; host_conv_menus := host_conv_menus s |}.

(** Either of the two situations [pwm_create_paned_layout] is written for;
    [cw] is the conversation window the buddy list is tied to. *)
Definition layout_ready (b : PidginBuddyList) (cw : PidginWindow) (s : World)
    : Prop :=
  (∃ box cbox bl cl, layout_initial b cw box cbox bl cl s)
  ∨ (∃ old q po cq, layout_merged b cw old q po cq s).

Arguments gtk_widget_destroy : simpl never.
Arguments gtk_container_add : simpl never.
Arguments gtk_container_remove : simpl never.
Arguments gtk_widget_reparent : simpl never.
Arguments pwm_widget_replace : simpl never.
Arguments signal_of_spec : simpl never.

(** Two worlds with the same object data and the same conversation
    windows. *)
Definition same_data (s s' : World) : Prop :=
  object_data s' = object_data s ∧ convwins s' = convwins s.

(** From [s] to [s'] object data may have gone but none has come, and the
    conversation windows are the same. *)
Definition less_data (s s' : World) : Prop :=
  object_data s' ⊆ object_data s ∧ convwins s' = convwins s.

(** The saved-state slots of a merge, as keys of the object data of the
    buddy list's notebook. *)
Definition merge_slots : list string :=
  ["pwm_conv_window"; "pwm_conv_menus"; "pwm_placeholder"; "pwm_paned";
   "pwm_title"].

(** [g_object_set_data] on the table of object data. *)
Definition set_data_map (k : nat * string) (v : gpointer)
    (m : gmap (nat * string) gpointer) : gmap (nat * string) gpointer :=
  match v with
  | NULL => delete k m
  | _ => <[k := v]> m
  end.

(** The accelerator group that the loops of merge and split register for a
    menu item: that of its submenu, when it is a menu item with a menu for
    a submenu. *)
Definition item_accel_group (s : World) (item : widget) : option nat :=
  if GTK_IS_MENU_ITEM item s then
    let submenu := gtk_menu_item_get_submenu item s in
    if GTK_IS_MENU submenu s then gtk_menu_get_accel_group submenu s
    else None
  else None.

Definition accel_pair (w : widget) (g : option nat) : gset (nat * nat) :=
  from_option (λ g, {[(w, g)]}) ∅ g.

Fixpoint accel_pairs (w : widget) (gs : list (option nat))
    : gset (nat * nat) :=
  match gs with
  | [] => ∅
  | g :: rest => accel_pair w g ∪ accel_pairs w rest
  end.

(** All keys of a table, and all children of the containers, are below
    [n]. *)
Definition below (n : nat) {V} (m : gmap nat V) : Prop :=
  map_Forall (λ w _, w < n) m.

Definition cbelow (n : nat) (m : gmap nat container) : Prop :=
  map_Forall (λ w c, w < n ∧ Forall (λ x, x < n) (container_children c)) m.

(** The world with one more conversation window, as the host creates it. *)
Definition conv_world (s : World) : World := (pidgin_conv_window_new s).2.

(** A buddy list as the host built it, with no merge data attached: the
    notebook is a child of the box [box] (children [bl]), the menu tray the
    last child of the menu bar [menu] (children [pre] before it). *)
Definition pristine (b : PidginBuddyList) (box menu : widget)
    (bl pre : list widget) (s : World) : Prop :=
  unused_from (next_id s) s
  ∧ (blist_window b < next_id s)
  ∧ Forall (λ key, object_data s !! (blist_notebook b, key) = None)
      ("pwm_convs" :: "pwm_fake_tab" :: merge_slots)
  ∧ parent s !! blist_notebook b = Some box
  ∧ containers s !! box = Some (Children bl)
  ∧ parent s !! blist_menutray b = Some menu
  ∧ containers s !! menu = Some (Children (pre ++ [blist_menutray b]))
  ∧ (blist_menutray b ∉ pre)
  ∧ NoDup [blist_notebook b; box; menu; blist_menutray b].

#[global] Instance pristine_dec b box menu bl pre s :
  Decision (pristine b box menu bl pre s).
Proof. unfold pristine. apply _. Defined.


(** The accelerator groups of the menu items of a new conversation window,
    item by item. *)
Definition conv_item_accels (s : World) : list (option nat) :=
  let n := next_id s in
  (λ i, if decide (i ∈ flagged (n + 6) (host_conv_menus s))
        then Some (n + 5) else None)
  <$> seq (n + 6) (length (host_conv_menus s)).

Definition focus_handler (b : PidginBuddyList) (convwin : widget) : handler :=
  {| h_object := blist_window b; h_signal := "focus-in-event";
     h_callback := cb_focus_in_event; h_data := PWidget convwin |}.

Definition skip_move_cursor (m : gmap (N * N) GtkBindingEntry)
    : gmap (N * N) GtkBindingEntry :=
  <[(GDK_KP_Page_Down, GDK_CONTROL_MASK) := Skipped]>
  (<[(GDK_KP_Page_Up, GDK_CONTROL_MASK) := Skipped]>
  (<[(GDK_Page_Down, GDK_CONTROL_MASK) := Skipped]>
  (<[(GDK_Page_Up, GDK_CONTROL_MASK) := Skipped]>
  (<[(GDK_Down, GDK_CONTROL_MASK) := Skipped]>
  (<[(GDK_Up, GDK_CONTROL_MASK) := Skipped]> m))))).

(** The world after [pwm_merge_conversation] on a pristine buddy list. *)
Definition merged_world (b : PidginBuddyList) (box menu : widget)
    (bl pre : list widget) (s : World) : World :=
  let σ := conv_world s in
  let n := next_id s in
  let k := length (host_conv_menus s) in
  let items := seq (n + 6) k in
  let pn := n + 6 + k + k in
  let nb := blist_notebook b in
  let cnb := n + 4 in
  let side := purple_prefs_get_string PREF_SIDE s in
  {| next_id := S (S (S pn));
     parent :=
       <[S (S pn) := cnb]> (<[nb := pn]> (<[cnb := pn]> (<[pn := box]>
         (<[S pn := n + 2]> (insert_all items (λ _, menu) (parent σ))))));
     containers :=
       <[cnb := Children [S (S pn)]]>
         (<[menu := Children (pre ++ items ++ [blist_menutray b])]>
            (<[n + 3 := Children []]>
               (<[pn := Paned (paned_layout (side_is side "t" "b")
                                 (side_is side "t" "l") nb cnb)]>
                  (<[box := Children (list_subst nb pn bl)]>
                     (<[n + 2 := Children [n + 3; S pn]]>
                        (containers σ))))));
     gtype := <[S (S pn) := GTK_TYPE_LABEL]>
                (<[S pn := GTK_TYPE_LABEL]>
                   (<[pn := GTK_TYPE_PANED]> (gtype σ)));
     visible := (visible σ ∪ {[pn]}) ∖ list_to_set items;
     title := title s; icon_list := icon_list s;
     accel_groups :=
       accel_groups σ ∪ accel_pairs (blist_window b) (conv_item_accels s);
     submenu := submenu σ; menu_accel := menu_accel σ;
     object_data :=
       <[(nb, "pwm_conv_window") := PWidget (n + 1)]>
         (<[(nb, "pwm_fake_tab") := PWidget (S (S pn))]>
            (set_data_map (nb, "pwm_conv_menus") (of_glist items)
               (<[(nb, "pwm_placeholder") := PWidget (S pn)]>
                  (<[(nb, "pwm_paned") := PWidget pn]>
                     (set_data_map (nb, "pwm_title")
                        (of_string (title s !! blist_window b))
                        (<[(cnb, "pwm_blist") := PBlist b]>
                           (<[(nb, "pwm_convs") := PConvWin n]>
                              (object_data s))))))));
     handlers := (handlers s ++ [max_position_handler pn b])
                 ++ [focus_handler b (n + 1)];
     convwins :=
       <[n := {| conv_window := Some (blist_window b);
                 conv_notebook := cnb; conv_menubar := n + 3 |}]>
         (convwins σ);
     prefs_int := prefs_int s; prefs_string := prefs_string s;
     imhtml_bindings := skip_move_cursor (imhtml_bindings s);
     events := events s; host_conv_menus := host_conv_menus s |}.


(** What is left after merging and splitting again: the world with a new
    conversation window, shown, its menu items hidden, the icon list of the
    buddy list window reset and the six move-cursor bindings skipped. *)
Definition split_world (b : PidginBuddyList) (s : World) : World :=
  let n := next_id s in
  let k := length (host_conv_menus s) in
  upd_next_id (λ _, S (S (S (n + 6 + k + k))))
    (upd_visible (λ v, (v ∖ list_to_set (seq (n + 6) k)) ∪ {[n + 1]})
       (upd_icon_list (delete (blist_window b))
          (upd_imhtml_bindings skip_move_cursor (conv_world s)))).

(** The buddy list and the conversation window at [addr] point at each
    other: the "pwm_convs" tag of the buddy list's notebook holds [addr],
    and the "pwm_blist" tag of the notebook of the window at [addr] holds
    the buddy list. *)
Definition tied (b : PidginBuddyList) (addr : nat) (s : World) : Prop :=
  pwm_blist_get_convs b s = PConvWin addr
  ∧ ∃ cw, convwins s !! addr = Some cw
          ∧ g_object_get_data (conv_notebook cw) "pwm_blist" s = PBlist b.

(** What merge.c does to a buddy list between a merge and the split: the
    panes are laid out again, the conversation menu items are shown or
    hidden, a merge is asked for once more, a signal is emitted and the
    callbacks run. *)
Inductive merged_step (b : PidginBuddyList) : World → World → Prop :=
  | step_layout side s s' :
      pwm_create_paned_layout b side s = Some s' → merged_step b s s'
  | step_menus visible s :
      merged_step b s (pwm_set_conv_menus_visible b visible s)
  | step_merge s s' :
      pwm_merge_conversation b s = Some s' → merged_step b s s'
  | step_emit depth obj sig s s' :
      g_signal_emit depth obj sig s = Some s' → merged_step b s s'.

(** Two entries of the container table with the same children in the same
    places. *)
Definition same_slot (o o' : option container) : Prop :=
  match o, o' with
  | None, None => True
  | Some (Children l), Some (Children l') => l' = l
  | Some (Paned p), Some (Paned p') =>
      child1 p' = child1 p ∧ child2 p' = child2 p
  | _, _ => False
  end.

(** What the callbacks of merge.c leave alone: they move the slider of a
    paned, write preferences, record events and connect or disconnect
    handlers of objects that had handlers before (with the same data). *)
Record emission_frame (s s' : World) : Prop := {
  ef_next_id : next_id s' = next_id s;
  ef_parent : parent s' = parent s;
  ef_containers : ∀ w, same_slot (containers s !! w) (containers s' !! w);
  ef_gtype : gtype s' = gtype s;
  ef_visible : visible s' = visible s;
  ef_title : title s' = title s;
  ef_icon_list : icon_list s' = icon_list s;
  ef_accel_groups : accel_groups s' = accel_groups s;
  ef_submenu : submenu s' = submenu s;
  ef_menu_accel : menu_accel s' = menu_accel s;
  ef_object_data : object_data s' = object_data s;
  ef_convwins : convwins s' = convwins s;
  ef_handlers : ∀ h', h' ∈ handlers s' →
                  ∃ h, h ∈ handlers s ∧ h_object h' = h_object h
                       ∧ h_data h' = h_data h
}.

(** A merged buddy list in good order: laid out in panes, tied to the
    conversation window at [addr], the stored menu items existing
    widgets. *)
Definition merged_inv (b : PidginBuddyList) (addr : nat) (s : World) : Prop :=
  ∃ cw old q po cq,
    layout_merged b cw old q po cq s
    ∧ pwm_blist_get_convs b s = PConvWin addr
    ∧ g_object_get_data (conv_notebook cw) "pwm_blist" s = PBlist b
    ∧ Forall (λ i, i < next_id s) (as_glist (pwm_fetch b "conv_menus" s)).

(** ** A sample session

    A buddy list window (1) holding a box (2) with the menu bar (3: two items
    and the menu tray 7) and the notebook (4); the host builds conversation
    windows with three menu items, two of them with a submenu; the user
    prefers the conversations on the left. *)
Definition sample_world : World :=
  {| next_id := 10;
     parent := list_to_map [(2, 1); (3, 2); (4, 2); (5, 3); (6, 3); (7, 3)];
     containers :=
       list_to_map [(1, Children [2]); (2, Children [3; 4]);
                    (3, Children [5; 6; 7]); (4, Children [])];
     gtype :=
       list_to_map [(1, GTK_TYPE_WINDOW); (2, GTK_TYPE_BOX);
                    (3, GTK_TYPE_MENU_BAR); (4, GTK_TYPE_NOTEBOOK);
                    (5, GTK_TYPE_MENU_ITEM); (6, GTK_TYPE_MENU_ITEM);
                    (7, GTK_TYPE_MENU_ITEM)];
     visible := list_to_set [1; 2; 3; 4; 5; 6; 7];
     title := {[ 1 := "Buddy List" ]};
     icon_list := ∅; accel_groups := ∅; submenu := ∅; menu_accel := ∅;
     object_data := ∅; handlers := []; convwins := ∅;
     prefs_int := ∅; prefs_string := {[ PREF_SIDE := "left" ]};
     imhtml_bindings :=
       {[ (GDK_Up, GDK_CONTROL_MASK) := Bound ["move-cursor"] ]};
     events := []; host_conv_menus := [true; true; false] |}.

Definition sample_blist : PidginBuddyList :=
  {| blist_window := 1; blist_notebook := 4; blist_menutray := 7 |}.

(** The sample buddy list merged: the conversation window structure is at
    address 10 (window 11, box 12, menu bar 13, notebook 14, menu items 16 to
    18), the paned is 22. *)
Definition sample_merged : World :=
  merged_world sample_blist 2 3 [3; 4] [5; 6] sample_world.

Definition sample_convwin : PidginWindow :=
  {| conv_window := Some 1; conv_notebook := 14; conv_menubar := 13 |}.

(** The paned of the sample once it has a size (800) and the user has
    dragged the slider to 550, which leaves 250 for the buddy list in the
    second pane. *)
Definition sample_paned : GtkPaned :=
  {| vertical := false; child1 := Some 14; child2 := Some 4;
     child1_resize := true; child2_resize := false;
     child1_size := 550; position_set := true; max_position := 800 |}.

Definition sample_sized : World :=
  upd_containers (insert 22 (Paned sample_paned)) sample_merged.

(** A later world with that size stored as the preference and the slider
    not yet placed. *)
Definition sample_later : World :=
  upd_containers (insert 22 (Paned (paned_set_position 0 false sample_paned)))
    (purple_prefs_set_int PREF_WIDTH 250 sample_sized).

(** ** Vocabulary of the further properties *)

(** The six keys of the GtkIMHtml binding set that
    [pwm_merge_conversation] skips (merge.c, lines 224-229). *)
Definition move_cursor_keys : list (N * N) :=
  [(GDK_Up, GDK_CONTROL_MASK); (GDK_Down, GDK_CONTROL_MASK);
   (GDK_Page_Up, GDK_CONTROL_MASK); (GDK_Page_Down, GDK_CONTROL_MASK);
   (GDK_KP_Page_Up, GDK_CONTROL_MASK); (GDK_KP_Page_Down, GDK_CONTROL_MASK)].

(** A merge followed at once by the split, and a number of such cycles. *)
Definition merge_split (b : PidginBuddyList) (s : World) : option World :=
  s ← pwm_merge_conversation b s; pwm_split_conversation b s.

Fixpoint merge_split_cycles (k : nat) (b : PidginBuddyList) (s : World)
    : option World :=
  match k with
  | 0 => Some s
  | S k => s ← merge_split b s; merge_split_cycles k b s
  end.

(** [pwm_create_paned_layout] called once for each side of a list, as when
    the user changes the placement preference again and again. *)
Fixpoint pwm_create_paned_layouts (b : PidginBuddyList)
    (sides : list (option string)) (s : World) : option World :=
  match sides with
  | [] => Some s
  | side :: rest =>
      s ← pwm_create_paned_layout b side s; pwm_create_paned_layouts b rest s
  end.

(** The world of a merged buddy list after the panes have been laid out
    again: as [merged_world], with the paned at [P] (vertical or not, the
    conversations first or not), the allocator at [nid] and the handlers
    [hs]. *)
Definition merged_at (b : PidginBuddyList) (box menu : widget)
    (bl pre : list widget) (s : World) (P nid : nat) (vert cfirst : bool)
    (hs : list handler) : World :=
  let σ := conv_world s in
  let n := next_id s in
  let k := length (host_conv_menus s) in
  let items := seq (n + 6) k in
  let pn := n + 6 + k + k in
  let nb := blist_notebook b in
  let cnb := n + 4 in
  {| next_id := nid;
     parent :=
       <[S (S pn) := cnb]> (<[nb := P]> (<[cnb := P]> (<[P := box]>
         (<[S pn := n + 2]> (insert_all items (λ _, menu) (parent σ))))));
     containers :=
       <[cnb := Children [S (S pn)]]>
         (<[menu := Children (pre ++ items ++ [blist_menutray b])]>
            (<[n + 3 := Children []]>
               (<[P := Paned (paned_layout vert cfirst nb cnb)]>
                  (<[box := Children (list_subst nb P bl)]>
                     (<[n + 2 := Children [n + 3; S pn]]>
                        (containers σ))))));
     gtype := <[S (S pn) := GTK_TYPE_LABEL]>
                (<[S pn := GTK_TYPE_LABEL]>
                   (<[P := GTK_TYPE_PANED]> (gtype σ)));
     visible := (visible σ ∪ {[P]}) ∖ list_to_set items;
     title := title s; icon_list := icon_list s;
     accel_groups :=
       accel_groups σ ∪ accel_pairs (blist_window b) (conv_item_accels s);
     submenu := submenu σ; menu_accel := menu_accel σ;
     object_data :=
       <[(nb, "pwm_conv_window") := PWidget (n + 1)]>
         (<[(nb, "pwm_fake_tab") := PWidget (S (S pn))]>
            (set_data_map (nb, "pwm_conv_menus") (of_glist items)
               (<[(nb, "pwm_placeholder") := PWidget (S pn)]>
                  (<[(nb, "pwm_paned") := PWidget P]>
                     (set_data_map (nb, "pwm_title")
                        (of_string (title s !! blist_window b))
                        (<[(cnb, "pwm_blist") := PBlist b]>
                           (<[(nb, "pwm_convs") := PConvWin n]>
                              (object_data s))))))));
     handlers := hs;
     convwins :=
       <[n := {| conv_window := Some (blist_window b);
                 conv_notebook := cnb; conv_menubar := n + 3 |}]>
         (convwins σ);
     prefs_int := prefs_int s; prefs_string := prefs_string s;
     imhtml_bindings := skip_move_cursor (imhtml_bindings s);
     events := events s; host_conv_menus := host_conv_menus s |}.

(** The parameters [merged_at] makes sense for: the paned is the one of the
    merge or a widget made after it, below the allocator; the handlers are
    those from before the merge, the focus handler of the merge and handlers
    of the paned. *)
Definition merged_at_ok (b : PidginBuddyList) (s : World) (P nid : nat)
    (hs : list handler) : Prop :=
  let pn := next_id (conv_world s) in
  pn ≤ P ∧ P ≠ S pn ∧ P ≠ S (S pn) ∧ P < nid ∧ S (S (S pn)) ≤ nid
  ∧ filter (λ h, h_object h ≠ P)
      (filter (λ h, ¬ handler_matches (blist_window b) cb_focus_in_event
                       (PWidget (next_id s + 1)) h) hs)
    = handlers s
  ∧ Forall (λ h, h_object h ≠ S pn ∧ h_object h ≠ S (S pn)
                 ∧ h_object h < nid ∧ data_below nid (h_data h)) hs.

(** * Properties *)

(** ** Worlds up to their fields *)

Lemma World_eq (s1 s2 : World) :
  next_id s1 = next_id s2 → parent s1 = parent s2 →
  containers s1 = containers s2 → gtype s1 = gtype s2 →
  visible s1 = visible s2 → title s1 = title s2 →
  icon_list s1 = icon_list s2 → accel_groups s1 = accel_groups s2 →
  submenu s1 = submenu s2 → menu_accel s1 = menu_accel s2 →
  object_data s1 = object_data s2 → handlers s1 = handlers s2 →
  convwins s1 = convwins s2 → prefs_int s1 = prefs_int s2 →
  prefs_string s1 = prefs_string s2 →
  imhtml_bindings s1 = imhtml_bindings s2 → events s1 = events s2 →
  host_conv_menus s1 = host_conv_menus s2 → s1 = s2.
Proof. destruct s1, s2; simpl; intros; subst; reflexivity. Qed.

(** ** Showing and hiding the conversation menus *)

Lemma foldl_show (items : list nat) (s : World) :
  foldl (λ s item, gtk_widget_show item s) s items
  = upd_visible (λ v, v ∪ list_to_set items) s.
Proof.
  revert s. induction items as [|i items IH]; intros s; simpl.
  - apply World_eq; simpl; try reflexivity. by rewrite union_empty_r_L.
  - rewrite IH. apply World_eq; simpl; try reflexivity.
    by rewrite (assoc_L (∪)).
Qed.

Lemma foldl_hide (items : list nat) (s : World) :
  foldl (λ s item, gtk_widget_hide item s) s items
  = upd_visible (λ v, v ∖ list_to_set items) s.
Proof.
  revert s. induction items as [|i items IH]; intros s; simpl.
  - apply World_eq; simpl; try reflexivity. by rewrite difference_empty_L.
  - rewrite IH. apply World_eq; simpl; try reflexivity.
    by rewrite difference_difference_l_L.
Qed.

(** C9.  [pwm_set_conv_menus_visible] changes nothing but the visibility of
    widgets: with [visible] true exactly the items of the stored
    conversation-menu list are added to the visible widgets, with [visible]
    false exactly they are removed; with no stored list (the slot is [NULL],
    as on a buddy list that is not merged) the world is returned as it
    is. *)
Theorem pwm_set_conv_menus_visible_spec (gtkblist : PidginBuddyList)
    (vis : bool) (s : World) :
  let items := as_glist (pwm_fetch gtkblist "conv_menus" s) in
  pwm_set_conv_menus_visible gtkblist vis s
  = upd_visible (λ v, if vis then v ∪ list_to_set items
                      else v ∖ list_to_set items) s
  ∧ (∀ item, item ∈ items →
       (item ∈ visible (pwm_set_conv_menus_visible gtkblist vis s))
       ↔ vis = true)
  ∧ (pwm_fetch gtkblist "conv_menus" s = NULL →
     pwm_set_conv_menus_visible gtkblist vis s = s).
Proof.
  intros items. unfold pwm_set_conv_menus_visible. fold items.
  split; [|split].
  - destruct vis; [apply foldl_show | apply foldl_hide].
  - intros item Hitem. destruct vis.
    + rewrite foldl_show. simpl. split; [reflexivity|]. intros _.
      apply elem_of_union_r, elem_of_list_to_set, Hitem.
    + rewrite foldl_hide. simpl. split; [|discriminate]. intros Hin.
      apply elem_of_difference in Hin as [_ Hout]. exfalso. apply Hout.
      apply elem_of_list_to_set, Hitem.
  - intros Hnull. unfold items. rewrite Hnull. simpl.
    destruct vis; reflexivity.
Qed.

(** ** The guard against a double merge *)

(** C2.  On a buddy list that is already merged (its conversation-window
    tag is not [NULL]) [pwm_merge_conversation] returns at once with the
    world as it was: no window is created, no slot written, no binding
    skipped. *)
Theorem pwm_merge_conversation_guard (gtkblist : PidginBuddyList)
    (s : World) :
  pwm_blist_get_convs gtkblist s ≠ NULL →
  pwm_merge_conversation gtkblist s = Some s.
Proof.
  intros Hmerged. unfold pwm_merge_conversation.
  destruct (decide (pwm_blist_get_convs gtkblist s ≠ NULL)) as [_|Hno].
  - reflexivity.
  - contradiction.
Qed.

(** ** Recording and restoring the pane size *)

Lemma gint_small (z : Z) :
  (-2147483648 ≤ z ≤ 2147483647)%Z → gint z = z.
Proof.
  intros Hz. unfold gint.
  rewrite Z.mod_small by lia. lia.
Qed.

Lemma gint_sub_sub (m p : Z) :
  (-2147483648 ≤ p ≤ 2147483647)%Z → gint (m - gint (m - p)) = p.
Proof.
  intros Hp. unfold gint.
  Z.div_mod_to_equations. lia.
Qed.

Lemma PREF_HEIGHT_WIDTH : PREF_HEIGHT ≠ PREF_WIDTH.
Proof. discriminate. Qed.

(** C5.  On a slider move of a paned, [notify_position_cb] changes the
    world in one place only: it stores an integer under the height key when
    the paned is vertical and under the width key otherwise (the two keys
    differ); the integer is the slider position when the buddy list's
    notebook is the first child of the paned and max-position minus the
    position when it is not. *)
Theorem notify_position_cb_stores (gobject : widget)
    (gtkblist : PidginBuddyList) (p : GtkPaned) (s : World) :
  as_paned gobject s = Some p →
  paned_in_range p →
  let key := if vertical p then PREF_HEIGHT else PREF_WIDTH in
  let other := if vertical p then PREF_WIDTH else PREF_HEIGHT in
  let size := if decide (child1 p = Some (blist_notebook gtkblist))
              then child1_size p
              else (max_position p - child1_size p)%Z in
  notify_position_cb gobject (PBlist gtkblist) s
  = Some (upd_prefs_int (insert key size) s)
  ∧ key ≠ other.
Proof.
  intros Hp [Hsize Hmax] key other size. split.
  - unfold notify_position_cb. simpl.
    unfold gtk_paned_get_child1, gtk_paned_get_position, GTK_IS_VPANED,
      g_object_get_max_position. rewrite Hp. simpl.
    unfold G_MAXINT in *. unfold key, size, purple_prefs_set_int.
    destruct (decide (child1 p = Some (blist_notebook gtkblist)))
      as [Heq|Hne].
    + rewrite decide_False by (intros H; apply H, Heq). simpl.
      destruct (vertical p); reflexivity.
    + rewrite decide_True by done. simpl.
      rewrite gint_small by lia. destruct (vertical p); reflexivity.
  - unfold key, other. destruct (vertical p); discriminate.
Qed.

Lemma upd_prefs_int_id (s : World) : upd_prefs_int (λ _, prefs_int s) s = s.
Proof. by destruct s. Qed.

Lemma notify_position_cb_Some gobject data s :
  is_Some (as_blist data) → is_Some (as_paned gobject s) →
  ∃ m, notify_position_cb gobject data s = Some (upd_prefs_int (λ _, m) s).
Proof.
  intros [b Hb] [p Hp]. unfold notify_position_cb. rewrite Hb. simpl.
  unfold g_object_get_max_position, GTK_IS_VPANED. rewrite Hp. simpl.
  destruct (decide _); simpl; destruct (vertical p); eexists; reflexivity.
Qed.

Lemma run_handlers_quiet emit hs s :
  Forall (quiet_handler s) hs →
  ∃ m, run_handlers emit hs s = Some (upd_prefs_int (λ _, m) s).
Proof.
  revert s. induction hs as [|h hs IH]; intros s Hq.
  - exists (prefs_int s). simpl. by rewrite upd_prefs_int_id.
  - apply Forall_cons in Hq as [(Hcb & Hb & Hp) Hq]. simpl.
    destruct (decide (h ∈ handlers s)) as [Hin|Hout].
    + unfold run_callback. rewrite Hcb.
      destruct (notify_position_cb_Some _ _ s Hb Hp) as [m ->]. simpl.
      destruct (IH (upd_prefs_int (λ _, m) s)) as [m' ->].
      { eapply Forall_impl; [exact Hq|]. intros h' (? & ? & ?). done. }
      by exists m'.
    + simpl. by apply IH.
Qed.

Lemma emit_quiet depth gobject sig s :
  (sig = "notify::position" ∨ sig = "notify::position-set") →
  is_Some (as_paned gobject s) →
  position_watchers_only gobject s →
  ∃ m, g_signal_emit (S depth) gobject sig s
       = Some (upd_prefs_int (λ _, m) s).
Proof.
  intros Hsig Hp Hw. unfold g_signal_emit; fold g_signal_emit.
  apply run_handlers_quiet.
  apply Forall_forall. intros h Hin.
  apply list_elem_of_filter in Hin as [[Hobj Hs] Hin].
  destruct (Hw h Hin Hobj) as [Hcb Hb]; [by rewrite Hs|].
  split; [done|]. split; [done|]. by rewrite Hobj.
Qed.

Lemma signal_of_spec_position :
  signal_of_spec "signal::notify::position" = Some "notify::position".
Proof. reflexivity. Qed.

(** C6.  The pane size round-trips through the preference: when
    [notify_position_cb] has recorded a paned whose slider is at
    [child1_size p], then in any later world that holds the same
    preferences and shows the paned with the same orientation, first child
    and max-position, [notify_max_position_cb] puts the slider at exactly
    [child1_size p]. *)
Theorem pane_size_round_trip (depth : nat) (gobject : widget)
    (gtkblist : PidginBuddyList) (p p2 : GtkPaned) (s s1 s2 : World) :
  as_paned gobject s = Some p →
  (0 ≤ child1_size p ≤ G_MAXINT)%Z →
  notify_position_cb gobject (PBlist gtkblist) s = Some s1 →
  as_paned gobject s2 = Some p2 →
  vertical p2 = vertical p → child1 p2 = child1 p →
  max_position p2 = max_position p →
  prefs_int s2 = prefs_int s1 →
  position_watchers_only gobject s2 →
  ∃ s3, notify_max_position_cb (g_signal_emit (S depth)) gobject
          (PBlist gtkblist) s2 = Some s3
        ∧ gtk_paned_get_position gobject s3 = child1_size p.
Proof.
  intros Hp Hrange Hstore Hp2 Hv Hc Hm Hprefs Hquiet.
  unfold notify_position_cb in Hstore. simpl in Hstore.
  unfold gtk_paned_get_child1, gtk_paned_get_position, GTK_IS_VPANED,
    g_object_get_max_position in Hstore.
  rewrite Hp in Hstore. simpl in Hstore.
  unfold notify_max_position_cb. simpl.
  unfold gtk_paned_get_child1, GTK_IS_VPANED, g_object_get_max_position,
    purple_prefs_get_int.
  rewrite Hp2, Hprefs. simpl. rewrite Hv, Hc, Hm.
  assert (Hsize :
    (if decide (child1 p ≠ Some (blist_notebook gtkblist))
     then Some (gint (max_position p
                      - (if vertical p
                         then default 0%Z (prefs_int s1 !! PREF_HEIGHT)
                         else default 0%Z (prefs_int s1 !! PREF_WIDTH))))
     else Some (if vertical p
                then default 0%Z (prefs_int s1 !! PREF_HEIGHT)
                else default 0%Z (prefs_int s1 !! PREF_WIDTH)))
    = Some (child1_size p)).
  { unfold G_MAXINT in Hrange.
    destruct (decide (child1 p ≠ Some (blist_notebook gtkblist)));
      simpl in Hstore; destruct (vertical p);
      injection Hstore as <-; simpl;
      rewrite ?lookup_insert_eq; simpl;
      rewrite ?gint_sub_sub by lia; reflexivity. }
  rewrite Hsize. simpl. unfold gtk_paned_set_position. rewrite Hp2.
  rewrite decide_True by lia.
  set (s' := upd_containers _ s2).
  assert (Hp' : as_paned gobject s'
                = Some (paned_set_position (child1_size p) true p2)).
  { unfold as_paned, s'. simpl. by rewrite lookup_insert_eq. }
  assert (Hsome : is_Some (as_paned gobject s')) by by rewrite Hp'.
  destruct (emit_quiet depth gobject "notify::position" s') as [m1 ->];
    [by left | exact Hsome | exact Hquiet |].
  simpl.
  destruct (emit_quiet depth gobject "notify::position-set"
              (upd_prefs_int (λ _, m1) s')) as [m2 ->];
    [by right | exact Hsome | exact Hquiet |].
  simpl. eexists; split; [reflexivity|].
  unfold g_object_connect. rewrite signal_of_spec_position.
  unfold gtk_paned_get_position, as_paned, g_object_disconnect. simpl.
  by rewrite lookup_insert_eq.
Qed.

(** ** Symbolic evaluation of the toolkit calls *)

Ltac fields :=
  cbn [next_id parent containers gtype visible title icon_list accel_groups
       submenu menu_accel object_data handlers convwins prefs_int
       prefs_string imhtml_bindings events host_conv_menus
       upd_next_id upd_parent upd_containers upd_gtype upd_visible upd_title
       upd_icon_list upd_accel_groups upd_submenu upd_menu_accel
       upd_object_data upd_handlers upd_convwins upd_prefs_int
       upd_imhtml_bindings upd_events] in *.

(** ** Unused addresses *)

Section unused.
Context {n : nat} {s : World} (Hun : unused_from n s).

Lemma map_Forall_unused {V} (m : gmap nat V) (w : nat) :
  map_Forall (λ w _, w < n) m → n ≤ w → m !! w = None.
Proof.
  intros Hall Hw. destruct (m !! w) as [v|] eqn:Hv; [|reflexivity].
  apply Hall in Hv. cbn in Hv. lia.
Qed.

Lemma unused_parent w : n ≤ w → parent s !! w = None.
Proof. apply map_Forall_unused, Hun. Qed.
Lemma unused_containers w : n ≤ w → containers s !! w = None.
Proof.
  intros Hw. destruct (containers s !! w) as [c|] eqn:Hc; [|reflexivity].
  destruct Hun as (_ & Hall & _). apply Hall in Hc as [Hlt _]. lia.
Qed.
Lemma unused_children w c x :
  containers s !! w = Some c → x ∈ container_children c → x < n.
Proof.
  intros Hc Hx. destruct Hun as (_ & Hall & _). apply Hall in Hc as [_ Hc].
  rewrite Forall_forall in Hc. by apply Hc.
Qed.
Lemma unused_gtype w : n ≤ w → gtype s !! w = None.
Proof. apply map_Forall_unused, Hun. Qed.
Lemma unused_visible w : n ≤ w → w ∉ visible s.
Proof.
  intros Hw Hin. destruct Hun as (_ & _ & _ & Hv & _).
  apply Hv in Hin. lia.
Qed.
Lemma unused_title w : n ≤ w → title s !! w = None.
Proof. apply map_Forall_unused, Hun. Qed.
Lemma unused_icon_list w : n ≤ w → icon_list s !! w = None.
Proof. apply map_Forall_unused, Hun. Qed.
Lemma unused_accel_groups w g : (w, g) ∈ accel_groups s → w < n ∧ g < n.
Proof.
  intros Hin. destruct Hun as (_ & _ & _ & _ & _ & _ & Ha & _).
  apply Ha in Hin. exact Hin.
Qed.
Lemma unused_submenu w : n ≤ w → submenu s !! w = None.
Proof. apply map_Forall_unused, Hun. Qed.
Lemma unused_menu_accel w : n ≤ w → menu_accel s !! w = None.
Proof. apply map_Forall_unused, Hun. Qed.
Lemma unused_object_data w key : n ≤ w → object_data s !! (w, key) = None.
Proof.
  intros Hw. destruct (object_data s !! (w, key)) as [v|] eqn:Hv;
    [|reflexivity].
  destruct Hun as (_ & _ & _ & _ & _ & _ & _ & _ & _ & Ho & _).
  apply Ho in Hv. cbn in Hv. lia.
Qed.
Lemma unused_handlers h : h ∈ handlers s → h_object h < n.
Proof.
  intros Hin.
  destruct Hun as (_ & _ & _ & _ & _ & _ & _ & _ & _ & _ & Hh & _).
  rewrite Forall_forall in Hh. by apply Hh.
Qed.
Lemma unused_handler_data h w :
  h ∈ handlers s → h_data h = PWidget w → w < n.
Proof.
  intros Hin Hw.
  destruct Hun as (_ & _ & _ & _ & _ & _ & _ & _ & _ & _ & Hh & _).
  rewrite Forall_forall in Hh. apply Hh in Hin as [_ Hd].
  by rewrite Hw in Hd.
Qed.
Lemma unused_convwins w : n ≤ w → convwins s !! w = None.
Proof. apply map_Forall_unused, Hun. Qed.

Lemma used_lt {V} (m : gmap nat V) (w : nat) (v : V) :
  (∀ w, n ≤ w → m !! w = None) → m !! w = Some v → w < n.
Proof.
  intros Hnone Hw. destruct (decide (w < n)) as [|Hge]; [done|].
  rewrite Hnone in Hw by lia. done.
Qed.
End unused.

Lemma alter_Some {V} (f : V → V) (k : nat) (v : V) (m : gmap nat V) :
  m !! k = Some v → alter f k m = <[k := f v]> m.
Proof.
  intros Hk. apply map_eq. intros i.
  destruct (decide (k = i)) as [->|Hne].
  - by rewrite lookup_alter_eq, lookup_insert_eq, Hk.
  - by rewrite lookup_alter_ne, lookup_insert_ne.
Qed.

Lemma gtk_container_remove_eq c w s cont :
  parent s !! w = Some c → containers s !! c = Some cont →
  gtk_container_remove c w s
  = upd_parent (delete w)
      (upd_containers (insert c (container_remove_child w cont)) s).
Proof.
  intros Hp Hc. unfold gtk_container_remove.
  rewrite decide_True by done.
  apply World_eq; fields; try reflexivity. by apply alter_Some.
Qed.

Lemma gtk_container_add_children c w s l :
  parent s !! w = None → containers s !! c = Some (Children l) →
  gtk_container_add c w s
  = upd_parent (insert w c)
      (upd_containers (insert c (Children (l ++ [w]))) s).
Proof. intros Hp Hc. unfold gtk_container_add. by rewrite Hp, Hc. Qed.

Lemma gtk_container_add_paned1 c w s p :
  parent s !! w = None → containers s !! c = Some (Paned p) →
  child1 p = None →
  gtk_container_add c w s
  = upd_parent (insert w c)
      (upd_containers
         (insert c (Paned (paned_set_child1 (Some w) false p))) s).
Proof. intros Hp Hc H1. unfold gtk_container_add. by rewrite Hp, Hc, H1. Qed.

Lemma gtk_container_add_paned2 c w s p x :
  parent s !! w = None → containers s !! c = Some (Paned p) →
  child1 p = Some x → child2 p = None →
  gtk_container_add c w s
  = upd_parent (insert w c)
      (upd_containers
         (insert c (Paned (paned_set_child2 (Some w) true p))) s).
Proof.
  intros Hp Hc H1 H2. unfold gtk_container_add. by rewrite Hp, Hc, H1, H2.
Qed.

Lemma gtk_widget_reparent_eq w old new s :
  parent s !! w = Some old → old ≠ new →
  gtk_widget_reparent w (Some new) s
  = gtk_container_add new w (gtk_container_remove old w s).
Proof.
  intros Hp Hne. unfold gtk_widget_reparent. rewrite Hp.
  by rewrite decide_False.
Qed.

Lemma pwm_widget_replace_move o r np p cont s :
  parent s !! o = Some p → parent s !! r = None →
  containers s !! p = Some cont →
  pwm_widget_replace (Some o) (Some r) (Some np) s
  = gtk_container_add np o
      (upd_parent (λ m, <[r := p]> (delete o m))
         (upd_containers (insert p (container_substitute o r cont)) s)).
Proof.
  intros Ho Hr Hc. unfold pwm_widget_replace, gtk_widget_get_parent.
  rewrite Ho, Hr. f_equal.
  apply World_eq; fields; try reflexivity. by apply alter_Some.
Qed.

(* lookup solver *)
Ltac look :=
  fields;
  repeat first
    [ rewrite lookup_insert_eq
    | rewrite lookup_delete_eq
    | rewrite lookup_insert_ne by (first [lia | congruence])
    | rewrite lookup_delete_ne by (first [lia | congruence]) ].

Lemma signal_of_spec_max_position :
  signal_of_spec "signal::notify::max-position" = Some "notify::max-position".
Proof. reflexivity. Qed.

Lemma NoDup_4 (a b c d : nat) :
  NoDup [a; b; c; d] → a ≠ b ∧ a ≠ c ∧ a ≠ d ∧ b ≠ c ∧ b ≠ d ∧ c ≠ d.
Proof.
  rewrite !NoDup_cons, !not_elem_of_cons.
  intros ((? & ? & ? & _) & (? & ? & _) & (? & _) & _).
  repeat split; assumption.
Qed.


Lemma gtk_container_child_set_resize_1 c child v p s :
  parent s !! child = Some c → containers s !! c = Some (Paned p) →
  child1 p = Some child →
  gtk_container_child_set_resize c child v s
  = upd_containers (insert c (Paned (paned_set_child1 (child1 p) v p))) s.
Proof.
  intros Hp Hc H1. unfold gtk_container_child_set_resize, as_paned.
  rewrite decide_True by done. rewrite Hc. by rewrite decide_True.
Qed.

Lemma gtk_container_child_set_resize_2 c child v p s :
  parent s !! child = Some c → containers s !! c = Some (Paned p) →
  child1 p ≠ Some child →
  gtk_container_child_set_resize c child v s
  = upd_containers (insert c (Paned (paned_set_child2 (child2 p) v p))) s.
Proof.
  intros Hp Hc H1. unfold gtk_container_child_set_resize, as_paned.
  rewrite decide_True by done. rewrite Hc. by rewrite decide_False.
Qed.

Ltac look_side := look; first [eassumption | reflexivity | lia | done | congruence].

Ltac map_cases i :=
  repeat match goal with
  | |- context [ <[?k := _]> _ !! i ] =>
      destruct (decide (k = i)) as [<-|?]; look
  | |- context [ delete ?k _ !! i ] =>
      destruct (decide (k = i)) as [<-|?]; look
  end.

Ltac map_solver :=
  let i := fresh "i" in
  apply map_eq; intros i; look; map_cases i;
  try first [ reflexivity | done | congruence ].

Lemma pwm_create_paned_layout_initial b cw box cbox bl cl side s :
  layout_initial b cw box cbox bl cl s →
  pwm_create_paned_layout b side s
  = Some (laid_out_initial b cw box cbox bl cl side s).
Proof.
  intros [Hconvs Hnop Hun Hnb Hbox Hcnb Hcbox Hd].
  apply NoDup_4 in Hd as (D1 & D2 & D3 & D4 & D5 & D6).
  pose proof (used_lt _ _ _ (unused_parent Hun) Hnb) as L1.
  pose proof (used_lt _ _ _ (unused_parent Hun) Hcnb) as L2.
  pose proof (used_lt _ _ _ (unused_containers Hun) Hbox) as L3.
  pose proof (used_lt _ _ _ (unused_containers Hun) Hcbox) as L4.
  pose proof (unused_parent Hun (next_id s) (le_n _)) as P0.
  pose proof (unused_parent Hun (S (next_id s)) (le_S _ _ (le_n _))) as P1.
  unfold pwm_create_paned_layout.
  rewrite Hnop.
  assert (Hderef : ∀ σ, convwins σ = convwins s →
            deref_convwin (pwm_blist_get_convs b s) σ = Some cw).
  { intros σ Hσ. unfold deref_convwin in *.
    destruct (pwm_blist_get_convs b s); try done. by rewrite Hσ. }
  unfold gtk_vpaned_new, gtk_hpaned_new.
  replace (if side_is side "t" "b" then gtk_paned_new true s
           else gtk_paned_new false s)
    with (gtk_paned_new (side_is side "t" "b") s) by by destruct (side_is _ _ _).
  unfold gtk_paned_new, alloc. cbv beta iota zeta.
  unfold g_object_connect; rewrite signal_of_spec_max_position.
  unfold pwm_store, g_object_set_data, gtk_widget_show.
  rewrite Hderef by reflexivity. cbn [mbind option_bind].
  rewrite decide_True by reflexivity.
  unfold gtk_label_new, alloc; cbv beta iota zeta; fields.
  set (n := next_id s) in *.
  set (nb := blist_notebook b) in *. set (cnb := conv_notebook cw) in *.
  destruct (side_is side "t" "l") eqn:Hcf.
  - erewrite (pwm_widget_replace_move cnb (S n) n); [ | look_side ..].
    erewrite (gtk_container_add_paned1 n cnb); [ | look_side ..].
    erewrite (pwm_widget_replace_move nb n n); [ | look_side ..].
    erewrite (gtk_container_add_paned2 n nb); [ | look_side ..].
    erewrite (gtk_container_child_set_resize_1 n cnb); [ | look_side ..].
    erewrite (gtk_container_child_set_resize_2 n nb);
      [ | look; first [eassumption | reflexivity | cbn; congruence] ..].
    f_equal. unfold laid_out_initial. cbv zeta. fold n nb cnb. rewrite Hcf.
    apply World_eq; fields; cbn [String.append]; try reflexivity;
      map_solver.
  - erewrite (pwm_widget_replace_move nb n n); [ | look_side ..].
    erewrite (gtk_container_add_paned1 n nb); [ | look_side ..].
    erewrite (pwm_widget_replace_move cnb (S n) n); [ | look_side ..].
    erewrite (gtk_container_add_paned2 n cnb); [ | look_side ..].
    erewrite (gtk_container_child_set_resize_2 n cnb);
      [ | look; first [eassumption | reflexivity | cbn; congruence] ..].
    erewrite (gtk_container_child_set_resize_1 n nb); [ | look_side ..].
    f_equal. unfold laid_out_initial. cbv zeta. fold n nb cnb. rewrite Hcf.
    apply World_eq; fields; cbn [String.append]; try reflexivity;
      map_solver.
Qed.

Lemma gtk_widget_destroy_leaf w s :
  parent s !! w = None → gtk_container_get_children w s = [] →
  gtk_widget_destroy w s = dispose w s.
Proof.
  intros Hp Hc. unfold gtk_widget_destroy. cbn [destroy_rec].
  rewrite Hp, Hc. reflexivity.
Qed.

Lemma pwm_widget_replace_destroy o r p cont s :
  parent s !! o = Some p → parent s !! r = None →
  containers s !! p = Some cont → o ≠ p →
  gtk_container_get_children o s = [] →
  pwm_widget_replace (Some o) (Some r) None s
  = dispose o
      (upd_parent (λ m, <[r := p]> (delete o m))
         (upd_containers (insert p (container_substitute o r cont)) s)).
Proof.
  intros Ho Hr Hc Hne Hch. unfold pwm_widget_replace, gtk_widget_get_parent.
  rewrite Ho, Hr.
  rewrite gtk_widget_destroy_leaf.
  - f_equal. apply World_eq; fields; try reflexivity. by apply alter_Some.
  - fields. destruct (decide (r = o)) as [->|]; [congruence|].
    by rewrite lookup_insert_ne, lookup_delete_eq.
  - unfold gtk_container_get_children in *. fields.
    by rewrite lookup_alter_ne.
Qed.

Lemma paned_emptied po a c :
  (child1 po = Some a ∧ child2 po = Some c)
  ∨ (child1 po = Some c ∧ child2 po = Some a) →
  container_children
    (container_remove_child a (container_remove_child c (Paned po))) = [].
Proof.
  destruct po as [v c1 c2 r1 r2 sz ps mp]. cbn.
  intros [[-> ->]|[-> ->]]; cbn;
    repeat (case_decide; cbn in *; simplify_eq); reflexivity.
Qed.

Lemma pwm_create_paned_layout_again b cw old q po cq side s :
  layout_merged b cw old q po cq s →
  pwm_create_paned_layout b side s
  = Some (laid_out_again b cw old q cq side s).
Proof.
  intros [Hconvs Hpaned Hun Hold Hch Hnb Hcnb Hq Hcq Hd].
  apply NoDup_4 in Hd as (D1 & D2 & D3 & D4 & D5 & D6).
  pose proof (used_lt _ _ _ (unused_parent Hun) Hnb) as L1.
  pose proof (used_lt _ _ _ (unused_parent Hun) Hcnb) as L2.
  pose proof (used_lt _ _ _ (unused_containers Hun) Hold) as L3.
  pose proof (used_lt _ _ _ (unused_containers Hun) Hcq) as L4.
  pose proof (unused_parent Hun (next_id s) (le_n _)) as P0.
  unfold pwm_create_paned_layout.
  rewrite Hpaned.
  assert (Hderef : ∀ σ, convwins σ = convwins s →
            deref_convwin (pwm_blist_get_convs b s) σ = Some cw).
  { intros σ Hσ. unfold deref_convwin in *.
    destruct (pwm_blist_get_convs b s); try done. by rewrite Hσ. }
  unfold gtk_vpaned_new, gtk_hpaned_new.
  replace (if side_is side "t" "b" then gtk_paned_new true s
           else gtk_paned_new false s)
    with (gtk_paned_new (side_is side "t" "b") s) by by destruct (side_is _ _ _).
  unfold gtk_paned_new, alloc. cbv beta iota zeta.
  unfold g_object_connect; rewrite signal_of_spec_max_position.
  unfold pwm_store, g_object_set_data, gtk_widget_show.
  rewrite Hderef by reflexivity. cbn [mbind option_bind].
  rewrite decide_False by discriminate. cbn [as_widget].
  fields.
  set (n := next_id s) in *.
  set (nb := blist_notebook b) in *. set (cnb := conv_notebook cw) in *.
  assert (E1 : container_children
            (container_remove_child nb
               (container_remove_child cnb (Paned po))) = [])
    by (apply paned_emptied; tauto).
  assert (E2 : container_children
            (container_remove_child cnb
               (container_remove_child nb (Paned po))) = [])
    by (apply paned_emptied; tauto).
  destruct (side_is side "t" "l") eqn:Hcf.
  - erewrite (gtk_widget_reparent_eq cnb old n); [ | look_side ..].
    erewrite (gtk_container_remove_eq old cnb); [ | look_side ..].
    erewrite (gtk_container_add_paned1 n cnb); [ | look_side ..].
    erewrite (gtk_widget_reparent_eq nb old n); [ | look_side ..].
    erewrite (gtk_container_remove_eq old nb); [ | look_side ..].
    erewrite (gtk_container_add_paned2 n nb); [ | look_side ..].
    erewrite (pwm_widget_replace_destroy old n q cq);
      [ | try (unfold gtk_container_get_children); look_side ..].
    unfold dispose.
    erewrite (gtk_container_child_set_resize_1 n cnb); [ | look_side ..].
    erewrite (gtk_container_child_set_resize_2 n nb);
      [ | look; first [eassumption | reflexivity | cbn; congruence] ..].
    f_equal. unfold laid_out_again. cbv zeta. fold n nb cnb. rewrite Hcf.
    apply World_eq; fields; cbn [String.append]; try reflexivity;
      map_solver.
  - erewrite (gtk_widget_reparent_eq nb old n); [ | look_side ..].
    erewrite (gtk_container_remove_eq old nb); [ | look_side ..].
    erewrite (gtk_container_add_paned1 n nb); [ | look_side ..].
    erewrite (gtk_widget_reparent_eq cnb old n); [ | look_side ..].
    erewrite (gtk_container_remove_eq old cnb); [ | look_side ..].
    erewrite (gtk_container_add_paned2 n cnb); [ | look_side ..].
    erewrite (pwm_widget_replace_destroy old n q cq);
      [ | try (unfold gtk_container_get_children); look_side ..].
    unfold dispose.
    erewrite (gtk_container_child_set_resize_2 n cnb);
      [ | look; first [eassumption | reflexivity | cbn; congruence] ..].
    erewrite (gtk_container_child_set_resize_1 n nb); [ | look_side ..].
    f_equal. unfold laid_out_again. cbv zeta. fold n nb cnb. rewrite Hcf.
    apply World_eq; fields; cbn [String.append]; try reflexivity;
      map_solver.
Qed.

Ltac keys :=
  repeat match goal with
  | |- context [String.append ?a ?b] =>
      let r := eval vm_compute in (String.append a b) in
      change (String.append a b) with r
  end.

Lemma filter_none {A} (P : A → Prop) `{!∀ x, Decision (P x)} (l : list A) :
  (∀ x, x ∈ l → ¬ P x) → filter P l = [].
Proof.
  induction l as [|x l IH]; intros Hall; [reflexivity|].
  rewrite filter_cons_False by (apply Hall; left).
  apply IH. intros y Hy. apply Hall. by right.
Qed.

Lemma filter_all {A} (P : A → Prop) `{!∀ x, Decision (P x)} (l : list A) :
  (∀ x, x ∈ l → P x) → filter P l = l.
Proof.
  induction l as [|x l IH]; intros Hall; [reflexivity|].
  rewrite filter_cons_True by (apply Hall; left).
  f_equal. apply IH. intros y Hy. apply Hall. by right.
Qed.

Lemma side_is_starts_with side a b :
  side_is side a b = true ↔ side_starts_with side a b.
Proof.
  unfold side_is, side_starts_with. destruct side as [str|].
  - rewrite orb_true_iff, !bool_decide_eq_true. split.
    + intros H. by exists str.
    + intros (str' & [= <-] & H). exact H.
  - split; [discriminate|]. intros (str & [=] & _).
Qed.

(** What both branches of the layout agree on. *)
Lemma pwm_create_paned_layout_paned b cw side s :
  layout_ready b cw s →
  ∃ s', pwm_create_paned_layout b side s = Some s'
        ∧ pwm_fetch b "paned" s' = PWidget (next_id s)
        ∧ as_paned (next_id s) s'
          = Some (paned_layout (side_is side "t" "b") (side_is side "t" "l")
                    (blist_notebook b) (conv_notebook cw))
        ∧ filter (λ h, h_object h = next_id s) (handlers s')
          = [max_position_handler (next_id s) b].
Proof.
  intros [(box & cbox & bl & cl & H)|(old & q & po & cq & H)].
  - rewrite (pwm_create_paned_layout_initial _ _ _ _ _ _ side _ H).
    eexists; split; [reflexivity|].
    destruct H as [Hconvs Hnop Hun Hnb Hbox Hcnb Hcbox Hd].
    unfold pwm_fetch, g_object_get_data, as_paned, laid_out_initial.
    keys. look. repeat split; try reflexivity.
    rewrite filter_app, filter_cons_True by reflexivity.
    rewrite filter_none; [reflexivity|].
    intros h Hh Heq. apply (unused_handlers Hun) in Hh. lia.
  - rewrite (pwm_create_paned_layout_again _ _ _ _ _ _ side _ H).
    eexists; split; [reflexivity|].
    destruct H as [Hconvs Hpaned Hun Hold Hch Hnb Hcnb Hq Hcq Hd].
    apply NoDup_4 in Hd as (D1 & D2 & D3 & D4 & D5 & D6).
    pose proof (used_lt _ _ _ (unused_containers Hun) Hold) as L3.
    unfold pwm_fetch, g_object_get_data, as_paned, laid_out_again.
    keys. look. repeat split; try reflexivity.
    + erewrite map_lookup_filter_Some_2; [reflexivity| |cbn; congruence].
      by rewrite lookup_insert_eq.
    + rewrite list_filter_filter, filter_app.
      rewrite filter_cons_True by (cbn; lia).
      rewrite filter_none; [reflexivity|].
      intros h Hh [Heq _]. apply (unused_handlers Hun) in Hh. lia.
Qed.

(** ** Orientation and order of the panes *)

(** C3.  [pwm_create_paned_layout], in the initial layout as well as when it
    replaces an existing paned, stores a new paned in the "paned" slot; the
    paned is vertical exactly when [side] is not [NULL] and its first
    character is 't' or 'b', and horizontal in every other case ([NULL],
    the empty string, any other first character). *)
Theorem pwm_create_paned_layout_orientation (gtkblist : PidginBuddyList)
    (cw : PidginWindow) (side : option string) (s : World) :
  layout_ready gtkblist cw s →
  ∃ s' paned,
    pwm_create_paned_layout gtkblist side s = Some s'
    ∧ pwm_fetch gtkblist "paned" s' = PWidget paned
    ∧ (GTK_IS_VPANED paned s' = true ↔ side_starts_with side "t" "b")
    ∧ (GTK_IS_HPANED paned s' = true ↔ ¬ side_starts_with side "t" "b").
Proof.
  intros Hready.
  destruct (pwm_create_paned_layout_paned _ _ side _ Hready)
    as (s' & Hrun & Hslot & Hpaned & _).
  exists s', (next_id s). split; [exact Hrun|]. split; [exact Hslot|].
  unfold GTK_IS_VPANED, GTK_IS_HPANED. rewrite Hpaned. cbn.
  rewrite <- side_is_starts_with.
  destruct (side_is side "t" "b"); cbn; split; split; congruence.
Qed.

(** C4.  In both branches of [pwm_create_paned_layout] the conversation
    notebook is the first child of the new paned exactly when [side] is not
    [NULL] and its first character is 't' or 'l' (the buddy list's notebook
    is then the second child); in every other case the buddy list's
    notebook is the first child and the conversation notebook the
    second. *)
Theorem pwm_create_paned_layout_order (gtkblist : PidginBuddyList)
    (cw : PidginWindow) (side : option string) (s : World) :
  layout_ready gtkblist cw s →
  ∃ s' paned,
    pwm_create_paned_layout gtkblist side s = Some s'
    ∧ pwm_fetch gtkblist "paned" s' = PWidget paned
    ∧ (gtk_paned_get_child1 paned s' = Some (conv_notebook cw)
       ↔ side_starts_with side "t" "l")
    ∧ (side_starts_with side "t" "l" →
       gtk_paned_get_child2 paned s' = Some (blist_notebook gtkblist))
    ∧ (¬ side_starts_with side "t" "l" →
       gtk_paned_get_child1 paned s' = Some (blist_notebook gtkblist)
       ∧ gtk_paned_get_child2 paned s' = Some (conv_notebook cw)).
Proof.
  intros Hready.
  assert (Hne : blist_notebook gtkblist ≠ conv_notebook cw).
  { destruct Hready as [(? & ? & ? & ? & H)|(? & ? & ? & ? & H)];
      destruct H; match goal with H : NoDup _ |- _ =>
        apply NoDup_4 in H; tauto end. }
  destruct (pwm_create_paned_layout_paned _ _ side _ Hready)
    as (s' & Hrun & Hslot & Hpaned & _).
  exists s', (next_id s). split; [exact Hrun|]. split; [exact Hslot|].
  unfold gtk_paned_get_child1, gtk_paned_get_child2. rewrite Hpaned. cbn.
  rewrite <- side_is_starts_with.
  destruct (side_is side "t" "l"); cbn.
  - split; [|split]; [split; congruence| reflexivity | congruence].
  - split; [|split]; [split; congruence| discriminate | done].
Qed.

Lemma handlers_of_object obj sig s :
  handlers_of obj sig s
  = filter (λ h, h_signal h = sig)
      (filter (λ h, h_object h = obj) (handlers s)).
Proof.
  unfold handlers_of. rewrite list_filter_filter.
  apply list_filter_iff. intros h. tauto.
Qed.

Lemma run_handlers_nil emit s : run_handlers emit [] s = Some s.
Proof. reflexivity. Qed.

Lemma signal_emit_one depth obj sig h s :
  filter (λ h, h_object h = obj) (handlers s) = [h] →
  g_signal_emit (S depth) obj sig s
  = if decide (h_signal h = sig)
    then run_callback (g_signal_emit depth) h s
    else Some s.
Proof.
  intros Hone. unfold g_signal_emit; fold g_signal_emit.
  rewrite handlers_of_object, Hone.
  destruct (decide (h_signal h = sig)) as [Heq|Hne].
  - rewrite filter_cons_True by done. cbn.
    assert (Hin : h ∈ handlers s).
    { eapply (proj1 (list_elem_of_filter _ _ _)). rewrite Hone. left. }
    rewrite decide_True by exact Hin.
    by destruct (run_callback _ h s).
  - rewrite filter_cons_False by done. reflexivity.
Qed.

Lemma filter_comm {A} (P Q : A → Prop) `{!∀ x, Decision (P x)}
    `{!∀ x, Decision (Q x)} (l : list A) :
  filter P (filter Q l) = filter Q (filter P l).
Proof.
  rewrite !list_filter_filter. apply list_filter_iff. intros x. tauto.
Qed.

Lemma first_max_position (depth : nat) (paned : widget) (b : PidginBuddyList)
    (p : GtkPaned) (s : World) :
  as_paned paned s = Some p →
  filter (λ h, h_object h = paned) (handlers s)
  = [max_position_handler paned b] →
  let pref := if vertical p then purple_prefs_get_int PREF_HEIGHT s
              else purple_prefs_get_int PREF_WIDTH s in
  let size := if decide (child1 p = Some (blist_notebook b)) then pref
              else gint (max_position p - pref) in
  ∃ s2, g_signal_emit (S (S depth)) paned "notify::max-position" s = Some s2
        ∧ (0 ≤ size → gtk_paned_get_position paned s2 = size)%Z
        ∧ prefs_int s2 = prefs_int s
        ∧ filter (λ h, h_object h = paned) (handlers s2)
          = [position_handler paned b].
Proof.
  intros Hp Hone pref size.
  rewrite (signal_emit_one _ _ _ _ _ Hone).
  rewrite decide_True by reflexivity.
  unfold run_callback, max_position_handler. cbn [h_callback h_object h_data].
  unfold notify_max_position_cb. cbn [as_blist mbind option_bind].
  unfold gtk_paned_get_child1, GTK_IS_VPANED, g_object_get_max_position.
  rewrite Hp. cbn [mbind option_bind from_option fmap option_fmap option_map].
  fold pref.
  assert (Hsize :
    (if decide (child1 p ≠ Some (blist_notebook b))
     then Some (gint (max_position p - pref)) else Some pref) = Some size).
  { unfold size. destruct (decide (child1 p = Some (blist_notebook b))).
    - by rewrite decide_False by tauto.
    - by rewrite decide_True. }
  rewrite Hsize. cbn [mbind option_bind].
  unfold gtk_paned_set_position. rewrite Hp.
  set (s' := upd_containers _ s).
  assert (Hone' : filter (λ h, h_object h = paned) (handlers s')
                  = [max_position_handler paned b]) by exact Hone.
  rewrite (signal_emit_one _ _ _ _ _ Hone').
  rewrite decide_False by discriminate. cbn [mbind option_bind].
  rewrite (signal_emit_one _ _ _ _ _ Hone').
  rewrite decide_False by discriminate. cbn [mbind option_bind].
  eexists; split; [reflexivity|].
  unfold g_object_connect. rewrite signal_of_spec_position.
  unfold g_object_disconnect. rewrite decide_True by reflexivity.
  fields. split; [|split; [reflexivity|]].
  - intros Hpos. unfold gtk_paned_get_position, as_paned, s'. fields.
    rewrite lookup_insert_eq. cbn. by rewrite decide_True.
  - rewrite filter_app, filter_comm. fold (handlers s'). rewrite Hone'.
    rewrite filter_cons_False, filter_nil.
    + by rewrite filter_cons_True.
    + intros Hno. apply Hno. by repeat split.
Qed.

Lemma later_notifications (depth : nat) (paned : widget)
    (b : PidginBuddyList) (s : World) :
  filter (λ h, h_object h = paned) (handlers s) = [position_handler paned b] →
  g_signal_emit (S depth) paned "notify::max-position" s = Some s
  ∧ g_signal_emit (S depth) paned "notify::position" s
    = notify_position_cb paned (PBlist b) s
  ∧ ∀ s', notify_position_cb paned (PBlist b) s = Some s' →
          handlers s' = handlers s.
Proof.
  intros Hone. split; [|split].
  - rewrite (signal_emit_one _ _ _ _ _ Hone).
    by rewrite decide_False by discriminate.
  - rewrite (signal_emit_one _ _ _ _ _ Hone).
    by rewrite decide_True by reflexivity.
  - intros s'. unfold notify_position_cb. cbn [as_blist mbind option_bind].
    destruct (decide _); [destruct (g_object_get_max_position paned s)|];
      cbn [mbind option_bind]; try discriminate;
      destruct (GTK_IS_VPANED paned s); intros [= <-]; reflexivity.
Qed.

(** C10.  [pwm_create_paned_layout] leaves exactly one handler on the new
    paned, [notify_max_position_cb] on "notify::max-position".  While the
    paned is connected this way, a notification of "max-position" runs the
    callback once: the slider is set from the stored preference (when the
    computed size is not negative), no preference is written although the
    slider moved, and afterwards the only handler of the paned is
    [notify_position_cb] on "notify::position".  From then on a notification
    of "max-position" changes nothing, and a notification of "position" is
    exactly a run of [notify_position_cb], which leaves the handlers as they
    are. *)
Theorem notify_max_position_cb_one_shot (depth : nat)
    (gtkblist : PidginBuddyList) (cw : PidginWindow) (side : option string)
    (s : World) :
  layout_ready gtkblist cw s →
  ∃ s1 paned,
    pwm_create_paned_layout gtkblist side s = Some s1
    ∧ pwm_fetch gtkblist "paned" s1 = PWidget paned
    ∧ is_Some (as_paned paned s1)
    ∧ filter (λ h, h_object h = paned) (handlers s1)
      = [max_position_handler paned gtkblist]
    ∧ (∀ σ p,
         as_paned paned σ = Some p →
         filter (λ h, h_object h = paned) (handlers σ)
         = [max_position_handler paned gtkblist] →
         let pref := if vertical p then purple_prefs_get_int PREF_HEIGHT σ
                     else purple_prefs_get_int PREF_WIDTH σ in
         let size := if decide (child1 p = Some (blist_notebook gtkblist))
                     then pref else gint (max_position p - pref) in
         ∃ σ2,
           g_signal_emit (S (S depth)) paned "notify::max-position" σ
           = Some σ2
           ∧ (0 ≤ size → gtk_paned_get_position paned σ2 = size)%Z
           ∧ prefs_int σ2 = prefs_int σ
           ∧ filter (λ h, h_object h = paned) (handlers σ2)
             = [position_handler paned gtkblist])
    ∧ (∀ σ,
         filter (λ h, h_object h = paned) (handlers σ)
         = [position_handler paned gtkblist] →
         g_signal_emit (S depth) paned "notify::max-position" σ = Some σ
         ∧ g_signal_emit (S depth) paned "notify::position" σ
           = notify_position_cb paned (PBlist gtkblist) σ
         ∧ ∀ σ', notify_position_cb paned (PBlist gtkblist) σ = Some σ' →
                 handlers σ' = handlers σ).
Proof.
  intros Hready.
  destruct (pwm_create_paned_layout_paned _ _ side _ Hready)
    as (s1 & Hrun & Hslot & Hpaned & Hone).
  exists s1, (next_id s). split; [exact Hrun|]. split; [exact Hslot|].
  split; [by rewrite Hpaned|]. split; [exact Hone|]. split.
  - intros σ p Hp Hσ. by apply first_max_position.
  - intros σ Hσ. by apply later_notifications.
Qed.

(** ** What the tree operations leave alone *)

Lemma same_data_refl s : same_data s s.
Proof. by split. Qed.

Lemma same_less s s' : same_data s s' → less_data s s'.
Proof. intros [H1 H2]. split; [by rewrite H1 | exact H2]. Qed.

Lemma same_data_trans s1 s2 s3 :
  same_data s1 s2 → same_data s2 s3 → same_data s1 s3.
Proof. intros [H1 H1'] [H2 H2']. split; congruence. Qed.

Lemma less_data_trans s1 s2 s3 :
  less_data s1 s2 → less_data s2 s3 → less_data s1 s3.
Proof.
  intros [H1 H1'] [H2 H2']. split; [by etrans | congruence].
Qed.

Lemma less_data_refl s : less_data s s.
Proof. by split. Qed.

Ltac same_data_tac :=
  repeat first [ case_match | case_decide ]; split; reflexivity.

Lemma gtk_container_remove_data c w s : same_data s (gtk_container_remove c w s).
Proof. unfold gtk_container_remove. same_data_tac. Qed.

Lemma gtk_container_add_data c w s : same_data s (gtk_container_add c w s).
Proof. unfold gtk_container_add. same_data_tac. Qed.

Lemma gtk_widget_reparent_data w np s :
  same_data s (gtk_widget_reparent w np s).
Proof.
  unfold gtk_widget_reparent.
  destruct (parent s !! w) as [old|]; [|apply same_data_refl].
  destruct np as [new|]; [|apply same_data_refl].
  destruct (decide (old = new)); [apply same_data_refl|].
  eapply same_data_trans;
    [apply gtk_container_remove_data | apply gtk_container_add_data].
Qed.

Lemma dispose_data w s : less_data s (dispose w s).
Proof. split; [apply map_filter_subseteq | reflexivity]. Qed.

Lemma foldl_less_data {A} (f : World → A → World) (l : list A) s :
  (∀ s x, less_data s (f s x)) → less_data s (foldl f s l).
Proof.
  intros Hf. revert s. induction l as [|x l IH]; intros s; cbn.
  - apply less_data_refl.
  - eapply less_data_trans; [apply Hf | apply IH].
Qed.

Lemma destroy_rec_data d w s : less_data s (destroy_rec d w s).
Proof.
  revert w s. induction d as [|d IH]; intros w s; cbn [destroy_rec].
  - eapply less_data_trans; [|apply dispose_data].
    destruct (parent s !! w); [|apply less_data_refl].
    apply same_less, gtk_container_remove_data.
  - eapply less_data_trans; [|apply dispose_data].
    eapply less_data_trans; [|apply foldl_less_data; intros; apply IH].
    destruct (parent s !! w); [|apply less_data_refl].
    apply same_less, gtk_container_remove_data.
Qed.

Lemma gtk_widget_destroy_data w s : less_data s (gtk_widget_destroy w s).
Proof. apply destroy_rec_data. Qed.

Lemma pwm_widget_replace_data o r np s :
  less_data s (pwm_widget_replace o r np s).
Proof.
  unfold pwm_widget_replace, gtk_widget_get_parent.
  destruct o as [o|], r as [r|]; try apply less_data_refl.
  destruct (parent s !! o) as [p|]; [|apply less_data_refl].
  set (s1 := match parent s !! r with
             | Some q => gtk_container_remove q r s | None => s end).
  assert (H1 : less_data s s1).
  { unfold s1. destruct (parent s !! r); [|apply less_data_refl].
    apply same_less, gtk_container_remove_data. }
  eapply less_data_trans; [exact H1|].
  set (s2 := upd_parent _ _).
  assert (H2 : less_data s1 s2) by (split; reflexivity).
  eapply less_data_trans; [exact H2|].
  destruct np as [np|].
  - apply same_less, gtk_container_add_data.
  - apply gtk_widget_destroy_data.
Qed.

Lemma split_conv_menu_item_data b m s item :
  less_data s (split_conv_menu_item b m s item).
Proof.
  unfold split_conv_menu_item. apply same_less.
  eapply same_data_trans; [|apply gtk_widget_reparent_data].
  unfold gtk_window_remove_accel_group. same_data_tac.
Qed.

Lemma steal_data obj key s : less_data s (g_object_steal_data obj key s).
Proof. split; [apply delete_subseteq | reflexivity]. Qed.

Lemma pwm_clear_data b id s : less_data s (pwm_clear b id s).
Proof. apply steal_data. Qed.

Lemma pwm_clear_None b id s :
  object_data (pwm_clear b id s) !! (blist_notebook b, String.append "pwm_" id)
  = None.
Proof. apply lookup_delete_eq. Qed.

Lemma pwm_free_dummy_conversation_data b s :
  less_data s (pwm_free_dummy_conversation b s).
Proof.
  unfold pwm_free_dummy_conversation.
  destruct (as_widget _); [|apply less_data_refl].
  eapply less_data_trans; [apply gtk_widget_destroy_data|].
  apply pwm_clear_data.
Qed.

Lemma less_data_None s s' k :
  less_data s s' → object_data s !! k = None → object_data s' !! k = None.
Proof. intros [Hsub _] Hk. eapply lookup_weaken_None; eassumption. Qed.

(** C7.  On a merged buddy list (its conversation-window tag points at a
    conversation window) [pwm_split_conversation] runs to its end and leaves
    no merge data behind: the "pwm_convs" tag of the buddy list's notebook
    and the "pwm_blist" tag of the conversation notebook are gone, and so
    are the five slots (conversation window pointer, menu-item list,
    placeholder, paned, original title); the buddy list reads as unmerged
    again. *)
Theorem pwm_split_conversation_clears (gtkblist : PidginBuddyList)
    (cw : PidginWindow) (s : World) :
  deref_convwin (pwm_blist_get_convs gtkblist s) s = Some cw →
  ∃ s', pwm_split_conversation gtkblist s = Some s'
        ∧ object_data s' !! (blist_notebook gtkblist, "pwm_convs") = None
        ∧ object_data s' !! (conv_notebook cw, "pwm_blist") = None
        ∧ (∀ key, key ∈ merge_slots →
             object_data s' !! (blist_notebook gtkblist, key) = None)
        ∧ pwm_blist_get_convs gtkblist s' = NULL.
Proof.
  intros Hcw. unfold pwm_split_conversation.
  destruct (pwm_blist_get_convs gtkblist s) as [| | | |addr|] eqn:Hconvs;
    try discriminate.
  cbn [deref_convwin] in *.
  set (nb := blist_notebook gtkblist).
  set (s1 := g_object_steal_data nb "pwm_convs" s).
  change (convwins s1 !! addr) with (convwins s !! addr). rewrite Hcw.
  cbn [mbind option_bind set_conv_window].
  set (s2 := g_object_steal_data (conv_notebook cw) "pwm_blist" s1).
  set (window := as_widget (pwm_fetch gtkblist "conv_window" s2)).
  set (s3 := upd_convwins _ s2).
  set (s4 := pwm_clear gtkblist "conv_window" s3).
  set (s5 := g_object_disconnect _ _ _ _ s4).
  set (s6 := foldl _ s5 _).
  set (s7 := pwm_clear gtkblist "conv_menus" s6).
  set (s8 := pwm_widget_replace _ _ None s7).
  set (s9 := pwm_clear gtkblist "placeholder" s8).
  assert (L12 : less_data s1 s2) by apply steal_data.
  assert (O23 : object_data s3 = object_data s2) by reflexivity.
  assert (L34 : less_data s3 s4) by apply pwm_clear_data.
  assert (L45 : less_data s4 s5).
  { unfold s5, g_object_disconnect. case_decide; by split. }
  assert (L56 : less_data s5 s6).
  { apply foldl_less_data. intros. apply split_conv_menu_item_data. }
  assert (L67 : less_data s6 s7) by apply pwm_clear_data.
  assert (L78 : less_data s7 s8) by apply pwm_widget_replace_data.
  assert (L89 : less_data s8 s9) by apply pwm_clear_data.
  assert (L39 : less_data s3 s9) by eauto 10 using less_data_trans.
  assert (Hcw3 : convwins s9 !! addr
                 = Some {| conv_window := window;
                           conv_notebook := conv_notebook cw;
                           conv_menubar := conv_menubar cw |}).
  { destruct L39 as [_ ->]. unfold s3. cbn. rewrite lookup_alter_eq.
    change (convwins s2 !! addr) with (convwins s !! addr).
    by rewrite Hcw. }
  rewrite Hcw3. cbn [mbind option_bind].
  set (s10 := pidgin_conv_window_show _ s9).
  set (s11 := pwm_free_dummy_conversation gtkblist s10).
  set (s12 := pwm_widget_replace _ _ None s11).
  set (s13 := pwm_clear gtkblist "paned" s12).
  set (s14 := gtk_window_set_icon_list _ [] s13).
  set (s15 := gtk_window_set_title _ _ s14).
  set (s16 := pwm_clear gtkblist "title" s15).
  assert (L910 : less_data s9 s10).
  { unfold s10, pidgin_conv_window_show. cbn. destruct window; by split. }
  assert (L1011 : less_data s10 s11) by apply pwm_free_dummy_conversation_data.
  assert (L1112 : less_data s11 s12) by apply pwm_widget_replace_data.
  assert (L1213 : less_data s12 s13) by apply pwm_clear_data.
  assert (L1314 : less_data s13 s14) by by split.
  assert (L1415 : less_data s14 s15).
  { unfold s15, gtk_window_set_title. destruct (as_string _); by split. }
  assert (L1516 : less_data s15 s16) by apply pwm_clear_data.
  assert (L916 : less_data s9 s16) by eauto 10 using less_data_trans.
  assert (L1316 : less_data s13 s16) by eauto 10 using less_data_trans.
  assert (S216 : object_data s16 ⊆ object_data s2).
  { etrans; [apply L916|]. etrans; [apply L39|]. by rewrite O23. }
  assert (N1 : object_data s16 !! (nb, "pwm_convs") = None).
  { eapply lookup_weaken_None; [|exact S216].
    eapply lookup_weaken_None; [|apply L12]. apply lookup_delete_eq. }
  exists s16. split; [reflexivity|]. split; [exact N1|]. split; [|split].
  - eapply lookup_weaken_None; [|exact S216]. apply lookup_delete_eq.
  - intros key Hkey. unfold merge_slots in Hkey.
    repeat (apply elem_of_cons in Hkey as [->|Hkey]).
    + eapply (less_data_None s4); [eauto 10 using less_data_trans|].
      apply (pwm_clear_None gtkblist "conv_window").
    + eapply (less_data_None s7); [eauto 10 using less_data_trans|].
      apply (pwm_clear_None gtkblist "conv_menus").
    + eapply (less_data_None s9); [exact L916|].
      apply (pwm_clear_None gtkblist "placeholder").
    + eapply (less_data_None s13); [exact L1316|].
      apply (pwm_clear_None gtkblist "paned").
    + apply (pwm_clear_None gtkblist "title").
    + by apply elem_of_nil in Hkey.
  - unfold pwm_blist_get_convs, g_object_get_data. fold nb. by rewrite N1.
Qed.

(** ** The loops over the menu items *)

Lemma lookup_insert_all {V} (ks : list nat) (f : nat → V) (m : gmap nat V)
    (k : nat) :
  insert_all ks f m !! k = if decide (k ∈ ks) then Some (f k) else m !! k.
Proof.
  induction ks as [|k0 ks IH].
  - rewrite decide_False; [reflexivity | apply not_elem_of_nil].
  - change (insert_all (k0 :: ks) f m)
      with (<[k0 := f k0]> (insert_all ks f m)).
    destruct (decide (k0 = k)) as [->|Hne].
    + rewrite lookup_insert_eq, decide_True; [reflexivity | left].
    + rewrite lookup_insert_ne by done. rewrite IH.
      destruct (decide (k ∈ ks)) as [Hin|Hout].
      * rewrite decide_True; [reflexivity | by right].
      * rewrite decide_False; [reflexivity|].
        rewrite not_elem_of_cons. split; congruence.
Qed.

Lemma lookup_insert_all_in {V} ks (f : nat → V) (m : gmap nat V) k :
  k ∈ ks → insert_all ks f m !! k = Some (f k).
Proof. intros H. by rewrite lookup_insert_all, decide_True. Qed.

Lemma lookup_insert_all_out {V} ks (f : nat → V) (m : gmap nat V) k :
  k ∉ ks → insert_all ks f m !! k = m !! k.
Proof. intros H. by rewrite lookup_insert_all, decide_False. Qed.

Lemma g_object_set_data_eq obj key v s :
  g_object_set_data obj key v s
  = upd_object_data (set_data_map (obj, key) v) s.
Proof. by destruct v. Qed.

Lemma lookup_set_data_map_eq k v m :
  set_data_map k v m !! k = match v with NULL => None | _ => Some v end.
Proof.
  destruct v; cbn; by rewrite ?lookup_delete_eq, ?lookup_insert_eq.
Qed.

Lemma lookup_set_data_map_ne k k' v m :
  k ≠ k' → set_data_map k v m !! k' = m !! k'.
Proof.
  intros Hne.
  destruct v; cbn; by rewrite ?lookup_delete_ne, ?lookup_insert_ne.
Qed.

Lemma get_set_data_map k v m : default NULL (set_data_map k v m !! k) = v.
Proof. rewrite lookup_set_data_map_eq. by destruct v. Qed.

Lemma gtk_window_add_accel_group_eq w g s :
  gtk_window_add_accel_group w g s
  = upd_accel_groups (λ a, a ∪ accel_pair w g) s.
Proof.
  destruct g as [g|]; [reflexivity|]. cbn.
  apply World_eq; fields; try reflexivity. by rewrite union_empty_r_L.
Qed.

Lemma gtk_window_remove_accel_group_eq w g s :
  gtk_window_remove_accel_group w g s
  = upd_accel_groups (λ a, a ∖ accel_pair w g) s.
Proof.
  destruct g as [g|]; [reflexivity|]. cbn.
  apply World_eq; fields; try reflexivity. by rewrite difference_empty_L.
Qed.

Lemma merge_conv_menu_item_eq b menu s item :
  merge_conv_menu_item b menu s item
  = gtk_window_add_accel_group (blist_window b)
      (item_accel_group (gtk_widget_reparent item menu s) item)
      (gtk_widget_reparent item menu s).
Proof.
  unfold merge_conv_menu_item, item_accel_group.
  destruct (GTK_IS_MENU_ITEM _ _); [|reflexivity].
  destruct (GTK_IS_MENU _ _); reflexivity.
Qed.

Lemma split_conv_menu_item_eq b menubar s item :
  split_conv_menu_item b menubar s item
  = gtk_widget_reparent item (Some menubar)
      (gtk_window_remove_accel_group (blist_window b)
         (item_accel_group s item) s).
Proof.
  unfold split_conv_menu_item, item_accel_group.
  destruct (GTK_IS_MENU_ITEM _ _); [|reflexivity].
  destruct (GTK_IS_MENU _ _); reflexivity.
Qed.

Lemma item_accel_group_ext s s' item :
  gtype s' = gtype s → submenu s' = submenu s →
  menu_accel s' = menu_accel s →
  item_accel_group s' item = item_accel_group s item.
Proof.
  intros H1 H2 H3.
  unfold item_accel_group, GTK_IS_MENU_ITEM, GTK_IS_MENU,
    gtk_menu_item_get_submenu, gtk_menu_get_accel_group.
  by rewrite H1, H2, H3.
Qed.

Lemma filter_ne_notin (x : nat) (l : list nat) :
  x ∉ l → filter (λ y, y ≠ x) l = l.
Proof. intros H. apply filter_all. intros y Hy ->. contradiction. Qed.

Lemma merge_loop b menu cm todo : ∀ ml rest σ,
  containers σ !! cm = Some (Children (todo ++ rest)) →
  containers σ !! menu = Some (Children ml) →
  cm ≠ menu →
  (∀ i, i ∈ todo → parent σ !! i = Some cm) →
  NoDup todo → (∀ i, i ∈ todo → i ∉ rest) →
  foldl (merge_conv_menu_item b (Some menu)) σ todo
  = upd_accel_groups
      (λ a, a ∪ accel_pairs (blist_window b) (item_accel_group σ <$> todo))
      (upd_parent (insert_all todo (λ _, menu))
         (upd_containers
            (λ m, <[menu := Children (ml ++ todo)]>
                    (<[cm := Children rest]> m)) σ)).
Proof.
  induction todo as [|i todo IH]; intros ml rest σ Hcm Hmenu Hne Hpar Hnd Hrest.
  - cbn. apply World_eq; fields; try reflexivity.
    + rewrite app_nil_r. rewrite (insert_id _ cm) by done.
      by rewrite insert_id.
    + by rewrite union_empty_r_L.
  - apply NoDup_cons in Hnd as [Hi Hnd].
    cbn [foldl]. rewrite merge_conv_menu_item_eq.
    erewrite (gtk_widget_reparent_eq i cm menu);
      [ | apply Hpar; left | done ].
    erewrite (gtk_container_remove_eq cm i);
      [ | apply Hpar; left | exact Hcm ].
    erewrite (gtk_container_add_children menu i);
      [ | look; reflexivity | look; eassumption ].
    rewrite gtk_window_add_accel_group_eq.
    cbn [container_remove_child].
    assert (Hfilter : filter (λ x, x ≠ i) ((i :: todo) ++ rest) = todo ++ rest).
    { change ((i :: todo) ++ rest) with (i :: (todo ++ rest)).
      rewrite filter_cons_False by (intros H; by apply H).
      apply filter_ne_notin. rewrite elem_of_app. intros [H|H]; [done|].
      eapply Hrest; [left | exact H]. }
    rewrite Hfilter.
    erewrite (IH (ml ++ [i]) rest).
    + apply World_eq; fields; try reflexivity.
      * apply map_eq. intros j. rewrite !lookup_insert_all.
        destruct (decide (j ∈ todo)) as [Hj|Hj].
        -- rewrite decide_True by by right. reflexivity.
        -- destruct (decide (i = j)) as [<-|Hij].
           ++ rewrite decide_True by left. by rewrite lookup_insert_eq.
           ++ rewrite decide_False
                by (rewrite not_elem_of_cons; split; congruence).
              by rewrite lookup_insert_ne, lookup_delete_ne.
      * rewrite <- app_assoc. cbn. map_solver.
      * cbn [fmap list_fmap accel_pairs].
        rewrite <- (assoc_L (∪)). reflexivity.
    + look. reflexivity.
    + look. reflexivity.
    + exact Hne.
    + intros j Hj. assert (i ≠ j) by (intros ->; done).
      look. apply Hpar. by right.
    + exact Hnd.
    + intros j Hj. apply Hrest. by right.
Qed.

Lemma split_loop b menu cm todo : ∀ cl ml σ,
  containers σ !! menu = Some (Children ml) →
  containers σ !! cm = Some (Children cl) →
  cm ≠ menu →
  (∀ i, i ∈ todo → parent σ !! i = Some menu) →
  NoDup todo →
  foldl (split_conv_menu_item b cm) σ todo
  = upd_accel_groups
      (λ a, a ∖ accel_pairs (blist_window b) (item_accel_group σ <$> todo))
      (upd_parent (insert_all todo (λ _, cm))
         (upd_containers
            (λ m, <[cm := Children (cl ++ todo)]>
                    (<[menu := Children (filter (λ x, x ∉ todo) ml)]> m))
            σ)).
Proof.
  induction todo as [|i todo IH]; intros cl ml σ Hmenu Hcm Hne Hpar Hnd.
  - cbn [foldl]. apply World_eq; fields; try reflexivity.
    + rewrite app_nil_r.
      rewrite filter_all by (intros; apply not_elem_of_nil).
      rewrite (insert_id _ menu) by done. by rewrite insert_id.
    + cbn. by rewrite difference_empty_L.
  - apply NoDup_cons in Hnd as [Hi Hnd].
    cbn [foldl]. rewrite split_conv_menu_item_eq.
    rewrite gtk_window_remove_accel_group_eq.
    erewrite (gtk_widget_reparent_eq i menu cm);
      [ | look; apply Hpar; left | done ].
    erewrite (gtk_container_remove_eq menu i);
      [ | look; apply Hpar; left | look; exact Hmenu ].
    erewrite (gtk_container_add_children cm i);
      [ | look; reflexivity | look; eassumption ].
    cbn [container_remove_child].
    erewrite (IH (cl ++ [i]) (filter (λ x, x ≠ i) ml)).
    + apply World_eq; fields; try reflexivity.
      * apply map_eq. intros j. rewrite !lookup_insert_all.
        destruct (decide (j ∈ todo)) as [Hj|Hj].
        -- rewrite decide_True by by right. reflexivity.
        -- destruct (decide (i = j)) as [<-|Hij].
           ++ rewrite decide_True by left. by rewrite lookup_insert_eq.
           ++ rewrite decide_False
                by (rewrite not_elem_of_cons; split; congruence).
              by rewrite lookup_insert_ne, lookup_delete_ne.
      * rewrite <- app_assoc. rewrite list_filter_filter.
        rewrite (list_filter_iff _ (λ x, x ∉ i :: todo)).
        -- cbn. map_solver.
        -- intros x. rewrite not_elem_of_cons. tauto.
      * cbn [fmap list_fmap accel_pairs].
        by rewrite difference_difference_l_L.
    + look. reflexivity.
    + look. reflexivity.
    + exact Hne.
    + intros j Hj. assert (i ≠ j) by (intros ->; done).
      look. apply Hpar. by right.
    + exact Hnd.
Qed.

(** ** Keeping the addresses in bounds *)

Section below.
Context {V : Type}.
Implicit Types m : gmap nat V.

Lemma below_weaken n n' m : n ≤ n' → below n m → below n' m.
Proof.
  intros Hle Hm. eapply map_Forall_impl; [exact Hm|].
  cbn. intros w _ Hw. lia.
Qed.
Lemma below_insert n m k v : k < n → below n m → below n (<[k := v]> m).
Proof. intros Hk Hm. by apply map_Forall_insert_2. Qed.
Lemma below_delete n m k : below n m → below n (delete k m).
Proof. apply map_Forall_delete. Qed.
Lemma below_insert_all n m ks (f : nat → V) :
  (∀ k, k ∈ ks → k < n) → below n m → below n (insert_all ks f m).
Proof.
  intros Hks Hm. induction ks as [|k ks IH]; [exact Hm|].
  change (insert_all (k :: ks) f m)
    with (<[k := f k]> (insert_all ks f m)).
  apply below_insert; [apply Hks; left|].
  apply IH. intros k' Hk'. apply Hks. by right.
Qed.
End below.

Ltac below_tac :=
  unfold below in *;
  repeat first
    [ apply map_Forall_insert_2; [cbn; try lia|]
    | apply map_Forall_delete
    | apply below_insert_all; [|] ].

Lemma unused_from_weaken n n' s :
  n ≤ n' → unused_from n s → unused_from n' s.
Proof.
  intros Hle (H1 & H2 & H3 & H4 & H5 & H6 & H7 & H8 & H9 & H10 & H11 & H12).
  unfold unused_from. split_and!.
  - by eapply below_weaken.
  - eapply map_Forall_impl; [exact H2|]. cbn. intros w c [Hw Hc]. split; [lia|].
    eapply Forall_impl; [exact Hc|]. cbn. lia.
  - by eapply below_weaken.
  - eapply set_Forall_impl; [exact H4|]. cbn. lia.
  - by eapply below_weaken.
  - by eapply below_weaken.
  - eapply set_Forall_impl; [exact H7|]. cbn. lia.
  - by eapply below_weaken.
  - by eapply below_weaken.
  - eapply map_Forall_impl; [exact H10|]. cbn. lia.
  - eapply Forall_impl; [exact H11|]. cbn. intros h [Ho Hd].
    split; [lia|]. destruct (h_data h); cbn in *; try exact I. lia.
  - by eapply below_weaken.
Qed.

Lemma cbelow_insert n m k c :
  k < n → Forall (λ x, x < n) (container_children c) →
  cbelow n m → cbelow n (<[k := c]> m).
Proof. intros Hk Hc Hm. by apply map_Forall_insert_2. Qed.

Lemma cbelow_delete n m k : cbelow n m → cbelow n (delete k m).
Proof. apply map_Forall_delete. Qed.

Lemma cbelow_children n m k c x :
  cbelow n m → m !! k = Some c → x ∈ container_children c → x < n.
Proof.
  intros Hm Hk Hx. apply Hm in Hk as [_ Hc].
  rewrite Forall_forall in Hc. by apply Hc.
Qed.

Lemma Forall_list_subst (P : nat → Prop) x y l :
  P y → Forall P l → Forall P (list_subst x y l).
Proof.
  intros Hy Hl. unfold list_subst. apply Forall_fmap.
  eapply Forall_impl; [exact Hl|]. cbn. intros z Hz. by case_decide.
Qed.

Lemma container_substitute_children_eq x y c :
  container_children (container_substitute x y c)
  = list_subst x y (container_children c).
Proof.
  destruct c as [l|p]; [reflexivity|].
  destruct p as [v [a|] [b|] r1 r2 sz ps mp]; cbn;
    repeat (case_decide; cbn in *); simplify_eq; try reflexivity;
    congruence.
Qed.

Lemma container_substitute_children (P : nat → Prop) x y c :
  P y → Forall P (container_children c) →
  Forall P (container_children (container_substitute x y c)).
Proof.
  intros Hy Hc. rewrite container_substitute_children_eq.
  by apply Forall_list_subst.
Qed.

Lemma set_Forall_difference_1 {A} `{Countable A} (P : A → Prop)
    (X Y : gset A) :
  set_Forall P X → set_Forall P (X ∖ Y).
Proof.
  intros HX x Hx. apply HX. by apply elem_of_difference in Hx as [? _].
Qed.

Lemma set_Forall_filter_1 {A} `{Countable A} (P Q : A → Prop)
    `{!∀ x, Decision (Q x)} (X : gset A) :
  set_Forall P X → set_Forall P (filter Q X).
Proof. intros HX x Hx. apply HX. by apply elem_of_filter in Hx as [_ ?]. Qed.

Lemma map_Forall_filter_1 {K A} `{Countable K} (P : K → A → Prop)
    (Q : K * A → Prop) `{!∀ x, Decision (Q x)} (m : gmap K A) :
  map_Forall P m → map_Forall P (filter Q m).
Proof.
  intros Hm i x Hi. apply Hm. by apply map_lookup_filter_Some in Hi as [? _].
Qed.

Lemma Forall_filter_1 {A} (P Q : A → Prop) `{!∀ x, Decision (Q x)}
    (l : list A) :
  Forall P l → Forall P (filter Q l).
Proof.
  rewrite !Forall_forall. intros Hl x Hx. apply Hl.
  by apply list_elem_of_filter in Hx as [_ ?].
Qed.

Lemma laid_out_initial_unused b cw box cbox bl cl side s :
  layout_initial b cw box cbox bl cl s →
  unused_from (S (S (next_id s))) (laid_out_initial b cw box cbox bl cl side s).
Proof.
  intros [Hconvs Hnop Hun Hnb Hbox Hcnb Hcbox Hd].
  pose proof (used_lt _ _ _ (unused_parent Hun) Hnb) as L1.
  pose proof (used_lt _ _ _ (unused_parent Hun) Hcnb) as L2.
  pose proof (used_lt _ _ _ (unused_containers Hun) Hbox) as L3.
  pose proof (used_lt _ _ _ (unused_containers Hun) Hcbox) as L4.
  apply (unused_from_weaken _ (S (S (next_id s)))) in Hun; [|lia].
  destruct Hun
    as (H1 & H2 & H3 & H4 & H5 & H6 & H7 & H8 & H9 & H10 & H11 & H12).
  unfold unused_from, laid_out_initial. fields. split_and!;
    try assumption.
  - repeat (apply map_Forall_insert_2; [cbn; lia|]). exact H1.
  - apply cbelow_insert; [lia| |].
    { cbn. destruct (side_is side "t" "l");
        repeat (apply Forall_cons; split; [lia|]); apply Forall_nil_2. }
    apply cbelow_insert; [lia| |].
    { cbn. apply Forall_list_subst; [lia|].
      apply Forall_forall. intros x Hx.
      eapply (cbelow_children _ _ box); [exact H2|exact Hbox|exact Hx]. }
    apply cbelow_insert; [lia| |exact H2].
    cbn. apply Forall_list_subst; [lia|].
    apply Forall_forall. intros x Hx.
    eapply (cbelow_children _ _ cbox); [exact H2|exact Hcbox|exact Hx].
  - repeat (apply map_Forall_insert_2; [cbn; lia|]). exact H3.
  - apply set_Forall_union; [exact H4|]. apply set_Forall_singleton. lia.
  - repeat (apply map_Forall_insert_2; [cbn; lia|]). exact H10.
  - apply Forall_app. split; [exact H11|].
    apply Forall_cons. split; [cbn; split; [lia|exact I] | apply Forall_nil_2].
Qed.

Lemma laid_out_again_unused b cw old q po cq side s :
  layout_merged b cw old q po cq s →
  unused_from (S (next_id s)) (laid_out_again b cw old q cq side s).
Proof.
  intros [Hconvs Hpaned Hun Hold Hch Hnb Hcnb Hq Hcq Hd].
  pose proof (used_lt _ _ _ (unused_parent Hun) Hnb) as L1.
  pose proof (used_lt _ _ _ (unused_parent Hun) Hcnb) as L2.
  pose proof (used_lt _ _ _ (unused_containers Hun) Hold) as L3.
  pose proof (used_lt _ _ _ (unused_containers Hun) Hcq) as L4.
  apply (unused_from_weaken _ (S (next_id s))) in Hun; [|lia].
  destruct Hun
    as (H1 & H2 & H3 & H4 & H5 & H6 & H7 & H8 & H9 & H10 & H11 & H12).
  unfold unused_from, laid_out_again. fields. split_and!;
    try assumption; try (by apply map_Forall_delete).
  - repeat (apply map_Forall_insert_2; [cbn; lia|]).
    by apply map_Forall_delete.
  - apply cbelow_insert; [lia| |].
    { cbn. destruct (side_is side "t" "l");
        repeat (apply Forall_cons; split; [lia|]); apply Forall_nil_2. }
    apply cbelow_insert; [lia| |by apply cbelow_delete].
    apply container_substitute_children; [lia|].
    apply Forall_forall. intros x Hx.
    eapply (cbelow_children _ _ q); [exact H2|exact Hcq|exact Hx].
  - apply map_Forall_delete.
    repeat (apply map_Forall_insert_2; [cbn; lia|]). exact H3.
  - apply set_Forall_difference_1.
    apply set_Forall_union; [exact H4|]. apply set_Forall_singleton. lia.
  - by apply set_Forall_filter_1.
  - apply map_Forall_filter_1.
    repeat (apply map_Forall_insert_2; [cbn; lia|]). exact H10.
  - apply Forall_filter_1. apply Forall_app. split; [exact H11|].
    apply Forall_cons. split; [cbn; split; [lia|exact I] | apply Forall_nil_2].
Qed.

(** ** Merging a pristine buddy list *)

Ltac neq :=
  first [ lia | congruence
        | intros [=]; first [lia | congruence | discriminate] ].

Ltac mem :=
  first [ assumption
        | match goal with
          | H : ∀ i, i ∈ ?l ↔ _ |- _ ∈ ?l => rewrite H; lia
          | H : ∀ i, i ∈ ?l ↔ _ |- _ ∉ ?l => rewrite H; lia
          end ].

Ltac look2 :=
  fields;
  repeat first
    [ rewrite lookup_insert_eq
    | rewrite lookup_delete_eq
    | rewrite lookup_set_data_map_eq
    | rewrite lookup_insert_ne by neq
    | rewrite lookup_delete_ne by neq
    | rewrite lookup_set_data_map_ne by neq
    | rewrite lookup_insert_all_out by mem
    | rewrite lookup_insert_all_in by mem ].

Ltac mem_facts :=
  repeat match goal with
  | H : ?x ∈ ?l, Hl : ∀ i, i ∈ ?l ↔ _ |- _ =>
      apply Hl in H
  | H : ?x ∉ ?l, Hl : ∀ i, i ∈ ?l ↔ _ |- _ =>
      rewrite Hl in H
  end.

Ltac map_cases2 i :=
  repeat match goal with
  | |- context [ <[?k := _]> _ !! i ] =>
      destruct (decide (k = i)) as [<-|?]; look2
  | |- context [ delete ?k _ !! i ] =>
      destruct (decide (k = i)) as [<-|?]; look2
  | |- context [ insert_all ?ks _ _ !! i ] =>
      destruct (decide (i ∈ ks)); look2; mem_facts
  end.

Ltac fin :=
  first [ reflexivity | done | lia | congruence
        | look2; first [ eassumption | reflexivity | symmetry; eassumption
                       | lia | congruence ] ].

Ltac map_solver2 :=
  let i := fresh "i" in
  apply map_eq; intros i; look2; map_cases2 i;
  try first [ reflexivity | done | lia | congruence ].

Ltac map_solver3 σ :=
  let i := fresh "i" in
  apply map_eq; intros i; look2; map_cases2 i;
  try first [ reflexivity | done | lia | congruence
            | unfold σ; look2; mem_facts;
              first [ eassumption | reflexivity | symmetry; eassumption
                    | lia | congruence ] ].

Ltac unf :=
  repeat match goal with
  | x := _ : World |- _ => progress unfold x
  end;
  try unfold laid_out_initial; cbv zeta.

Ltac unused_tac :=
  match goal with
  | H : unused_from _ ?s |- parent ?s !! _ = None =>
      apply (unused_parent H); lia
  | H : unused_from _ ?s |- containers ?s !! _ = None =>
      apply (unused_containers H); lia
  | H : unused_from _ ?s |- object_data ?s !! _ = None =>
      apply (unused_object_data H); lia
  end.

Ltac side2 :=
  unf; look2;
  first [eassumption | reflexivity | lia | done | congruence | unused_tac].

Ltac side2_old := look2; first [eassumption | reflexivity | lia | done | congruence].

Lemma elem_of_flagged a flags x :
  x ∈ flagged a flags → a ≤ x < a + length flags.
Proof.
  revert a. induction flags as [|f flags IH]; intros a; cbn [flagged].
  - by intros ?%elem_of_nil.
  - rewrite elem_of_app. intros [H|H].
    + destruct f; [|by apply elem_of_nil in H].
      apply list_elem_of_singleton in H as ->. cbn. lia.
    + apply IH in H. cbn. lia.
Qed.

Lemma set_data_map_below n k v m :
  k.1 < n → map_Forall (λ k _, k.1 < n) m →
  map_Forall (λ k _, k.1 < n) (set_data_map k v m).
Proof.
  intros Hk Hm. destruct v; cbn;
    first [by apply map_Forall_delete | by apply map_Forall_insert_2].
Qed.

Lemma conv_world_unused s :
  unused_from (next_id s) s →
  unused_from (next_id s + 6 + length (host_conv_menus s)
               + length (host_conv_menus s)) (conv_world s).
Proof.
  intros Hun.
  set (n := next_id s). set (k := length (host_conv_menus s)).
  apply (unused_from_weaken _ (n + 6 + k + k)) in Hun; [|lia].
  destruct Hun
    as (H1 & H2 & H3 & H4 & H5 & H6 & H7 & H8 & H9 & H10 & H11 & H12).
  assert (Hitems : ∀ i, i ∈ seq (n + 6) k → i < n + 6 + k + k)
    by (intros i Hi%elem_of_seq; lia).
  assert (Hflag : ∀ i, i ∈ flagged (n + 6) (host_conv_menus s) →
            i < n + 6 + k ∧ i + k < n + 6 + k + k).
  { intros i Hi%elem_of_flagged. fold k in Hi. lia. }
  unfold unused_from, conv_world, pidgin_conv_window_new. cbn [snd].
  fold n k. fields. split_and!; try assumption.
  - apply below_insert_all; [exact Hitems|].
    repeat (apply below_insert; [lia|]). exact H1.
  - apply cbelow_insert; [lia| |].
    { cbn. repeat (apply Forall_cons; split; [lia|]). apply Forall_nil_2. }
    apply cbelow_insert; [lia| |].
    { cbn. repeat (apply Forall_cons; split; [lia|]). apply Forall_nil_2. }
    apply cbelow_insert; [lia| |].
    { cbn. apply Forall_forall. exact Hitems. }
    apply cbelow_insert; [lia| |exact H2].
    apply Forall_nil_2.
  - apply below_insert_all.
    { intros i (j & -> & Hj)%list_elem_of_fmap. by apply Hflag. }
    apply below_insert_all; [exact Hitems|].
    repeat (apply below_insert; [lia|]). exact H3.
  - apply set_Forall_union; [exact H4|].
    apply set_Forall_list_to_set.
    repeat (apply Forall_cons; split; [lia|]).
    apply Forall_forall. exact Hitems.
  - apply set_Forall_union; [exact H7|].
    apply set_Forall_singleton. cbn. lia.
  - apply below_insert_all; [|exact H8].
    intros i Hi. apply Hflag in Hi. lia.
  - apply below_insert_all; [|exact H9].
    intros i (j & -> & Hj)%list_elem_of_fmap. by apply Hflag.
  - apply below_insert; [lia | exact H12].
Qed.

Lemma alter_upd_convwins addr cw f s :
  convwins s !! addr = Some cw →
  upd_convwins (alter f addr) s = upd_convwins (insert addr (f cw)) s.
Proof.
  intros H. apply World_eq; fields; try reflexivity. by apply alter_Some.
Qed.

Lemma conv_item_accel s X i :
  unused_from (next_id s) s →
  i ∈ seq (next_id s + 6) (length (host_conv_menus s)) →
  gtype X !! i = gtype (conv_world s) !! i →
  gtype X !! (i + length (host_conv_menus s))
  = gtype (conv_world s) !! (i + length (host_conv_menus s)) →
  submenu X !! i = submenu (conv_world s) !! i →
  menu_accel X !! (i + length (host_conv_menus s))
  = menu_accel (conv_world s) !! (i + length (host_conv_menus s)) →
  item_accel_group X i
  = if decide (i ∈ flagged (next_id s + 6) (host_conv_menus s))
    then Some (next_id s + 5) else None.
Proof.
  intros Hun Hi G1 G2 G3 G4.
  set (n := next_id s) in *. set (k := length (host_conv_menus s)) in *.
  set (fl := flagged (n + 6) (host_conv_menus s)).
  apply elem_of_seq in Hi.
  assert (Hfl : ∀ j, j ∈ fl → n + 6 ≤ j < n + 6 + k)
    by (intros j Hj%elem_of_flagged; exact Hj).
  assert (Hsub : ∀ j, j ∈ (λ i, i + k) <$> fl ↔ ∃ j', j = j' + k ∧ j' ∈ fl)
    by (intros j; apply list_elem_of_fmap).
  unfold item_accel_group, GTK_IS_MENU_ITEM, GTK_IS_MENU,
    gtk_menu_item_get_submenu, gtk_menu_get_accel_group.
  rewrite G1, G3. unfold conv_world, pidgin_conv_window_new. cbn [snd].
  fold n k fl. fields.
  rewrite (lookup_insert_all_out ((λ i, i + k) <$> fl)).
  2:{ rewrite Hsub. intros (j' & -> & Hj'). apply Hfl in Hj'. lia. }
  rewrite lookup_insert_all_in by (apply elem_of_seq; lia).
  rewrite bool_decide_eq_true_2 by reflexivity.
  rewrite lookup_insert_all.
  destruct (decide (i ∈ fl)) as [Hin|Hout].
  - cbn [mbind option_bind].
    rewrite G2, G4. unfold conv_world, pidgin_conv_window_new. cbn [snd].
    fold n k fl. fields.
    rewrite !(lookup_insert_all_in ((λ i, i + k) <$> fl))
      by (rewrite Hsub; eauto).
    by rewrite bool_decide_eq_true_2.
  - by rewrite (unused_submenu Hun) by lia.
Qed.

Lemma merge_run b box menu bl pre s :
  pristine b box menu bl pre s →
  pwm_merge_conversation b s = Some (merged_world b box menu bl pre s).
Proof.
  intros (Hun & Hwin & Hslots & Hnb & Hbox & Htray & Hmenu & Hpre & Hd).
  apply NoDup_4 in Hd as (D1 & D2 & D3 & D4 & D5 & D6).
  pose proof (used_lt _ _ _ (unused_parent Hun) Hnb) as L1.
  pose proof (used_lt _ _ _ (unused_containers Hun) Hbox) as L2.
  pose proof (used_lt _ _ _ (unused_parent Hun) Htray) as L3.
  pose proof (used_lt _ _ _ (unused_containers Hun) Hmenu) as L4.
  unfold merge_slots in Hslots. rewrite !Forall_cons in Hslots.
  destruct Hslots as (S1 & S2 & S3 & S4 & S5 & S6 & S7 & _).
  unfold pwm_merge_conversation.
  assert (Hunmerged : pwm_blist_get_convs b s = NULL)
    by (unfold pwm_blist_get_convs, g_object_get_data; by rewrite S1).
  rewrite decide_False by (intros H; by apply H).
  unfold gtk_widget_get_parent. rewrite Htray.
  unfold pidgin_conv_window_new.
  set (n := next_id s) in *.
  set (k := length (host_conv_menus s)).
  set (items := seq (n + 6) k).
  assert (Hitems : ∀ i, i ∈ items ↔ n + 6 ≤ i < n + 6 + k)
    by (intros i; apply elem_of_seq).
  set (nb := blist_notebook b) in *. set (tray := blist_menutray b) in *.
  set (bwin := blist_window b) in *.
  set (σ := upd_next_id _ _).
  cbn [deref_convwin].
  assert (Hcw : convwins σ !! n
                = Some {| conv_window := Some (n + 1);
                          conv_notebook := n + 4; conv_menubar := n + 3 |}).
  { unfold σ. look2. reflexivity. }
  rewrite Hcw. cbn [mbind option_bind conv_notebook conv_window conv_menubar].
  rewrite !g_object_set_data_eq. unfold pwm_store. rewrite g_object_set_data_eq.
  keys.
  set (cw := {| conv_window := Some (n + 1); conv_notebook := n + 4;
                conv_menubar := n + 3 |}) in *.
  change (blist_notebook b) with nb.
  set (σ3 := upd_object_data (set_data_map (nb, "pwm_title") _) _).
  assert (Hσun : unused_from (n + 6 + k + k) σ).
  { apply (conv_world_unused s Hun). }
  assert (Hli : layout_initial b cw box (n + 2) bl [n + 3; n + 4] σ3).
  { split.
    - unfold pwm_blist_get_convs, g_object_get_data, σ3. look2.
      cbn [default deref_convwin]. fields. exact Hcw.
    - unfold pwm_fetch, g_object_get_data, σ3. keys. look2.
      change (object_data σ) with (object_data s). fold nb. by rewrite S6.
    - unfold σ3. destruct Hσun
        as (H1 & H2 & H3 & H4 & H5 & H6 & H7 & H8 & H9 & H10 & H11 & H12).
      unfold unused_from. fields.
      change (next_id σ) with (n + 6 + k + k).
      split_and!; try assumption.
      repeat (apply set_data_map_below; [cbn; lia|]). exact H10.
    - unfold σ3, σ. look2. exact Hnb.
    - unfold σ3, σ. look2. exact Hbox.
    - unfold σ3, σ. cbn [conv_notebook cw]. look2. reflexivity.
    - unfold σ3, σ. look2. reflexivity.
    - cbn [conv_notebook cw]. rewrite !NoDup_cons, !not_elem_of_cons.
      split_and!; try lia; try apply not_elem_of_nil. apply NoDup_nil_2. }
  rewrite (pwm_create_paned_layout_initial _ _ _ _ _ _ _ _ Hli).
  cbn [mbind option_bind].
  set (side := purple_prefs_get_string PREF_SIDE σ3).
  unfold gtk_container_get_children.
  set (L := laid_out_initial _ _ _ _ _ _ _ _).
  assert (Hmb : containers L !! (n + 3) = Some (Children items)) by side2.
  rewrite Hmb. cbn [from_option container_children].
  erewrite (gtk_widget_reparent_eq tray menu (n + 3)); [ | side2 ..].
  erewrite (gtk_container_remove_eq menu tray); [ | side2 ..].
  cbn [container_remove_child].
  assert (Hf : filter (λ x, x ≠ tray) (pre ++ [tray]) = pre).
  { rewrite filter_app, filter_ne_notin by exact Hpre.
    rewrite filter_cons_False by (intros H; by apply H).
    by rewrite filter_nil, app_nil_r. }
  rewrite Hf.
  erewrite (gtk_container_add_children (n + 3) tray); [ | side2 ..].
  erewrite (merge_loop b menu (n + 3) items pre [tray]).
  2:{ side2. }
  2:{ side2. }
  2:{ lia. }
  2:{ intros i Hi. apply Hitems in Hi. side2. }
  2:{ apply NoDup_seq. }
  2:{ intros i Hi. apply Hitems in Hi. rewrite list_elem_of_singleton. lia. }
  erewrite (gtk_widget_reparent_eq tray (n + 3) menu); [ | side2 ..].
  erewrite (gtk_container_remove_eq (n + 3) tray); [ | side2 ..].
  cbn [container_remove_child].
  rewrite filter_cons_False by (intros H; by apply H). rewrite filter_nil.
  erewrite (gtk_container_add_children menu tray); [ | side2 ..].
  rewrite !g_object_set_data_eq.
  set (M1 := upd_object_data (set_data_map (nb, "pwm_conv_menus") _) _).
  unfold pwm_init_dummy_conversation.
  assert (Hnotab : pwm_fetch b "fake_tab" M1 = NULL).
  { unfold pwm_fetch, g_object_get_data. keys. fold nb.
    replace (object_data M1 !! (nb, "pwm_fake_tab")) with (@None gpointer);
      [reflexivity|]. symmetry. side2. }
  rewrite decide_False by (intros H; by apply H).
  unfold gtk_label_new, alloc. cbv beta iota zeta.
  unfold pwm_store. rewrite g_object_set_data_eq. keys. fold nb.
  assert (Hnext : next_id M1 = S (S (n + 6 + k + k))) by reflexivity.
  rewrite Hnext.
  set (pn := n + 6 + k + k) in *.
  set (M2 := upd_object_data (set_data_map (nb, "pwm_fake_tab") _) _).
  unfold pwm_show_dummy_conversation.
  assert (Hconvs2 : pwm_blist_get_convs b M2 = PConvWin n).
  { unfold pwm_blist_get_convs, g_object_get_data. fold nb.
    replace (object_data M2 !! (nb, "pwm_convs")) with (Some (PConvWin n));
      [reflexivity|]. symmetry. side2. }
  rewrite Hconvs2. cbn [deref_convwin].
  replace (convwins M2 !! n) with (Some cw) by (symmetry; side2).
  assert (Htab2 : pwm_fetch b "fake_tab" M2 = PWidget (S (S pn))).
  { unfold pwm_fetch, g_object_get_data. keys. fold nb.
    replace (object_data M2 !! (nb, "pwm_fake_tab"))
      with (Some (PWidget (S (S pn)))); [reflexivity|]. symmetry. side2. }
  rewrite Htab2. cbn [as_widget conv_notebook cw].
  erewrite (gtk_container_add_children (n + 4) (S (S pn))); [ | side2 ..].
  set (M3 := upd_parent _ _).
  unfold pwm_set_conv_menus_visible.
  assert (Hmenus3 : pwm_fetch b "conv_menus" M3 = of_glist items).
  { unfold pwm_fetch, g_object_get_data. keys. fold nb.
    replace (object_data M3 !! (nb, "pwm_conv_menus"))
      with (match of_glist items with NULL => None | v => Some v end).
    - by destruct items.
    - symmetry. unf. look2. by destruct (of_glist items). }
  rewrite Hmenus3.
  replace (as_glist (of_glist items)) with items by by destruct items.
  rewrite foldl_hide.
  unfold g_object_connect.
  replace (signal_of_spec "signal::focus-in-event")
    with (Some "focus-in-event") by reflexivity.
  cbn [of_widget set_conv_window].
  unfold gtk_binding_entry_skip.
  erewrite (alter_upd_convwins n); [ | side2 ].
  refine (f_equal Some _). unfold merged_world. cbv zeta.
  fold n k items pn nb tray bwin.
  change (conv_world s) with σ.
  unfold M3, M2, M1, L, σ3, laid_out_initial. cbv zeta.
  apply World_eq;
    cbn [next_id parent containers gtype visible title icon_list accel_groups
       submenu menu_accel object_data handlers convwins prefs_int
       prefs_string imhtml_bindings events host_conv_menus
       upd_next_id upd_parent upd_containers upd_gtype upd_visible upd_title
       upd_icon_list upd_accel_groups upd_submenu upd_menu_accel
       upd_object_data upd_handlers upd_convwins upd_prefs_int
       upd_imhtml_bindings upd_events].
  all: change (next_id σ) with pn; change (conv_notebook cw) with (n + 4);
    change (blist_notebook b) with nb;
    change (purple_prefs_get_string PREF_SIDE σ3)
      with (purple_prefs_get_string PREF_SIDE s).
  all: try (timeout 5 reflexivity).
  - map_solver3 σ.
  - unfold list_subst at 2. cbn [fmap list_fmap app].
    rewrite decide_False by lia. rewrite decide_True by reflexivity.
    rewrite <- (app_assoc pre items).
    map_solver3 σ.
  - apply (f_equal (λ l, accel_groups σ ∪ accel_pairs bwin l)).
    unfold conv_item_accels. fold n k items.
    apply list_fmap_ext. intros j i Hi%list_elem_of_lookup_2.
    cbv beta.
    pose proof (proj1 (Hitems i) Hi) as Hi'.
    apply conv_item_accel; [exact Hun | exact Hi | fold σ n k pn ..].
    + look2. reflexivity.
    + look2. reflexivity.
    + exact eq_refl.
    + exact eq_refl.
Qed.

Lemma alter_upd_containers k c f s :
  containers s !! k = Some c →
  upd_containers (alter f k) s = upd_containers (insert k (f c)) s.
Proof.
  intros H. apply World_eq; fields; try reflexivity. by apply alter_Some.
Qed.

Lemma pwm_widget_replace_swap o r p q s :
  parent s !! o = Some p → parent s !! r = Some q →
  pwm_widget_replace (Some o) (Some r) None s
  = gtk_widget_destroy o
      (upd_parent (λ m, <[r := p]> (delete o m))
         (upd_containers (alter (container_substitute o r) p)
            (gtk_container_remove q r s))).
Proof.
  intros Ho Hr. unfold pwm_widget_replace, gtk_widget_get_parent.
  by rewrite Ho, Hr.
Qed.

Lemma gtk_widget_destroy_child w p cont s :
  parent s !! w = Some p → containers s !! p = Some cont → w ≠ p →
  gtk_container_get_children w s = [] →
  gtk_widget_destroy w s
  = dispose w
      (upd_parent (delete w)
         (upd_containers (insert p (container_remove_child w cont)) s)).
Proof.
  intros Hp Hc Hne Hch. unfold gtk_widget_destroy. cbn [destroy_rec].
  rewrite Hp. rewrite (gtk_container_remove_eq _ _ _ _ Hp Hc).
  replace (gtk_container_get_children w _) with (@nil nat); [reflexivity|].
  symmetry. unfold gtk_container_get_children in *. fields.
  by rewrite lookup_insert_ne.
Qed.

Ltac unf ::=
  repeat match goal with
  | x := _ : World |- _ => progress unfold x
  end;
  try unfold laid_out_initial; try unfold merged_world;
  try unfold conv_world, pidgin_conv_window_new; cbv zeta; cbn [snd].

Lemma list_subst_back x y l : y ∉ l → list_subst y x (list_subst x y l) = l.
Proof.
  intros Hy. unfold list_subst. rewrite <- list_fmap_compose.
  rewrite <- (list_fmap_id l) at 2. apply list_fmap_ext.
  intros i z Hz%list_elem_of_lookup_2. cbn.
  destruct (decide (z = x)) as [->|Hzx].
  - by rewrite decide_True.
  - rewrite decide_False; [reflexivity|]. intros ->. contradiction.
Qed.

Lemma filter_notin_app (pre items : list nat) (tray : nat) :
  (∀ x, x ∈ pre → x ∉ items) → tray ∉ items →
  filter (λ x, x ∉ items) (pre ++ items ++ [tray]) = pre ++ [tray].
Proof.
  intros Hpre Htray. rewrite !filter_app.
  rewrite (filter_all _ pre) by exact Hpre.
  rewrite (filter_none _ items) by (intros x Hx Hn; contradiction).
  by rewrite filter_cons_True, filter_nil.
Qed.

Lemma lookup_dispose_data_ne (w : nat) (m : gmap (nat * string) gpointer)
    (key : nat * string) :
  key.1 ≠ w →
  filter (λ kv : nat * string * gpointer, kv.1.1 ≠ w) m !! key = m !! key.
Proof.
  intros Hne. destruct (m !! key) as [v|] eqn:E.
  - by apply map_lookup_filter_Some_2.
  - apply map_lookup_filter_None. left. exact E.
Qed.

Lemma lookup_dispose_data_eq (w : nat) (m : gmap (nat * string) gpointer)
    (key : nat * string) :
  key.1 = w →
  filter (λ kv : nat * string * gpointer, kv.1.1 ≠ w) m !! key = None.
Proof.
  intros He. apply map_lookup_filter_None. right. intros v _ Hn.
  by apply Hn.
Qed.

Ltac look2 ::=
  fields;
  repeat first
    [ rewrite lookup_insert_eq
    | rewrite lookup_delete_eq
    | rewrite lookup_set_data_map_eq
    | rewrite lookup_insert_ne by neq
    | rewrite lookup_delete_ne by neq
    | rewrite lookup_set_data_map_ne by neq
    | rewrite lookup_insert_all_out by mem
    | rewrite lookup_insert_all_in by mem
    | rewrite lookup_dispose_data_ne by (cbn [fst]; neq)
    | rewrite lookup_dispose_data_eq by (cbn [fst]; neq) ].

Lemma gtk_window_set_title_eq w t s :
  gtk_window_set_title w t s
  = upd_title (λ m, match t with Some t => <[w := t]> m | None => delete w m end) s.
Proof. by destruct t. Qed.

Ltac flagged_facts k :=
  repeat match goal with
  | H : _ ∈ _ <$> _ |- _ =>
      apply list_elem_of_fmap in H as (? & ? & H)
  | H : _ ∈ flagged _ _ |- _ => apply elem_of_flagged in H; fold k in H
  end.

Ltac unused_tac ::=
  match goal with
  | H : unused_from _ ?s |- parent ?s !! _ = None =>
      apply (unused_parent H); lia
  | H : unused_from _ ?s |- containers ?s !! _ = None =>
      apply (unused_containers H); lia
  | H : unused_from _ ?s |- gtype ?s !! _ = None =>
      apply (unused_gtype H); lia
  | H : unused_from _ ?s |- title ?s !! _ = None =>
      apply (unused_title H); lia
  | H : unused_from _ ?s |- icon_list ?s !! _ = None =>
      apply (unused_icon_list H); lia
  | H : unused_from _ ?s |- submenu ?s !! _ = None =>
      apply (unused_submenu H); lia
  | H : unused_from _ ?s |- menu_accel ?s !! _ = None =>
      apply (unused_menu_accel H); lia
  | H : unused_from _ ?s |- convwins ?s !! _ = None =>
      apply (unused_convwins H); lia
  | H : unused_from _ ?s |- object_data ?s !! _ = None =>
      apply (unused_object_data H); lia
  end.

Ltac neq ::=
  first [ lia | congruence
        | intros [=]; first [lia | congruence | discriminate]
        | intros <-; cbn [fst] in *; first [lia | congruence] ].

Ltac map_cases2 i ::=
  repeat match goal with
  | |- context [ <[?k := _]> _ !! i ] =>
      destruct (decide (k = i)) as [<-|?]; look2
  | |- context [ delete ?k _ !! i ] =>
      destruct (decide (k = i)) as [<-|?]; look2
  | |- context [ set_data_map ?k _ _ !! i ] =>
      destruct (decide (k = i)) as [<-|?]; look2
  | |- context [ insert_all ?ks _ _ !! i ] =>
      destruct (decide (i ∈ ks)); look2; mem_facts
  end.

Ltac fin4 k :=
  first [ reflexivity | done | lia | congruence
        | symmetry; unused_tac | unused_tac
        | symmetry; eassumption
        | exfalso; flagged_facts k; lia ].

Ltac map_solver4 k :=
  let i := fresh "i" in
  apply map_eq; intros i; look2; map_cases2 i;
  try fin4 k;
  try (repeat (rewrite lookup_insert_all_out
                 by (first [mem | intros ?; flagged_facts k; lia]);
               look2);
       fin4 k).

Lemma elem_of_accel_pairs_conv s w p :
  p ∈ accel_pairs w (conv_item_accels s) → p = (w, next_id s + 5).
Proof.
  unfold conv_item_accels.
  induction (seq (next_id s + 6) (length (host_conv_menus s))) as [|i l IH];
    cbn [fmap list_fmap accel_pairs].
  - by intros ?%elem_of_empty.
  - rewrite elem_of_union. intros [H|H]; [|by apply IH].
    destruct (decide _); cbn in H.
    + by apply elem_of_singleton in H.
    + by apply elem_of_empty in H.
Qed.

(** ** Splitting what was merged *)

Lemma split_run b box menu bl pre s :
  pristine b box menu bl pre s →
  pwm_split_conversation b (merged_world b box menu bl pre s)
  = Some (split_world b s).
Proof.
  intros (Hun & Hwin & Hslots & Hnb & Hbox & Htray & Hmenu & Hpre & Hd).
  apply NoDup_4 in Hd as (D1 & D2 & D3 & D4 & D5 & D6).
  pose proof (used_lt _ _ _ (unused_parent Hun) Hnb) as L1.
  pose proof (used_lt _ _ _ (unused_containers Hun) Hbox) as L2.
  pose proof (used_lt _ _ _ (unused_parent Hun) Htray) as L3.
  pose proof (used_lt _ _ _ (unused_containers Hun) Hmenu) as L4.
  unfold merge_slots in Hslots. rewrite !Forall_cons in Hslots.
  destruct Hslots as (S1 & S2 & S3 & S4 & S5 & S6 & S7 & _).
  set (M := merged_world b box menu bl pre s).
  set (n := next_id s) in *.
  set (k := length (host_conv_menus s)).
  set (items := seq (n + 6) k).
  assert (Hitems : ∀ i, i ∈ items ↔ n + 6 ≤ i < n + 6 + k)
    by (intros i; apply elem_of_seq).
  set (nb := blist_notebook b) in *. set (tray := blist_menutray b) in *.
  set (bwin := blist_window b) in *.
  set (pn := n + 6 + k + k).
  set (σ := conv_world s).
  assert (Hσ : σ = conv_world s) by reflexivity.
  unfold pwm_split_conversation.
  assert (Hconvs : pwm_blist_get_convs b M = PConvWin n).
  { unfold pwm_blist_get_convs, g_object_get_data.
    fold nb.
    replace (object_data M !! (nb, "pwm_convs"))
      with (Some (PConvWin n)); [reflexivity|].
    symmetry. unfold M, merged_world. cbv zeta. fold n nb k.
    look2.
    reflexivity. }
  rewrite Hconvs.
  assert (Hmenus : as_glist (pwm_fetch b "conv_menus" M) = items).
  { unfold pwm_fetch, g_object_get_data. keys. fold nb.
    replace (object_data M !! (nb, "pwm_conv_menus"))
      with (match of_glist items with NULL => None | v => Some v end).
    - by destruct items.
    - symmetry. unf. fold n nb k items pn. look2.
      by destruct (of_glist items). }
  assert (Hpaned : as_widget (pwm_fetch b "paned" M) = Some pn).
  { unfold pwm_fetch, g_object_get_data. keys. fold nb.
    replace (object_data M !! (nb, "pwm_paned")) with (Some (PWidget pn));
      [reflexivity|].
    symmetry. unf. fold n nb k items pn. look2.
    destruct (of_glist items); reflexivity. }
  assert (Htitle : as_string (pwm_fetch b "title" M) = title s !! bwin).
  { unfold pwm_fetch, g_object_get_data. keys. fold nb.
    replace (object_data M !! (nb, "pwm_title"))
      with (match of_string (title s !! bwin) with
            | NULL => None | v => Some v end).
    - by destruct (title s !! bwin).
    - symmetry. unf. fold n nb k items pn bwin. look2.
      destruct (of_glist items); look2; by destruct (of_string _). }
  rewrite Hmenus, Hpaned, Htitle.
  unfold pwm_clear, g_object_steal_data. keys. fold nb bwin.
  cbn [deref_convwin].
  set (cwM := {| conv_window := Some bwin; conv_notebook := n + 4;
                 conv_menubar := n + 3 |}).
  replace (convwins (upd_object_data (delete (nb, "pwm_convs")) M) !! n)
    with (Some cwM) by (symmetry; unf; fold n nb k items pn bwin; look2; reflexivity).
  cbn [mbind option_bind conv_notebook conv_menubar cwM].
  set (T2 := upd_object_data (delete (n + 4, "pwm_blist")) _).
  assert (Hcwin : as_widget (pwm_fetch b "conv_window" T2) = Some (n + 1)).
  { unfold pwm_fetch, g_object_get_data. keys. fold nb.
    replace (object_data T2 !! (nb, "pwm_conv_window"))
      with (Some (PWidget (n + 1))); [reflexivity|].
    symmetry. unf. fold n nb k items pn bwin. look2. reflexivity. }
  rewrite Hcwin. cbn [set_conv_window of_widget].
  erewrite (alter_upd_convwins n);
    [ | unf; fold n nb k items pn bwin; look2; reflexivity ].
  unfold g_object_disconnect. rewrite decide_True by reflexivity.
  set (T5 := upd_handlers _ _).
  assert (Hσun : unused_from pn σ) by apply (conv_world_unused s Hun).
  assert (Hprei : ∀ x, x ∈ pre → x ∉ items).
  { intros x Hx Hi%Hitems.
    assert (x < n); [|lia].
    eapply (unused_children Hun _ _ x Hmenu). cbn.
    apply elem_of_app. by left. }
  erewrite (split_loop b menu (n + 3) items [] (pre ++ items ++ [tray])).
  2:{ unfold T5, T2, M, merged_world. cbv zeta. fold n nb k items pn bwin tray.
      look2. reflexivity. }
  2:{ unfold T5, T2, M, merged_world. cbv zeta. fold n nb k items pn bwin tray.
      look2. reflexivity. }
  2:{ lia. }
  2:{ intros i Hi. pose proof (proj1 (Hitems i) Hi).
      unfold T5, T2, M, merged_world. cbv zeta.
      fold n nb k items pn bwin tray. look2. reflexivity. }
  2:{ apply NoDup_seq. }
  rewrite filter_notin_app by (first [exact Hprei | rewrite Hitems; lia]).
  cbn [app].
  set (T7 := upd_object_data (delete (nb, "pwm_conv_menus")) _).
  assert (Hph : as_widget (pwm_fetch b "placeholder" T7) = Some (S pn)).
  { unfold pwm_fetch, g_object_get_data. keys. fold nb.
    replace (object_data T7 !! (nb, "pwm_placeholder"))
      with (Some (PWidget (S pn))); [reflexivity|].
    symmetry. unf. fold n nb k items pn bwin tray. look2.
    destruct (of_glist items); reflexivity. }
  match goal with |- context [convwins ?X !! n] => set (T8 := X) end.
  eassert (E8 : T8 = _).
  { unfold T8. rewrite Hph.
    erewrite (pwm_widget_replace_swap (S pn) (n + 4) (n + 2) pn);
      [ | unf; fold n nb k items pn bwin tray; look2; reflexivity ..].
    erewrite (gtk_container_remove_eq pn (n + 4));
      [ | unf; fold n nb k items pn bwin tray; look2; reflexivity ..].
    erewrite (alter_upd_containers (n + 2));
      [ | unf; fold n nb k items pn bwin tray; look2; reflexivity ].
    cbn [container_substitute]. unfold list_subst.
    cbn [fmap list_fmap].
    rewrite (decide_False (P := n + 3 = S pn)) by lia.
    rewrite (decide_True (P := S pn = S pn)) by reflexivity.
    rewrite gtk_widget_destroy_leaf.
    2:{ unf. fold n nb k items pn bwin tray. look2. reflexivity. }
    2:{ unfold gtk_container_get_children.
        replace (containers _ !! S pn) with (@None container); [reflexivity|].
        symmetry. unf. fold n nb k items pn bwin tray. look2. unused_tac. }
    unfold dispose. reflexivity. }
  rewrite E8. clear E8 T8.
  match goal with |- context [convwins ?X !! n] => set (T9 := X) end.
  set (cw0 := {| conv_window := Some (n + 1); conv_notebook := n + 4;
                 conv_menubar := n + 3 |}).
  replace (convwins T9 !! n) with (Some cw0)
    by (symmetry; unf; fold n nb k items pn bwin tray; look2; reflexivity).
  cbn [mbind option_bind pidgin_conv_window_show conv_window cw0].
  unfold gtk_widget_show, pwm_free_dummy_conversation.
  match goal with |- context [upd_visible ?f T9] => set (T10 := upd_visible f T9) end.
  assert (Htab : as_widget (pwm_fetch b "fake_tab" T10) = Some (S (S pn))).
  { unfold pwm_fetch, g_object_get_data. keys. fold nb.
    replace (object_data T10 !! (nb, "pwm_fake_tab"))
      with (Some (PWidget (S (S pn)))); [reflexivity|].
    symmetry. unf. fold n nb k items pn bwin tray. look2.
    destruct (of_glist items); reflexivity. }
  rewrite Htab.
  erewrite (gtk_widget_destroy_child (S (S pn)) (n + 4));
    [ | unf; fold n nb k items pn bwin tray; look2; try reflexivity ..].
  2:{ lia. }
  2:{ unfold gtk_container_get_children.
      replace (containers _ !! S (S pn)) with (@None container); [reflexivity|].
      symmetry. unf. fold n nb k items pn bwin tray. look2. unused_tac. }
  cbn [container_remove_child].
  rewrite filter_cons_False by (intros Hn; by apply Hn).
  rewrite filter_nil.
  unfold dispose, pwm_clear, g_object_steal_data. keys. fold nb.
  match goal with |- context [pwm_widget_replace _ _ _ ?X] => set (T11 := X) end.
  erewrite (pwm_widget_replace_swap pn nb box pn);
    [ | unf; fold n nb k items pn bwin tray; look2; reflexivity ..].
  erewrite (gtk_container_remove_eq pn nb);
    [ | unf; fold n nb k items pn bwin tray; look2; reflexivity ..].
  erewrite (alter_upd_containers box);
    [ | unf; fold n nb k items pn bwin tray; look2; reflexivity ].
  cbn [container_substitute].
  rewrite list_subst_back.
  2:{ intros Hin. pose proof (unused_children Hun _ _ _ Hbox Hin). lia. }
  rewrite gtk_widget_destroy_leaf.
  2:{ unf. fold n nb k items pn bwin tray. look2. reflexivity. }
  2:{ unfold gtk_container_get_children.
      match goal with |- context [containers ?X !! pn] =>
        eassert (E : containers X !! pn = Some _) end.
      { unf. fold n nb k items pn bwin tray. look2. reflexivity. }
      rewrite E. apply paned_emptied. unfold paned_layout. cbn [child1 child2].
      destruct (side_is _ "t" "l"); auto. }
  unfold dispose, gtk_window_set_icon_list.
  rewrite gtk_window_set_title_eq.
  refine (f_equal Some _); apply World_eq.
  all: unfold split_world; unf; fold n nb k items pn bwin tray; fields.
  all: try reflexivity.
  - map_solver4 k.
  - map_solver4 k.
  - map_solver4 k.
  - apply set_eq. intros x.
    pose proof (unused_visible Hun x) as Hv.
    rewrite !elem_of_difference, !elem_of_union, !elem_of_difference,
      !elem_of_union, !elem_of_singleton, !elem_of_list_to_set,
      !elem_of_cons, !Hitems.
    assert (Hlt : x ∈ visible s → x < n).
    { intros Hin. destruct (decide (n ≤ x)); [exfalso; by apply Hv | lia]. }
    clear Hv. unfold pn. clearbody n k. clear -Hlt. intuition lia.
  - destruct (title s !! bwin) as [t|] eqn:Et; map_solver4 k.
  - map_solver4 k.
  - match goal with |- context [item_accel_group ?X <$> items] =>
      assert (HX : item_accel_group X <$> items = conv_item_accels s)
    end.
    { unfold conv_item_accels. fold n k items.
      apply list_fmap_ext. intros j i Hi%list_elem_of_lookup_2.
      cbv beta.
      pose proof (proj1 (Hitems i) Hi) as Hi'.
      apply conv_item_accel; [exact Hun | exact Hi | fold n k pn ..].
      all: unfold conv_world, pidgin_conv_window_new; cbv zeta; cbn [snd].
      all: fold n k items pn.
      all: look2; exact eq_refl. }
    rewrite HX. clear HX.
    apply set_eq. intros [w g].
    rewrite !elem_of_filter, elem_of_difference, !elem_of_union,
      elem_of_singleton. cbn [fst].
    pose proof (unused_accel_groups Hun w g) as HA.
    pose proof (elem_of_accel_pairs_conv s bwin (w, g)) as HB.
    fold n in HB.
    split.
    + intros (_ & _ & _ & [[H|H]|H] & Hn); auto. contradiction.
    + intros [H|H].
      * destruct (HA H) as [Hw Hg].
        split_and!; try lia; [auto|].
        intros [= -> ->]%HB. lia.
      * injection H as -> ->.
        split_and!; try lia; [auto|].
        intros [= E]%HB. lia.
  - map_solver4 k.
  - map_solver4 k.
  - apply map_eq. intros i.
    destruct (decide (i.1 = pn)) as [E1|E1];
      [look2; symmetry; destruct i; apply (unused_object_data Hun);
       cbn [fst] in *; lia|].
    destruct (decide (i.1 = S (S pn))) as [E2|E2];
      [look2; symmetry; destruct i; apply (unused_object_data Hun);
       cbn [fst] in *; lia|].
    destruct (decide (i.1 = S pn)) as [E3|E3];
      [look2; symmetry; destruct i; apply (unused_object_data Hun);
       cbn [fst] in *; lia|].
    look2. map_cases2 i.
    all: try fin4 k.
  - assert (E1 : filter (λ h, ¬ handler_matches bwin cb_focus_in_event
                                 (PWidget (n + 1)) h)
                   ((handlers s ++ [max_position_handler pn b])
                    ++ [focus_handler b (n + 1)])
                 = handlers s ++ [max_position_handler pn b]).
    { rewrite !filter_app.
      rewrite filter_all.
      2:{ intros h Hh (_ & _ & Hd).
          pose proof (unused_handler_data Hun h (n + 1) Hh Hd). lia. }
      rewrite filter_cons_True, filter_nil
        by (intros (Ho & _); cbn in Ho; lia).
      rewrite filter_cons_False, filter_nil
        by (intros Hn; apply Hn; by split_and!).
      by rewrite app_nil_r. }
    rewrite E1. clear E1.
    assert (E2 : ∀ w, pn < w →
      filter (λ h, h_object h ≠ w) (handlers s ++ [max_position_handler pn b])
      = handlers s ++ [max_position_handler pn b]).
    { intros w Hw. apply filter_all. intros h [Hh|Hh]%elem_of_app.
      - pose proof (unused_handlers Hun h Hh). lia.
      - apply list_elem_of_singleton in Hh as ->. cbn. lia. }
    rewrite !E2 by lia. clear E2.
    rewrite filter_app, filter_all.
    2:{ intros h Hh. pose proof (unused_handlers Hun h Hh). lia. }
    rewrite filter_cons_False, filter_nil
      by (intros Hn; by apply Hn).
    by rewrite app_nil_r.
  - map_solver4 k.
Qed.

(** ** The association between the two windows *)

Lemma same_slot_refl o : same_slot o o.
Proof. destruct o as [[l|p]|]; cbn; auto. Qed.

Lemma same_slot_trans o1 o2 o3 :
  same_slot o1 o2 → same_slot o2 o3 → same_slot o1 o3.
Proof.
  destruct o1 as [[l1|p1]|], o2 as [[l2|p2]|], o3 as [[l3|p3]|]; cbn;
    try tauto; try congruence.
  intros [-> ->] [-> ->]. done.
Qed.

Lemma emission_frame_refl s : emission_frame s s.
Proof.
  split; try reflexivity.
  - intros w. apply same_slot_refl.
  - intros h Hh. by exists h.
Qed.

Lemma emission_frame_trans s1 s2 s3 :
  emission_frame s1 s2 → emission_frame s2 s3 → emission_frame s1 s3.
Proof.
  intros [A1 A2 A3 A4 A5 A6 A7 A8 A9 A10 A11 A12 A13]
         [B1 B2 B3 B4 B5 B6 B7 B8 B9 B10 B11 B12 B13].
  split; try congruence.
  - intros w. eapply same_slot_trans; [apply A3 | apply B3].
  - intros h3 (h2 & H2 & E1 & E2)%B13.
    apply A13 in H2 as (h1 & H1 & E3 & E4).
    exists h1. split; [done|]. split; congruence.
Qed.

Lemma emission_frame_prefs f s : emission_frame s (upd_prefs_int f s).
Proof.
  split; fields; try reflexivity.
  - intros w. apply same_slot_refl.
  - intros h Hh. by exists h.
Qed.

Lemma emission_frame_events f s : emission_frame s (upd_events f s).
Proof.
  split; fields; try reflexivity.
  - intros w. apply same_slot_refl.
  - intros h Hh. by exists h.
Qed.

Lemma emission_frame_position w p z set s :
  as_paned w s = Some p →
  emission_frame s
    (upd_containers (insert w (Paned (paned_set_position z set p))) s).
Proof.
  intros Hp. unfold as_paned in Hp.
  split; fields; try reflexivity.
  - intros w'. destruct (decide (w = w')) as [<-|Hne].
    + rewrite lookup_insert_eq.
      destruct (containers s !! w) as [[l|p']|]; try discriminate.
      by injection Hp as ->.
    + rewrite lookup_insert_ne by done. apply same_slot_refl.
  - intros h Hh. by exists h.
Qed.

Lemma emission_frame_disconnect obj spec cb data s :
  emission_frame s (g_object_disconnect obj spec cb data s).
Proof.
  unfold g_object_disconnect. case_decide; [|apply emission_frame_refl].
  split; fields; try reflexivity.
  - intros w. apply same_slot_refl.
  - intros h [_ Hh]%list_elem_of_filter. by exists h.
Qed.

Lemma emission_frame_connect h spec cb s s2 :
  h ∈ handlers s → emission_frame s s2 →
  emission_frame s (g_object_connect (h_object h) spec cb (h_data h) s2).
Proof.
  intros Hh [A1 A2 A3 A4 A5 A6 A7 A8 A9 A10 A11 A12 A13].
  unfold g_object_connect.
  destruct (signal_of_spec spec); [|by split].
  split; fields; try assumption.
  intros h' [Hh'|Hh']%elem_of_app; [by apply A13|].
  apply list_elem_of_singleton in Hh' as ->. by exists h.
Qed.

Section emission.
Variable emit : widget → string → World → option World.
Hypothesis emit_frame :
  ∀ obj sig s s', emit obj sig s = Some s' → emission_frame s s'.

Lemma gtk_paned_set_position_frame paned z s s' :
  gtk_paned_set_position emit paned z s = Some s' → emission_frame s s'.
Proof.
  unfold gtk_paned_set_position.
  destruct (as_paned paned s) as [p|] eqn:Hp.
  - cbv zeta. intros Hrun.
    apply bind_Some in Hrun as (s1 & H1 & H2).
    apply emit_frame in H1, H2.
    eapply emission_frame_trans; [|exact H2].
    eapply emission_frame_trans; [|exact H1].
    destruct (decide (0 ≤ z)%Z); by apply emission_frame_position.
  - intros [= <-]. apply emission_frame_refl.
Qed.

Lemma run_callback_frame h s s' :
  h ∈ handlers s → run_callback emit h s = Some s' → emission_frame s s'.
Proof.
  intros Hh. unfold run_callback. destruct (h_callback h).
  - unfold notify_position_cb. intros Hrun.
    apply bind_Some in Hrun as (b & _ & Hrun).
    apply bind_Some in Hrun as (size & _ & Hrun).
    destruct (GTK_IS_VPANED _ _); injection Hrun as <-;
      apply emission_frame_prefs.
  - unfold notify_max_position_cb. intros Hrun.
    apply bind_Some in Hrun as (b & _ & Hrun).
    apply bind_Some in Hrun as (size & _ & Hrun).
    apply bind_Some in Hrun as (s1 & H1 & Hrun).
    injection Hrun as <-.
    apply gtk_paned_set_position_frame in H1 as F1.
    apply emission_frame_connect; [exact Hh|].
    eapply emission_frame_trans; [exact F1|].
    apply emission_frame_disconnect.
  - unfold focus_in_event_cb, gtk_widget_event_focus_in.
    destruct (as_widget (h_data h)) as [w|]; [|intros [= <-]; apply emission_frame_refl].
    intros Hrun%emit_frame.
    eapply emission_frame_trans; [|exact Hrun].
    apply emission_frame_events.
Qed.

Lemma run_handlers_frame hs : ∀ s s',
  run_handlers emit hs s = Some s' → emission_frame s s'.
Proof.
  induction hs as [|h hs IH]; intros s s'; cbn [run_handlers].
  - intros [= <-]. apply emission_frame_refl.
  - intros Hrun. apply bind_Some in Hrun as (s1 & H1 & H2).
    apply IH in H2.
    eapply emission_frame_trans; [|exact H2].
    destruct (decide (h ∈ handlers s)) as [Hin|_].
    + by eapply run_callback_frame.
    + injection H1 as <-. apply emission_frame_refl.
Qed.
End emission.

Lemma g_signal_emit_frame depth : ∀ obj sig s s',
  g_signal_emit depth obj sig s = Some s' → emission_frame s s'.
Proof.
  induction depth as [|d IH]; intros obj sig s s'.
  - discriminate.
  - unfold g_signal_emit; fold g_signal_emit.
    apply run_handlers_frame. exact IH.
Qed.

Lemma emission_frame_unused n s s' :
  emission_frame s s' → unused_from n s → unused_from n s'.
Proof.
  intros [A1 A2 A3 A4 A5 A6 A7 A8 A9 A10 A11 A12 A13]
    (H1 & H2 & H3 & H4 & H5 & H6 & H7 & H8 & H9 & H10 & H11 & H12).
  unfold unused_from.
  rewrite A2, A4, A5, A6, A7, A8, A9, A10, A11, A12.
  split_and!; try assumption.
  - intros w c' Hw. specialize (A3 w). rewrite Hw in A3.
    destruct (containers s !! w) as [c|] eqn:Hc; [|by destruct c'].
    apply H2 in Hc as [Hlt Hch]. split; [exact Hlt|].
    destruct c as [l|p], c' as [l'|p']; cbn in A3; try contradiction.
    + by subst.
    + destruct A3 as [E1 E2]. cbn in *. by rewrite E1, E2.
  - apply Forall_forall. intros h' (h & Hh & E1 & E2)%A13.
    rewrite Forall_forall in H11. apply H11 in Hh. by rewrite E1, E2.
Qed.

Lemma merged_inv_tied b addr s : merged_inv b addr s → tied b addr s.
Proof.
  intros (cw & old & q & po & cq & [Hconvs _ _ _ _ _ _ _ _ _] & Htag & Hback & _).
  split; [exact Htag|]. exists cw. split; [|exact Hback].
  by rewrite Htag in Hconvs.
Qed.

Lemma merged_inv_emit b addr s s' :
  emission_frame s s' → merged_inv b addr s → merged_inv b addr s'.
Proof.
  intros F (cw & old & q & po & cq & L & Htag & Hback & Hitems).
  pose proof F as [A1 A2 A3 A4 A5 A6 A7 A8 A9 A10 A11 A12 A13].
  destruct L as [Hconvs Hpaned Hun Hold Hch Hnb Hcnb Hq Hcq Hd].
  assert (Hold' : ∃ po', containers s' !! old = Some (Paned po')
                         ∧ child1 po' = child1 po ∧ child2 po' = child2 po).
  { specialize (A3 old). rewrite Hold in A3.
    destruct (containers s' !! old) as [[l|po']|]; cbn in A3; try contradiction.
    by exists po'. }
  destruct Hold' as (po' & Hold' & E1 & E2).
  assert (Hcq' : ∃ cq', containers s' !! q = Some cq').
  { specialize (A3 q). rewrite Hcq in A3.
    destruct (containers s' !! q) as [cq'|]; [by exists cq'|].
    by destruct cq. }
  destruct Hcq' as [cq' Hcq'].
  exists cw, old, q, po', cq'.
  unfold pwm_blist_get_convs, pwm_fetch, g_object_get_data, deref_convwin in *.
  rewrite A11. rewrite A1. split_and!; try assumption.
  split; try assumption.
  - unfold pwm_blist_get_convs, g_object_get_data, deref_convwin.
    by rewrite A11, A12.
  - unfold pwm_fetch, g_object_get_data. by rewrite A11.
  - rewrite A1. by apply (emission_frame_unused _ s).
  - by rewrite E1, E2.
  - by rewrite A2.
  - by rewrite A2.
  - by rewrite A2.
Qed.

Lemma merged_inv_menus b addr visible s :
  merged_inv b addr s →
  merged_inv b addr (pwm_set_conv_menus_visible b visible s).
Proof.
  intros (cw & old & q & po & cq & L & Htag & Hback & Hitems).
  destruct L as [Hconvs Hpaned Hun Hold Hch Hnb Hcnb Hq Hcq Hd].
  exists cw, old, q, po, cq.
  unfold pwm_set_conv_menus_visible.
  set (items := as_glist (pwm_fetch b "conv_menus" s)) in *.
  assert (E : (if visible
               then foldl (λ s item, gtk_widget_show item s) s items
               else foldl (λ s item, gtk_widget_hide item s) s items)
              = upd_visible (λ v, if visible then v ∪ list_to_set items
                                  else v ∖ list_to_set items) s).
  { destruct visible; [apply foldl_show | apply foldl_hide]. }
  rewrite E. clear E.
  split_and!; try assumption.
  split; try assumption.
  fields.
  destruct Hun as (H1 & H2 & H3 & H4 & H5 & H6 & H7 & H8 & H9 & H10 & H11 & H12).
  unfold unused_from. fields. split_and!; try assumption.
  destruct visible.
  - apply set_Forall_union; [exact H4|].
    by apply set_Forall_list_to_set.
  - by apply set_Forall_difference_1.
Qed.

Lemma merged_inv_merge b addr s s' :
  merged_inv b addr s → pwm_merge_conversation b s = Some s' →
  merged_inv b addr s'.
Proof.
  intros Hinv. pose proof (merged_inv_tied _ _ _ Hinv) as [Htag _].
  unfold pwm_merge_conversation.
  rewrite decide_True by (rewrite Htag; discriminate).
  by intros [= <-].
Qed.

Lemma merged_inv_layout b addr side s s' :
  merged_inv b addr s → pwm_create_paned_layout b side s = Some s' →
  merged_inv b addr s'.
Proof.
  intros (cw & old & q & po & cq & L & Htag & Hback & Hitems) Hrun.
  rewrite (pwm_create_paned_layout_again _ _ _ _ _ _ side _ L) in Hrun.
  injection Hrun as <-.
  pose proof (laid_out_again_unused _ _ _ _ _ _ side _ L) as Hun'.
  destruct L as [Hconvs Hpaned Hun Hold Hch Hnb Hcnb Hq Hcq Hd].
  apply NoDup_4 in Hd as (D1 & D2 & D3 & D4 & D5 & D6).
  pose proof (used_lt _ _ _ (unused_parent Hun) Hnb) as L1.
  pose proof (used_lt _ _ _ (unused_parent Hun) Hcnb) as L2.
  pose proof (used_lt _ _ _ (unused_containers Hun) Hold) as L3.
  pose proof (used_lt _ _ _ (unused_containers Hun) Hcq) as L4.
  set (n := next_id s) in *.
  set (nb := blist_notebook b) in *. set (cnb := conv_notebook cw) in *.
  exists cw, n, q,
    (paned_layout (side_is side "t" "b") (side_is side "t" "l") nb cnb),
    (container_substitute old n cq).
  assert (T1 : object_data (laid_out_again b cw old q cq side s)
               !! (nb, "pwm_convs") = object_data s !! (nb, "pwm_convs")).
  { unfold laid_out_again. cbv zeta. fold n nb cnb. look2. reflexivity. }
  assert (T2 : object_data (laid_out_again b cw old q cq side s)
               !! (cnb, "pwm_blist") = object_data s !! (cnb, "pwm_blist")).
  { unfold laid_out_again. cbv zeta. fold n nb cnb. look2. reflexivity. }
  assert (T3 : pwm_fetch b "conv_menus" (laid_out_again b cw old q cq side s)
               = pwm_fetch b "conv_menus" s).
  { unfold pwm_fetch, g_object_get_data. keys. fold nb. f_equal.
    unfold laid_out_again. cbv zeta. fold n nb cnb. look2. reflexivity. }
  assert (T4 : pwm_fetch b "paned" (laid_out_again b cw old q cq side s)
               = PWidget n).
  { unfold pwm_fetch, g_object_get_data. keys. fold nb.
    replace (object_data _ !! (nb, "pwm_paned")) with (Some (PWidget n));
      [reflexivity|].
    symmetry. unfold laid_out_again. cbv zeta. fold n nb cnb. look2.
    reflexivity. }
  assert (T5 : pwm_blist_get_convs b (laid_out_again b cw old q cq side s)
               = pwm_blist_get_convs b s).
  { unfold pwm_blist_get_convs, g_object_get_data. fold nb. by rewrite T1. }
  split_and!.
  - split.
    + rewrite T5. exact Hconvs.
    + exact T4.
    + exact Hun'.
    + unfold laid_out_again. cbv zeta. fold n nb cnb. look2. reflexivity.
    + unfold paned_layout. cbn [child1 child2]. fold cnb.
      destruct (side_is side "t" "l"); auto.
    + unfold laid_out_again. cbv zeta. fold n nb cnb. look2. reflexivity.
    + unfold laid_out_again. cbv zeta. fold n nb cnb. look2. reflexivity.
    + unfold laid_out_again. cbv zeta. fold n nb cnb. look2. reflexivity.
    + unfold laid_out_again. cbv zeta. fold n nb cnb. look2. reflexivity.
    + fold nb cnb. rewrite !NoDup_cons, !not_elem_of_cons.
      split_and!; try assumption; try lia;
        first [apply not_elem_of_nil | apply NoDup_nil_2].
  - by rewrite T5.
  - unfold g_object_get_data in *. fold cnb. by rewrite T2.
  - rewrite T3. eapply Forall_impl; [exact Hitems|]. cbn. lia.
Qed.

Lemma submenu_Build a1 a2 a3 a4 a5 a6 a7 a8 a9 a10 a11 a12 a13 a14 a15 a16
    a17 a18 :
  submenu (Build_World a1 a2 a3 a4 a5 a6 a7 a8 a9 a10 a11 a12 a13 a14 a15
             a16 a17 a18) = a9.
Proof. reflexivity. Qed.

Lemma menu_accel_Build a1 a2 a3 a4 a5 a6 a7 a8 a9 a10 a11 a12 a13 a14 a15 a16
    a17 a18 :
  menu_accel (Build_World a1 a2 a3 a4 a5 a6 a7 a8 a9 a10 a11 a12 a13 a14 a15
                a16 a17 a18) = a10.
Proof. reflexivity. Qed.

Lemma merged_world_unused b box menu bl pre s :
  pristine b box menu bl pre s →
  unused_from (next_id (merged_world b box menu bl pre s))
    (merged_world b box menu bl pre s).
Proof.
  intros (Hun & Hwin & Hslots & Hnb & Hbox & Htray & Hmenu & Hpre & Hd).
  pose proof (used_lt _ _ _ (unused_parent Hun) Hnb) as L1.
  pose proof (used_lt _ _ _ (unused_containers Hun) Hbox) as L2.
  pose proof (used_lt _ _ _ (unused_parent Hun) Htray) as L3.
  pose proof (used_lt _ _ _ (unused_containers Hun) Hmenu) as L4.
  pose proof (conv_world_unused s Hun) as Hσ.
  set (n := next_id s) in *. set (k := length (host_conv_menus s)) in *.
  set (pn := n + 6 + k + k) in *.
  assert (Hbl : Forall (λ x, x < n) bl).
  { apply Forall_forall. intros x Hx. exact (unused_children Hun _ _ _ Hbox Hx). }
  assert (Hprel : Forall (λ x, x < n) (pre ++ [blist_menutray b])).
  { apply Forall_forall. intros x Hx. exact (unused_children Hun _ _ _ Hmenu Hx). }
  apply Forall_app in Hprel as [Hprel _].
  apply (unused_from_weaken _ (S (S (S pn)))) in Hun; [|lia].
  apply (unused_from_weaken _ (S (S (S pn)))) in Hσ; [|lia].
  destruct Hun
    as (H1 & H2 & H3 & H4 & H5 & H6 & H7 & H8 & H9 & H10 & H11 & H12).
  destruct Hσ
    as (G1 & G2 & G3 & G4 & G5 & G6 & G7 & G8 & G9 & G10 & G11 & G12).
  assert (Hitems : ∀ i, i ∈ seq (n + 6) k → i < S (S (S pn)))
    by (intros i Hi%elem_of_seq; lia).
  unfold unused_from, merged_world. cbv zeta. fold n k pn. split_and!.
  8: rewrite submenu_Build; exact G8.
  8: rewrite menu_accel_Build; exact G9.
  all: fields; try assumption.
  - repeat (apply below_insert; [lia|]).
    apply below_insert_all; [exact Hitems|]. exact G1.
  - apply cbelow_insert; [lia| |].
    { cbn. repeat (apply Forall_cons; split; [lia|]). apply Forall_nil_2. }
    apply cbelow_insert; [lia| |].
    { cbn. rewrite !Forall_app. split_and!.
      - eapply Forall_impl; [exact Hprel|]. cbn. lia.
      - apply Forall_forall. exact Hitems.
      - apply Forall_cons. split; [lia|apply Forall_nil_2]. }
    apply cbelow_insert; [lia| |].
    { apply Forall_nil_2. }
    apply cbelow_insert; [lia| |].
    { cbn. destruct (side_is _ "t" "l");
        repeat (apply Forall_cons; split; [lia|]); apply Forall_nil_2. }
    apply cbelow_insert; [lia| |].
    { cbn. apply Forall_list_subst; [lia|].
      eapply Forall_impl; [exact Hbl|]. cbn. lia. }
    apply cbelow_insert; [lia| |exact G2].
    cbn. repeat (apply Forall_cons; split; [lia|]). apply Forall_nil_2.
  - repeat (apply below_insert; [lia|]). exact G3.
  - apply set_Forall_difference_1.
    apply set_Forall_union; [exact G4|]. apply set_Forall_singleton. lia.
  - apply set_Forall_union; [exact G7|].
    intros p Hp%elem_of_accel_pairs_conv. subst p. fold n. cbn. lia.
  - apply map_Forall_insert_2; [cbn; lia|].
    apply map_Forall_insert_2; [cbn; lia|].
    apply set_data_map_below; [cbn; lia|].
    apply map_Forall_insert_2; [cbn; lia|].
    apply map_Forall_insert_2; [cbn; lia|].
    apply set_data_map_below; [cbn; lia|].
    apply map_Forall_insert_2; [cbn; lia|].
    apply map_Forall_insert_2; [cbn; lia|]. exact H10.
  - rewrite !Forall_app. split_and!; [exact H11| |].
    + apply Forall_cons. split; [cbn; split; [lia|exact I]|apply Forall_nil_2].
    + apply Forall_cons. split; [cbn; lia|apply Forall_nil_2].
  - apply below_insert; [lia|exact G12].
Qed.

Lemma merged_world_inv b box menu bl pre s :
  pristine b box menu bl pre s →
  merged_inv b (next_id s) (merged_world b box menu bl pre s).
Proof.
  intros Hp. pose proof (merged_world_unused _ _ _ _ _ _ Hp) as HunM.
  destruct Hp as (Hun & Hwin & Hslots & Hnb & Hbox & Htray & Hmenu & Hpre & Hd).
  apply NoDup_4 in Hd as (D1 & D2 & D3 & D4 & D5 & D6).
  pose proof (used_lt _ _ _ (unused_parent Hun) Hnb) as L1.
  pose proof (used_lt _ _ _ (unused_containers Hun) Hbox) as L2.
  pose proof (used_lt _ _ _ (unused_parent Hun) Htray) as L3.
  pose proof (used_lt _ _ _ (unused_containers Hun) Hmenu) as L4.
  set (M := merged_world b box menu bl pre s) in *.
  set (n := next_id s) in *. set (k := length (host_conv_menus s)).
  set (items := seq (n + 6) k).
  assert (Hitems : ∀ i, i ∈ items ↔ n + 6 ≤ i < n + 6 + k)
    by (intros i; apply elem_of_seq).
  set (nb := blist_notebook b) in *. set (bwin := blist_window b) in *.
  set (pn := n + 6 + k + k).
  set (side := purple_prefs_get_string PREF_SIDE s).
  set (cw := {| conv_window := Some bwin; conv_notebook := n + 4;
                conv_menubar := n + 3 |}).
  assert (T1 : pwm_blist_get_convs b M = PConvWin n).
  { unfold pwm_blist_get_convs, g_object_get_data. fold nb.
    replace (object_data M !! (nb, "pwm_convs"))
      with (Some (PConvWin n)); [reflexivity|].
    symmetry. unf. fold n nb k items pn. look2.
    destruct (of_glist items); reflexivity. }
  assert (T2 : convwins M !! n = Some cw).
  { unf. fold n nb k items pn. look2. reflexivity. }
  assert (T3 : pwm_fetch b "paned" M = PWidget pn).
  { unfold pwm_fetch, g_object_get_data. keys. fold nb.
    replace (object_data M !! (nb, "pwm_paned")) with (Some (PWidget pn));
      [reflexivity|].
    symmetry. unf. fold n nb k items pn. look2.
    destruct (of_glist items); reflexivity. }
  assert (T4 : as_glist (pwm_fetch b "conv_menus" M) = items).
  { unfold pwm_fetch, g_object_get_data. keys. fold nb.
    replace (object_data M !! (nb, "pwm_conv_menus"))
      with (match of_glist items with NULL => None | v => Some v end).
    - by destruct items.
    - symmetry. unf. fold n nb k items pn. look2.
      by destruct (of_glist items). }
  exists cw, pn, box,
    (paned_layout (side_is side "t" "b") (side_is side "t" "l") nb (n + 4)),
    (Children (list_subst nb pn bl)).
  split_and!.
  - split.
    + rewrite T1. exact T2.
    + exact T3.
    + exact HunM.
    + unf. fold n nb k items pn. look2. reflexivity.
    + unfold paned_layout. cbn [child1 child2 conv_notebook cw].
      destruct (side_is side "t" "l"); auto.
    + unf. fold n nb k items pn. look2. reflexivity.
    + cbn [conv_notebook cw]. unf. fold n nb k items pn. look2. reflexivity.
    + unf. fold n nb k items pn. look2. reflexivity.
    + unf. fold n nb k items pn. look2. reflexivity.
    + cbn [conv_notebook cw]. fold nb.
      rewrite !NoDup_cons, !not_elem_of_cons.
      split_and!; try assumption; try lia;
        first [apply not_elem_of_nil | apply NoDup_nil_2].
  - exact T1.
  - cbn [conv_notebook cw]. unfold g_object_get_data.
    replace (object_data M !! (n + 4, "pwm_blist")) with (Some (PBlist b));
      [reflexivity|].
    symmetry. unf. fold n nb k items pn. look2.
    destruct (of_glist items), (of_string (title s !! bwin)); reflexivity.
  - rewrite T4. apply Forall_forall. intros i Hi%Hitems.
    unf. fold n k pn. cbn [next_id]. lia.
Qed.

Lemma merged_steps_inv b addr s s' :
  rtc (merged_step b) s s' → merged_inv b addr s → merged_inv b addr s'.
Proof.
  induction 1 as [s|s1 s2 s3 Hstep _ IH]; [done|].
  intros Hinv. apply IH. clear IH.
  destruct Hstep as [side s1 s2 Hrun|visible s1|s1 s2 Hrun|d obj sig s1 s2 Hrun].
  - by eapply merged_inv_layout.
  - by apply merged_inv_menus.
  - by eapply merged_inv_merge.
  - eapply merged_inv_emit; [|exact Hinv].
    by eapply g_signal_emit_frame.
Qed.

(** C8.  A merge of a buddy list as the host built it creates a conversation
    window (its structure at the address the allocator hands out next, where
    none was before) and ties the two together: the "pwm_convs" tag of the
    buddy list's notebook points at the new conversation window and the
    "pwm_blist" tag of that window's notebook points back at the buddy list.
    The two tags stay as they are through everything merge.c does short of a
    split: laying the panes out again for any side, showing or hiding the
    conversation menu items, a repeated merge, and any signal emission with
    the callbacks it runs. *)
Theorem merge_association (gtkblist : PidginBuddyList) (box menu : widget)
    (bl pre : list widget) (s : World) :
  pristine gtkblist box menu bl pre s →
  ∃ s1,
    pwm_merge_conversation gtkblist s = Some s1
    ∧ (pidgin_conv_window_new s).1 = next_id s
    ∧ convwins s !! next_id s = None
    ∧ tied gtkblist (next_id s) s1
    ∧ ∀ s', rtc (merged_step gtkblist) s1 s' → tied gtkblist (next_id s) s'.
Proof.
  intros Hp. exists (merged_world gtkblist box menu bl pre s).
  pose proof (merged_world_inv _ _ _ _ _ _ Hp) as Hinv.
  split; [by apply merge_run|]. split; [reflexivity|].
  split; [destruct Hp as [Hun _]; by apply (unused_convwins Hun)|].
  split; [by apply merged_inv_tied|].
  intros s' Hsteps. apply merged_inv_tied.
  by eapply merged_steps_inv.
Qed.

(** ** Merging and splitting again *)

(** C1, as stated, asks too much: on the sample buddy list, which is not
    merged and has Control+Up bound to "move-cursor" in the GtkIMHtml
    binding set, a merge followed by a split leaves that binding skipped. *)
Lemma merge_split_keeps_bindings_skipped :
  pwm_blist_get_convs sample_blist sample_world = NULL
  ∧ imhtml_bindings sample_world !! (GDK_Up, GDK_CONTROL_MASK)
    = Some (Bound ["move-cursor"])
  ∧ (s1 ← pwm_merge_conversation sample_blist sample_world;
     s2 ← pwm_split_conversation sample_blist s1;
     imhtml_bindings s2 !! (GDK_Up, GDK_CONTROL_MASK)) = Some Skipped.
Proof. split_and!; vm_compute; reflexivity. Qed.

(** C1, amended.  On a buddy list as the host built it, a merge followed by
    a split runs to its end and gives back the window title, the place of
    every widget that existed before (the notebook in its box, the menu bar
    with its items), the signal connections and the data attached to
    objects; the new conversation window stays, its structure pointing at
    its own window and its menu items on its own menu bar.  The GtkIMHtml
    binding set is not given back: the six Control+cursor bindings stay
    skipped.  The world reached is [split_world]: besides the bindings, the
    conversation window is shown with its menu items hidden, and the icon
    list of the buddy list window is reset. *)
Theorem merge_split_restores (gtkblist : PidginBuddyList)
    (box menu : widget) (bl pre : list widget) (s : World) :
  pristine gtkblist box menu bl pre s →
  let n := next_id s in
  let items := seq (n + 6) (length (host_conv_menus s)) in
  ∃ s1 s2,
    pwm_merge_conversation gtkblist s = Some s1
    ∧ pwm_split_conversation gtkblist s1 = Some s2
    ∧ s2 = split_world gtkblist s
    ∧ title s2 = title s
    ∧ (∀ w, w < n →
         parent s2 !! w = parent s !! w
         ∧ containers s2 !! w = containers s !! w)
    ∧ handlers s2 = handlers s
    ∧ object_data s2 = object_data s
    ∧ convwins s2 !! n
      = Some {| conv_window := Some (n + 1); conv_notebook := n + 4;
                conv_menubar := n + 3 |}
    ∧ containers s2 !! (n + 3) = Some (Children items)
    ∧ (∀ item, item ∈ items → parent s2 !! item = Some (n + 3))
    ∧ imhtml_bindings s2 = skip_move_cursor (imhtml_bindings s).
Proof.
  intros Hp n items.
  exists (merged_world gtkblist box menu bl pre s), (split_world gtkblist s).
  split; [by apply merge_run|]. split; [by apply split_run|].
  destruct Hp as (Hun & _).
  assert (Hitems : ∀ i, i ∈ items
                        ↔ n + 6 ≤ i < n + 6 + length (host_conv_menus s))
    by (intros i; apply elem_of_seq).
  unfold split_world, conv_world, pidgin_conv_window_new. cbv zeta. cbn [snd].
  fold n items.
  split_and!; try reflexivity.
  - intros w Hw. split; look2; reflexivity.
  - look2. reflexivity.
  - look2. reflexivity.
  - intros item Hitem. look2. reflexivity.
Qed.

Lemma merge_split_restores_sample :
  pristine sample_blist 2 3 [3; 4] [5; 6] sample_world
  ∧ ∃ s1 s2,
      pwm_merge_conversation sample_blist sample_world = Some s1
      ∧ pwm_split_conversation sample_blist s1 = Some s2
      ∧ s2 = split_world sample_blist sample_world
      ∧ title s2 = title sample_world
      ∧ (∀ w, w < 10 →
           parent s2 !! w = parent sample_world !! w
           ∧ containers s2 !! w = containers sample_world !! w)
      ∧ handlers s2 = handlers sample_world
      ∧ object_data s2 = object_data sample_world
      ∧ convwins s2 !! 10
        = Some {| conv_window := Some 11; conv_notebook := 14;
                  conv_menubar := 13 |}
      ∧ containers s2 !! 13 = Some (Children [16; 17; 18])
      ∧ (∀ item, item ∈ [16; 17; 18] → parent s2 !! item = Some 13)
      ∧ imhtml_bindings s2 = skip_move_cursor (imhtml_bindings sample_world).
Proof.
  assert (Hp : pristine sample_blist 2 3 [3; 4] [5; 6] sample_world).
  { refine (bool_decide_unpack _ _). vm_compute. exact I. }
  split; [exact Hp|].
  exact (merge_split_restores sample_blist 2 3 [3; 4] [5; 6] sample_world Hp).
Defined.

(** ** Sample runs *)

Lemma sample_layout_merged :
  layout_merged sample_blist sample_convwin 22 2
    (paned_layout false true 4 14) (Children [3; 22]) sample_merged.
Proof.
  split.
  - vm_compute. reflexivity.
  - vm_compute. reflexivity.
  - refine (bool_decide_unpack _ _). vm_compute. exact I.
  - vm_compute. reflexivity.
  - right. split; reflexivity.
  - vm_compute. reflexivity.
  - vm_compute. reflexivity.
  - vm_compute. reflexivity.
  - vm_compute. reflexivity.
  - refine (bool_decide_unpack _ _). vm_compute. exact I.
Defined.

Lemma sample_layout_ready :
  layout_ready sample_blist sample_convwin sample_merged.
Proof.
  right. exists 22, 2, (paned_layout false true 4 14), (Children [3; 22]).
  exact sample_layout_merged.
Defined.

Lemma pwm_merge_conversation_guard_sample :
  pwm_blist_get_convs sample_blist sample_merged ≠ NULL
  ∧ pwm_merge_conversation sample_blist sample_merged = Some sample_merged.
Proof.
  assert (H : pwm_blist_get_convs sample_blist sample_merged ≠ NULL)
    by (vm_compute; discriminate).
  split; [exact H|].
  exact (pwm_merge_conversation_guard sample_blist sample_merged H).
Defined.

Lemma pwm_create_paned_layout_orientation_sample :
  ∃ s' paned,
    pwm_create_paned_layout sample_blist (Some "top") sample_merged = Some s'
    ∧ pwm_fetch sample_blist "paned" s' = PWidget paned
    ∧ (GTK_IS_VPANED paned s' = true ↔ side_starts_with (Some "top") "t" "b")
    ∧ (GTK_IS_HPANED paned s' = true
       ↔ ¬ side_starts_with (Some "top") "t" "b").
Proof.
  exact (pwm_create_paned_layout_orientation sample_blist sample_convwin
           (Some "top") sample_merged sample_layout_ready).
Defined.

Lemma pwm_create_paned_layout_order_sample :
  ∃ s' paned,
    pwm_create_paned_layout sample_blist (Some "bottom") sample_merged
    = Some s'
    ∧ pwm_fetch sample_blist "paned" s' = PWidget paned
    ∧ (gtk_paned_get_child1 paned s' = Some (conv_notebook sample_convwin)
       ↔ side_starts_with (Some "bottom") "t" "l")
    ∧ (side_starts_with (Some "bottom") "t" "l" →
       gtk_paned_get_child2 paned s' = Some (blist_notebook sample_blist))
    ∧ (¬ side_starts_with (Some "bottom") "t" "l" →
       gtk_paned_get_child1 paned s' = Some (blist_notebook sample_blist)
       ∧ gtk_paned_get_child2 paned s'
         = Some (conv_notebook sample_convwin)).
Proof.
  exact (pwm_create_paned_layout_order sample_blist sample_convwin
           (Some "bottom") sample_merged sample_layout_ready).
Defined.

Lemma notify_position_cb_stores_sample :
  notify_position_cb 22 (PBlist sample_blist) sample_sized
  = Some (upd_prefs_int (insert PREF_WIDTH 250%Z) sample_sized)
  ∧ PREF_WIDTH ≠ PREF_HEIGHT.
Proof.
  refine (notify_position_cb_stores 22 sample_blist sample_paned sample_sized
            _ _).
  - vm_compute. reflexivity.
  - unfold paned_in_range. vm_compute. intuition discriminate.
Defined.

Lemma sample_later_watchers : position_watchers_only 22 sample_later.
Proof.
  intros h Hh Hobj Hsig.
  assert (Hs : handlers sample_later
               = [max_position_handler 22 sample_blist;
                  focus_handler sample_blist 11])
    by (vm_compute; reflexivity).
  rewrite Hs in Hh.
  apply elem_of_cons in Hh as [->|Hh].
  - destruct Hsig as [Hsig|Hsig]; discriminate Hsig.
  - apply list_elem_of_singleton in Hh as ->. discriminate Hobj.
Defined.

Lemma pane_size_round_trip_sample :
  ∃ s3, notify_max_position_cb (g_signal_emit 1) 22 (PBlist sample_blist)
          sample_later = Some s3
        ∧ gtk_paned_get_position 22 s3 = 550%Z.
Proof.
  refine (pane_size_round_trip 0 22 sample_blist sample_paned
            (paned_set_position 0 false sample_paned)
            sample_sized (purple_prefs_set_int PREF_WIDTH 250 sample_sized)
            sample_later _ _ _ _ _ _ _ _ sample_later_watchers).
  - vm_compute. reflexivity.
  - vm_compute. intuition discriminate.
  - vm_compute. reflexivity.
  - vm_compute. reflexivity.
  - reflexivity.
  - reflexivity.
  - reflexivity.
  - vm_compute. reflexivity.
Defined.

Lemma pwm_split_conversation_clears_sample :
  ∃ s', pwm_split_conversation sample_blist sample_merged = Some s'
        ∧ object_data s' !! (blist_notebook sample_blist, "pwm_convs") = None
        ∧ object_data s' !! (conv_notebook sample_convwin, "pwm_blist") = None
        ∧ (∀ key, key ∈ merge_slots →
             object_data s' !! (blist_notebook sample_blist, key) = None)
        ∧ pwm_blist_get_convs sample_blist s' = NULL.
Proof.
  refine (pwm_split_conversation_clears sample_blist sample_convwin
            sample_merged _).
  vm_compute. reflexivity.
Defined.

Lemma notify_max_position_cb_one_shot_sample :
  ∃ s1 paned,
    pwm_create_paned_layout sample_blist (Some "right") sample_merged
    = Some s1
    ∧ pwm_fetch sample_blist "paned" s1 = PWidget paned
    ∧ is_Some (as_paned paned s1)
    ∧ filter (λ h, h_object h = paned) (handlers s1)
      = [max_position_handler paned sample_blist]
    ∧ (∀ σ p,
         as_paned paned σ = Some p →
         filter (λ h, h_object h = paned) (handlers σ)
         = [max_position_handler paned sample_blist] →
         let pref := if vertical p then purple_prefs_get_int PREF_HEIGHT σ
                     else purple_prefs_get_int PREF_WIDTH σ in
         let size := if decide (child1 p = Some (blist_notebook sample_blist))
                     then pref else gint (max_position p - pref) in
         ∃ σ2,
           g_signal_emit 2 paned "notify::max-position" σ = Some σ2
           ∧ (0 ≤ size → gtk_paned_get_position paned σ2 = size)%Z
           ∧ prefs_int σ2 = prefs_int σ
           ∧ filter (λ h, h_object h = paned) (handlers σ2)
             = [position_handler paned sample_blist])
    ∧ (∀ σ,
         filter (λ h, h_object h = paned) (handlers σ)
         = [position_handler paned sample_blist] →
         g_signal_emit 1 paned "notify::max-position" σ = Some σ
         ∧ g_signal_emit 1 paned "notify::position" σ
           = notify_position_cb paned (PBlist sample_blist) σ
         ∧ ∀ σ', notify_position_cb paned (PBlist sample_blist) σ = Some σ' →
                 handlers σ' = handlers σ).
Proof.
  exact (notify_max_position_cb_one_shot 0 sample_blist sample_convwin
           (Some "right") sample_merged sample_layout_ready).
Defined.

Lemma merge_association_sample :
  pristine sample_blist 2 3 [3; 4] [5; 6] sample_world
  ∧ ∃ s1,
      pwm_merge_conversation sample_blist sample_world = Some s1
      ∧ (pidgin_conv_window_new sample_world).1 = 10
      ∧ convwins sample_world !! 10 = None
      ∧ tied sample_blist 10 s1
      ∧ ∀ s', rtc (merged_step sample_blist) s1 s' → tied sample_blist 10 s'.
Proof.
  assert (Hp : pristine sample_blist 2 3 [3; 4] [5; 6] sample_world).
  { refine (bool_decide_unpack _ _). vm_compute. exact I. }
  split; [exact Hp|].
  exact (merge_association sample_blist 2 3 [3; 4] [5; 6] sample_world Hp).
Defined.

(** * Further properties of merge.c *)

(** ** The conversation menu items, shown and hidden *)

(** Of two calls of [pwm_set_conv_menus_visible] in a row the last one
    decides: the first leaves the stored list as it is, and showing or
    hiding the same widgets twice is showing or hiding them once. *)
Theorem pwm_set_conv_menus_visible_last (gtkblist : PidginBuddyList)
    (first last : bool) (s : World) :
  pwm_set_conv_menus_visible gtkblist last
    (pwm_set_conv_menus_visible gtkblist first s)
  = pwm_set_conv_menus_visible gtkblist last s.
Proof.
  unfold pwm_set_conv_menus_visible.
  set (items := as_glist (pwm_fetch gtkblist "conv_menus" s)).
  assert (E : ∀ v σ,
    (if v : bool then foldl (λ s item, gtk_widget_show item s) σ items
     else foldl (λ s item, gtk_widget_hide item s) σ items)
    = upd_visible (λ V, if v then V ∪ list_to_set items
                        else V ∖ list_to_set items) σ).
  { intros [] σ; [apply foldl_show | apply foldl_hide]. }
  rewrite (E first s).
  change (as_glist (pwm_fetch gtkblist "conv_menus" (upd_visible _ s)))
    with items.
  rewrite !E. apply World_eq; fields; try reflexivity.
  apply set_eq. intros x.
  destruct (decide (x ∈ (list_to_set items : gset nat)));
    destruct first, last;
    rewrite ?elem_of_union, ?elem_of_difference, ?elem_of_union; tauto.
Qed.

(** ** Calls on a buddy list that is not merged *)

(** Only [pwm_merge_conversation] checks whether the buddy list is merged.
    When the conversation-window tag of the buddy list is [NULL] (or does
    not point at a conversation window), [pwm_split_conversation] and
    [pwm_create_paned_layout] read [gtkconvwin->notebook] through that
    pointer: neither has a defined result. *)
Theorem unmerged_calls_undefined (gtkblist : PidginBuddyList) (s : World) :
  deref_convwin (pwm_blist_get_convs gtkblist s) s = None →
  pwm_split_conversation gtkblist s = None
  ∧ ∀ side, pwm_create_paned_layout gtkblist side s = None.
Proof.
  intros Hnone. split.
  - unfold pwm_split_conversation. cbv zeta.
    replace (deref_convwin (pwm_blist_get_convs gtkblist s)
               (g_object_steal_data (blist_notebook gtkblist) "pwm_convs" s))
      with (deref_convwin (pwm_blist_get_convs gtkblist s) s)
      by (by destruct (pwm_blist_get_convs gtkblist s)).
    by rewrite Hnone.
  - intros side. unfold pwm_create_paned_layout.
    destruct (if side_is side "t" "b" then gtk_vpaned_new s
              else gtk_hpaned_new s) as [paned s0] eqn:Hnew.
    cbv zeta.
    match goal with |- context [deref_convwin ?p ?σ] =>
      replace (deref_convwin p σ)
        with (deref_convwin (pwm_blist_get_convs gtkblist s) s)
    end.
    + by rewrite Hnone.
    + assert (Hc : convwins s0 = convwins s).
      { destruct (side_is side "t" "b"); injection Hnew as <- <-;
          reflexivity. }
      unfold deref_convwin.
      destruct (pwm_blist_get_convs gtkblist s); try reflexivity.
      unfold g_object_connect, pwm_store, g_object_set_data, gtk_widget_show.
      destruct (signal_of_spec _); fields; by rewrite Hc.
Qed.

Lemma unmerged_calls_undefined_sample :
  pwm_split_conversation sample_blist sample_world = None
  ∧ ∀ side, pwm_create_paned_layout sample_blist side sample_world = None.
Proof.
  refine (unmerged_calls_undefined sample_blist sample_world _).
  vm_compute. reflexivity.
Defined.

(** ** Title and icons after a split *)

(** Whatever the world, a split that runs to its end leaves the buddy list
    window with the title that was in the "title" slot when the split began
    (no title when the slot was empty) and without an icon list of its own:
    the icons are reset, not restored. *)
Theorem pwm_split_conversation_title_icons (gtkblist : PidginBuddyList)
    (s s' : World) :
  pwm_split_conversation gtkblist s = Some s' →
  gtk_window_get_title (blist_window gtkblist) s'
  = as_string (pwm_fetch gtkblist "title" s)
  ∧ icon_list s' !! blist_window gtkblist = None.
Proof.
  unfold pwm_split_conversation. cbv zeta. intros Hrun.
  apply bind_Some in Hrun as (cw & _ & Hrun).
  apply bind_Some in Hrun as (cw' & _ & Hrun).
  injection Hrun as <-.
  unfold pwm_clear, g_object_steal_data, gtk_window_get_title,
    gtk_window_set_icon_list.
  destruct (as_string (pwm_fetch gtkblist "title" s)) as [t|];
    cbn [gtk_window_set_title]; fields.
  - by rewrite lookup_insert_eq, lookup_delete_eq.
  - by rewrite !lookup_delete_eq.
Qed.

Lemma pwm_split_conversation_title_icons_sample :
  gtk_window_get_title (blist_window sample_blist)
    (split_world sample_blist sample_world)
  = as_string (pwm_fetch sample_blist "title" sample_merged)
  ∧ icon_list (split_world sample_blist sample_world)
    !! blist_window sample_blist = None.
Proof.
  refine (pwm_split_conversation_title_icons sample_blist sample_merged
            (split_world sample_blist sample_world) _).
  vm_compute. reflexivity.
Defined.

(** ** What a merge does to the menus, the window pointer and the keys *)

(** The merge moves the menu items of the new conversation window into the
    menu bar of the buddy list, in their order, in front of the menu tray,
    which stays the last child; the conversation window's menu bar is left
    empty.  The items are hidden, and for every item with a submenu the
    accelerator group of the submenu is registered with the buddy list
    window. *)
Theorem pwm_merge_conversation_menus (gtkblist : PidginBuddyList)
    (box menu : widget) (bl pre : list widget) (s : World) :
  pristine gtkblist box menu bl pre s →
  let n := next_id s in
  let items := seq (n + 6) (length (host_conv_menus s)) in
  ∃ s1,
    pwm_merge_conversation gtkblist s = Some s1
    ∧ gtk_container_get_children menu s1
      = pre ++ items ++ [blist_menutray gtkblist]
    ∧ gtk_container_get_children (n + 3) s1 = []
    ∧ as_glist (pwm_fetch gtkblist "conv_menus" s1) = items
    ∧ (∀ item, item ∈ items →
         gtk_widget_get_parent item s1 = Some menu ∧ item ∉ visible s1)
    ∧ (∀ item g, item ∈ items → item_accel_group s1 item = Some g →
         (blist_window gtkblist, g) ∈ accel_groups s1).
Proof.
  intros Hp n items.
  exists (merged_world gtkblist box menu bl pre s).
  split; [by apply merge_run|].
  destruct Hp as (Hun & Hwin & Hslots & Hnb & Hbox & Htray & Hmenu & Hpre & Hd).
  apply NoDup_4 in Hd as (D1 & D2 & D3 & D4 & D5 & D6).
  pose proof (used_lt _ _ _ (unused_parent Hun) Hnb) as L1.
  pose proof (used_lt _ _ _ (unused_containers Hun) Hbox) as L2.
  pose proof (used_lt _ _ _ (unused_parent Hun) Htray) as L3.
  pose proof (used_lt _ _ _ (unused_containers Hun) Hmenu) as L4.
  set (M := merged_world gtkblist box menu bl pre s).
  fold n in Hun, Hwin, L1, L2, L3, L4.
  set (k := length (host_conv_menus s)) in *.
  assert (Hitems : ∀ i, i ∈ items ↔ n + 6 ≤ i < n + 6 + k)
    by (intros i; apply elem_of_seq).
  set (nb := blist_notebook gtkblist) in *.
  set (pn := n + 6 + k + k).
  split_and!.
  - unfold gtk_container_get_children.
    replace (containers M !! menu)
      with (Some (Children (pre ++ items ++ [blist_menutray gtkblist])));
      [reflexivity|].
    symmetry. unf. fold n nb k items pn. look2. reflexivity.
  - unfold gtk_container_get_children.
    replace (containers M !! (n + 3)) with (Some (Children []));
      [reflexivity|].
    symmetry. unf. fold n nb k items pn. look2. reflexivity.
  - unfold pwm_fetch, g_object_get_data. keys. fold nb.
    replace (object_data M !! (nb, "pwm_conv_menus"))
      with (match of_glist items with NULL => None | v => Some v end).
    + by destruct items.
    + symmetry. unf. fold n nb k items pn. look2.
      by destruct (of_glist items).
  - intros item Hitem. pose proof (proj1 (Hitems item) Hitem) as Hi. split.
    + unfold gtk_widget_get_parent. unf. fold n nb k items pn. look2.
      reflexivity.
    + unf. fold n nb k items pn. fields.
      rewrite elem_of_difference, elem_of_list_to_set. tauto.
  - intros item g Hitem Hg.
    assert (Hacc : item_accel_group M item
                   = if decide (item ∈ flagged (n + 6) (host_conv_menus s))
                     then Some (n + 5) else None).
    { pose proof (proj1 (Hitems item) Hitem) as Hi.
      apply conv_item_accel; [exact Hun | exact Hitem | fold n k pn ..].
      all: unfold conv_world, pidgin_conv_window_new; cbv zeta; cbn [snd].
      all: unf; fold n nb k items pn.
      all: look2; exact eq_refl. }
    rewrite Hacc in Hg.
    unf. fold n nb k items pn. fields.
    apply elem_of_union_r.
    unfold conv_item_accels. fold n k items.
    clear -Hitem Hg. induction items as [|i l IH]; [by apply elem_of_nil in Hitem|].
    cbn [fmap list_fmap accel_pairs].
    apply elem_of_cons in Hitem as [->|Hitem].
    + apply elem_of_union_l.
      destruct (decide _); [|discriminate]. injection Hg as <-.
      cbn. by apply elem_of_singleton.
    + apply elem_of_union_r. by apply IH.
Qed.

Lemma pwm_merge_conversation_menus_sample :
  ∃ s1,
    pwm_merge_conversation sample_blist sample_world = Some s1
    ∧ gtk_container_get_children 3 s1 = [5; 6] ++ [16; 17; 18] ++ [7]
    ∧ gtk_container_get_children 13 s1 = []
    ∧ as_glist (pwm_fetch sample_blist "conv_menus" s1) = [16; 17; 18]
    ∧ (∀ item, item ∈ [16; 17; 18] →
         gtk_widget_get_parent item s1 = Some 3 ∧ item ∉ visible s1)
    ∧ (∀ item g, item ∈ [16; 17; 18] → item_accel_group s1 item = Some g →
         (1, g) ∈ accel_groups s1).
Proof.
  refine (pwm_merge_conversation_menus sample_blist 2 3 [3; 4] [5; 6]
            sample_world _).
  refine (bool_decide_unpack _ _). vm_compute. exact I.
Defined.

(** The merge points the structure of the new conversation window at the
    buddy list window and keeps the window it replaces in the "conv_window"
    slot; the same window is the data of the one focus handler the merge
    connects to the buddy list window.  The title of the buddy list window
    is copied to the "title" slot and is itself not changed. *)
Theorem pwm_merge_conversation_window (gtkblist : PidginBuddyList)
    (box menu : widget) (bl pre : list widget) (s : World) :
  pristine gtkblist box menu bl pre s →
  let n := next_id s in
  ∃ s1 cw,
    pwm_merge_conversation gtkblist s = Some s1
    ∧ deref_convwin (pwm_blist_get_convs gtkblist s1) s1 = Some cw
    ∧ conv_window cw = Some (blist_window gtkblist)
    ∧ convwins (conv_world s) !! n
      = Some {| conv_window := Some (n + 1);
                conv_notebook := conv_notebook cw;
                conv_menubar := conv_menubar cw |}
    ∧ pwm_fetch gtkblist "conv_window" s1 = PWidget (n + 1)
    ∧ filter (λ h, h_callback h = cb_focus_in_event) (handlers s1)
      = filter (λ h, h_callback h = cb_focus_in_event) (handlers s)
        ++ [focus_handler gtkblist (n + 1)]
    ∧ as_string (pwm_fetch gtkblist "title" s1)
      = gtk_window_get_title (blist_window gtkblist) s
    ∧ title s1 = title s.
Proof.
  intros Hp n.
  exists (merged_world gtkblist box menu bl pre s),
    {| conv_window := Some (blist_window gtkblist); conv_notebook := n + 4;
       conv_menubar := n + 3 |}.
  split; [by apply merge_run|].
  destruct Hp as (Hun & Hwin & Hslots & Hnb & Hbox & Htray & Hmenu & Hpre & Hd).
  pose proof (used_lt _ _ _ (unused_parent Hun) Hnb) as L1.
  set (M := merged_world gtkblist box menu bl pre s).
  fold n in Hun, Hwin, L1.
  set (k := length (host_conv_menus s)) in *.
  set (items := seq (n + 6) k).
  set (nb := blist_notebook gtkblist) in *.
  set (bwin := blist_window gtkblist) in *.
  set (pn := n + 6 + k + k).
  assert (T1 : pwm_blist_get_convs gtkblist M = PConvWin n).
  { unfold pwm_blist_get_convs, g_object_get_data. fold nb.
    replace (object_data M !! (nb, "pwm_convs"))
      with (Some (PConvWin n)); [reflexivity|].
    symmetry. unf. fold n nb k items pn. look2.
    destruct (of_glist items); reflexivity. }
  split_and!.
  - rewrite T1. unf. fold n nb k items pn. cbn [deref_convwin]. look2.
    reflexivity.
  - reflexivity.
  - unfold conv_world, pidgin_conv_window_new. cbv zeta. cbn [snd].
    fold n. look2. reflexivity.
  - unfold pwm_fetch, g_object_get_data. keys. fold nb.
    replace (object_data M !! (nb, "pwm_conv_window"))
      with (Some (PWidget (n + 1))); [reflexivity|].
    symmetry. unf. fold n nb k items pn. look2. reflexivity.
  - unf. fold n nb k items pn. fields.
    rewrite !filter_app.
    rewrite (filter_cons_False _ (max_position_handler pn gtkblist))
      by (cbn; discriminate).
    rewrite filter_nil, app_nil_r.
    by rewrite filter_cons_True, filter_nil by reflexivity.
  - unfold pwm_fetch, g_object_get_data, gtk_window_get_title. keys.
    fold nb bwin.
    replace (object_data M !! (nb, "pwm_title"))
      with (match of_string (title s !! bwin) with
            | NULL => None | v => Some v end).
    + by destruct (title s !! bwin).
    + symmetry. unf. fold n nb k items pn bwin. look2.
      destruct (of_glist items), (of_string (title s !! bwin)); reflexivity.
  - reflexivity.
Qed.

Lemma pwm_merge_conversation_window_sample :
  ∃ s1 cw,
    pwm_merge_conversation sample_blist sample_world = Some s1
    ∧ deref_convwin (pwm_blist_get_convs sample_blist s1) s1 = Some cw
    ∧ conv_window cw = Some 1
    ∧ convwins (conv_world sample_world) !! 10
      = Some {| conv_window := Some 11;
                conv_notebook := conv_notebook cw;
                conv_menubar := conv_menubar cw |}
    ∧ pwm_fetch sample_blist "conv_window" s1 = PWidget 11
    ∧ filter (λ h, h_callback h = cb_focus_in_event) (handlers s1)
      = filter (λ h, h_callback h = cb_focus_in_event)
          (handlers sample_world)
        ++ [focus_handler sample_blist 11]
    ∧ as_string (pwm_fetch sample_blist "title" s1)
      = gtk_window_get_title 1 sample_world
    ∧ title s1 = title sample_world.
Proof.
  refine (pwm_merge_conversation_window sample_blist 2 3 [3; 4] [5; 6]
            sample_world _).
  refine (bool_decide_unpack _ _). vm_compute. exact I.
Defined.

(** Of the GtkIMHtml binding set the merge changes six entries and no
    other: Control with Up, Down, Page Up, Page Down and the two keypad
    page keys are skipped afterwards, whatever they were bound to, and
    every other key is bound as before. *)
Theorem pwm_merge_conversation_bindings (gtkblist : PidginBuddyList)
    (box menu : widget) (bl pre : list widget) (s : World) :
  pristine gtkblist box menu bl pre s →
  ∃ s1,
    pwm_merge_conversation gtkblist s = Some s1
    ∧ ∀ key,
        imhtml_bindings s1 !! key
        = if decide (key ∈ move_cursor_keys) then Some Skipped
          else imhtml_bindings s !! key.
Proof.
  intros Hp. exists (merged_world gtkblist box menu bl pre s).
  split; [by apply merge_run|].
  intros key. unfold merged_world. cbv zeta. fields.
  unfold skip_move_cursor.
  destruct (decide (key ∈ move_cursor_keys)) as [Hin|Hout];
    unfold move_cursor_keys in *.
  - rewrite !elem_of_cons in Hin.
    destruct Hin as [->|[->|[->|[->|[->|[->|Hin]]]]]];
      [..|by apply elem_of_nil in Hin];
      repeat first
        [ rewrite lookup_insert_eq
        | rewrite lookup_insert_ne
            by (refine (bool_decide_unpack _ _); vm_compute; exact I) ];
      reflexivity.
  - rewrite !not_elem_of_cons in Hout.
    destruct Hout as (H1 & H2 & H3 & H4 & H5 & H6 & _).
    by rewrite !lookup_insert_ne by done.
Qed.

Lemma pwm_merge_conversation_bindings_sample :
  ∃ s1,
    pwm_merge_conversation sample_blist sample_world = Some s1
    ∧ ∀ key,
        imhtml_bindings s1 !! key
        = if decide (key ∈ move_cursor_keys) then Some Skipped
          else imhtml_bindings sample_world !! key.
Proof.
  refine (pwm_merge_conversation_bindings sample_blist 2 3 [3; 4] [5; 6]
            sample_world _).
  refine (bool_decide_unpack _ _). vm_compute. exact I.
Defined.

(** ** What the callbacks leave alone *)



(** ** Passing the focus on *)

Lemma g_signal_emit_no_handler depth obj sig s :
  filter (λ h, h_object h = obj) (handlers s) = [] →
  g_signal_emit (S depth) obj sig s = Some s.
Proof.
  intros Hnone. unfold g_signal_emit; fold g_signal_emit.
  by rewrite handlers_of_object, Hnone.
Qed.

(** While the buddy list is merged, a focus-in event on the buddy list
    window (one that had no handlers before the merge) is passed on to the
    window the conversation window structure pointed at before the merge,
    once, and does nothing else; it is not passed back.  After the split
    the event is no longer passed on. *)
Theorem focus_in_event_forwarded (depth : nat) (gtkblist : PidginBuddyList)
    (box menu : widget) (bl pre : list widget) (s : World) :
  pristine gtkblist box menu bl pre s →
  filter (λ h, h_object h = blist_window gtkblist) (handlers s) = [] →
  ∃ s1 s2,
    pwm_merge_conversation gtkblist s = Some s1
    ∧ pwm_split_conversation gtkblist s1 = Some s2
    ∧ g_signal_emit (S (S depth)) (blist_window gtkblist) "focus-in-event" s1
      = Some (upd_events
                (λ es, es ++ [(next_id s + 1, "focus-in-event")]) s1)
    ∧ g_signal_emit (S depth) (blist_window gtkblist) "focus-in-event" s2
      = Some s2.
Proof.
  intros Hp Hnone.
  exists (merged_world gtkblist box menu bl pre s), (split_world gtkblist s).
  split; [by apply merge_run|]. split; [by apply split_run|].
  destruct Hp as (Hun & Hwin & _).
  set (n := next_id s) in *. set (k := length (host_conv_menus s)).
  set (bwin := blist_window gtkblist) in *.
  set (M := merged_world gtkblist box menu bl pre s).
  split.
  - assert (Hone : filter (λ h, h_object h = bwin) (handlers M)
                   = [focus_handler gtkblist (n + 1)]).
    { unfold M, merged_world. cbv zeta. fields. fold n k bwin.
      rewrite !filter_app, Hnone.
      rewrite filter_cons_False by (cbn; fold bwin n; lia).
      by rewrite filter_cons_True by reflexivity. }
    rewrite (signal_emit_one _ _ _ _ _ Hone).
    rewrite decide_True by reflexivity.
    unfold run_callback. cbn [h_callback focus_handler h_data].
    unfold focus_in_event_cb, gtk_widget_event_focus_in. cbn [as_widget].
    apply g_signal_emit_no_handler.
    unfold M, merged_world. cbv zeta. fields. fold n k bwin.
    apply filter_none. intros h Hh Hobj.
    rewrite !elem_of_app, !list_elem_of_singleton in Hh.
    destruct Hh as [[Hh| ->]| ->].
    + pose proof (unused_handlers Hun h Hh). lia.
    + cbn in Hobj. lia.
    + cbn in Hobj. fold bwin in Hobj. lia.
  - apply g_signal_emit_no_handler. exact Hnone.
Qed.

Lemma focus_in_event_forwarded_sample :
  ∃ s1 s2,
    pwm_merge_conversation sample_blist sample_world = Some s1
    ∧ pwm_split_conversation sample_blist s1 = Some s2
    ∧ g_signal_emit 2 1 "focus-in-event" s1
      = Some (upd_events (λ es, es ++ [(11, "focus-in-event")]) s1)
    ∧ g_signal_emit 1 1 "focus-in-event" s2 = Some s2.
Proof.
  refine (focus_in_event_forwarded 0 sample_blist 2 3 [3; 4] [5; 6]
            sample_world _ _).
  - refine (bool_decide_unpack _ _). vm_compute. exact I.
  - reflexivity.
Defined.

(** ** Merging again after a split *)

Lemma split_world_pristine b box menu bl pre s :
  pristine b box menu bl pre s →
  pristine b box menu bl pre (split_world b s).
Proof.
  intros (Hun & Hwin & Hslots & Hnb & Hbox & Htray & Hmenu & Hpre & Hd).
  pose proof (used_lt _ _ _ (unused_parent Hun) Hnb) as L1.
  pose proof (used_lt _ _ _ (unused_containers Hun) Hbox) as L2.
  pose proof (used_lt _ _ _ (unused_parent Hun) Htray) as L3.
  pose proof (used_lt _ _ _ (unused_containers Hun) Hmenu) as L4.
  pose proof (conv_world_unused s Hun) as Hσ.
  set (n := next_id s) in *. set (k := length (host_conv_menus s)) in *.
  set (pn := n + 6 + k + k) in *.
  assert (Hitems : ∀ i, i ∈ seq (n + 6) k ↔ n + 6 ≤ i < n + 6 + k)
    by (intros i; apply elem_of_seq).
  assert (P1 : parent (conv_world s) !! blist_notebook b = Some box).
  { unfold conv_world, pidgin_conv_window_new. cbv zeta. cbn [snd].
    fold n k. look2. exact Hnb. }
  assert (P2 : containers (conv_world s) !! box = Some (Children bl)).
  { unfold conv_world, pidgin_conv_window_new. cbv zeta. cbn [snd].
    fold n k. look2. exact Hbox. }
  assert (P3 : parent (conv_world s) !! blist_menutray b = Some menu).
  { unfold conv_world, pidgin_conv_window_new. cbv zeta. cbn [snd].
    fold n k. look2. exact Htray. }
  assert (P4 : containers (conv_world s) !! menu
               = Some (Children (pre ++ [blist_menutray b]))).
  { unfold conv_world, pidgin_conv_window_new. cbv zeta. cbn [snd].
    fold n k. look2. exact Hmenu. }
  assert (P5 : object_data (conv_world s) = object_data s) by reflexivity.
  unfold split_world. cbv zeta. fold n k pn.
  set (σ := conv_world s) in *. clearbody σ.
  apply (unused_from_weaken _ (S (S (S pn)))) in Hσ; [|lia].
  destruct Hσ
    as (G1 & G2 & G3 & G4 & G5 & G6 & G7 & G8 & G9 & G10 & G11 & G12).
  unfold pristine, unused_from. fields. rewrite P5.
  split_and!; try assumption; try lia.
  - apply set_Forall_union.
    + by apply set_Forall_difference_1.
    + apply set_Forall_singleton. lia.
  - by apply map_Forall_delete.
  - rewrite <- P5. exact G10.
Qed.

(** A merge followed by a split can be repeated any number of times: each
    cycle runs to its end and leaves the buddy list as the host built it,
    with its title, its place in the widget tree, the handlers and the data
    attached to objects as they were at the start, and one conversation
    window more than before. *)
Theorem merge_split_cycles_spec (k : nat) (gtkblist : PidginBuddyList)
    (box menu : widget) (bl pre : list widget) (s : World) :
  pristine gtkblist box menu bl pre s →
  ∃ s',
    merge_split_cycles k gtkblist s = Some s'
    ∧ pristine gtkblist box menu bl pre s'
    ∧ title s' = title s
    ∧ handlers s' = handlers s
    ∧ object_data s' = object_data s
    ∧ (∀ w, w < next_id s →
         parent s' !! w = parent s !! w
         ∧ containers s' !! w = containers s !! w)
    ∧ size (convwins s') = size (convwins s) + k.
Proof.
  revert s. induction k as [|k IH]; intros s Hp.
  - exists s. cbn. split_and!; try done; lia.
  - pose proof (split_world_pristine _ _ _ _ _ _ Hp) as Hp2.
    destruct (IH _ Hp2) as (s' & Hrun & Hp' & Ht & Hh & Hd & Hw & Hc).
    exists s'. cbn [merge_split_cycles]. unfold merge_split.
    rewrite (merge_run _ _ _ _ _ _ Hp). cbn [mbind option_bind].
    rewrite (split_run _ _ _ _ _ _ Hp). cbn [mbind option_bind].
    destruct Hp as [Hun _].
    split_and!; try assumption.
    + intros w Hlt. destruct (Hw w) as [-> ->].
      { unfold split_world. cbv zeta. fields. lia. }
      unfold split_world, conv_world, pidgin_conv_window_new.
      cbv zeta. cbn [snd]. fields.
      assert (Hitems : ∀ i, i ∈ seq (next_id s + 6) (length (host_conv_menus s))
                ↔ next_id s + 6 ≤ i
                  < next_id s + 6 + length (host_conv_menus s))
        by (intros i; apply elem_of_seq).
      split; look2; reflexivity.
    + rewrite Hc. unfold split_world, conv_world, pidgin_conv_window_new.
      cbv zeta. cbn [snd]. fields.
      rewrite map_size_insert_None by (apply (unused_convwins Hun); lia).
      lia.
Qed.

Lemma merge_split_cycles_sample :
  ∃ s',
    merge_split_cycles 3 sample_blist sample_world = Some s'
    ∧ pristine sample_blist 2 3 [3; 4] [5; 6] s'
    ∧ title s' = title sample_world
    ∧ handlers s' = handlers sample_world
    ∧ object_data s' = object_data sample_world
    ∧ (∀ w, w < 10 →
         parent s' !! w = parent sample_world !! w
         ∧ containers s' !! w = containers sample_world !! w)
    ∧ size (convwins s') = size (convwins sample_world) + 3.
Proof.
  refine (merge_split_cycles_spec 3 sample_blist 2 3 [3; 4] [5; 6]
            sample_world _).
  refine (bool_decide_unpack _ _). vm_compute. exact I.
Defined.

(** ** A stored size that does not fit *)

(** When the size [notify_max_position_cb] computes is negative (the buddy
    list is in the second pane and the stored preference is larger than
    the max-position of the paned), [gtk_paned_set_position] is called with
    a negative position: the slider stays where it is and is marked as not
    set.  The callback still replaces itself by [notify_position_cb]. *)
Theorem notify_max_position_cb_negative (depth : nat) (gobject : widget)
    (gtkblist : PidginBuddyList) (p : GtkPaned) (s : World) :
  as_paned gobject s = Some p →
  child1 p ≠ Some (blist_notebook gtkblist) →
  let pref := if vertical p then purple_prefs_get_int PREF_HEIGHT s
              else purple_prefs_get_int PREF_WIDTH s in
  (gint (max_position p - pref) < 0)%Z →
  position_watchers_only gobject s →
  ∃ s', notify_max_position_cb (g_signal_emit (S depth)) gobject
          (PBlist gtkblist) s = Some s'
        ∧ as_paned gobject s'
          = Some (paned_set_position (child1_size p) false p)
        ∧ position_handler gobject gtkblist ∈ handlers s'
        ∧ max_position_handler gobject gtkblist ∉ handlers s'.
Proof.
  intros Hp Hc pref Hneg Hquiet.
  unfold notify_max_position_cb. cbn [as_blist mbind option_bind].
  unfold gtk_paned_get_child1, GTK_IS_VPANED, g_object_get_max_position.
  rewrite Hp. cbn [from_option mbind option_bind fmap option_fmap option_map].
  rewrite decide_True by exact Hc.
  cbn [mbind option_bind]. fold pref.
  unfold gtk_paned_set_position. rewrite Hp.
  rewrite decide_False by lia.
  set (s0 := upd_containers _ s).
  assert (Hp0 : as_paned gobject s0
                = Some (paned_set_position (child1_size p) false p)).
  { unfold as_paned, s0. fields. by rewrite lookup_insert_eq. }
  assert (Hsome : is_Some (as_paned gobject s0)) by by rewrite Hp0.
  destruct (emit_quiet depth gobject "notify::position" s0) as [m1 ->];
    [by left | exact Hsome | exact Hquiet |].
  cbn [mbind option_bind].
  destruct (emit_quiet depth gobject "notify::position-set"
              (upd_prefs_int (λ _, m1) s0)) as [m2 ->];
    [by right | exact Hsome | exact Hquiet |].
  cbn [mbind option_bind]. eexists. split; [reflexivity|].
  unfold g_object_connect. rewrite signal_of_spec_position.
  unfold g_object_disconnect. rewrite decide_True by reflexivity.
  split_and!.
  - unfold as_paned, s0. fields. by rewrite lookup_insert_eq.
  - fields. apply elem_of_app. right. by apply list_elem_of_singleton.
  - fields. rewrite elem_of_app, list_elem_of_singleton.
    intros [Hin|Heq]; [|discriminate Heq].
    apply list_elem_of_filter in Hin as [Hn _]. apply Hn.
    by split_and!.
Qed.

Lemma notify_max_position_cb_negative_sample :
  let s := purple_prefs_set_int PREF_WIDTH 900 sample_later in
  ∃ s', notify_max_position_cb (g_signal_emit 1) 22 (PBlist sample_blist) s
        = Some s'
        ∧ as_paned 22 s'
          = Some (paned_set_position 0 false
                    (paned_set_position 0 false sample_paned))
        ∧ position_handler 22 sample_blist ∈ handlers s'
        ∧ max_position_handler 22 sample_blist ∉ handlers s'.
Proof.
  intros s.
  refine (notify_max_position_cb_negative 0 22 sample_blist
            (paned_set_position 0 false sample_paned) s _ _ _ _).
  - vm_compute. reflexivity.
  - vm_compute. discriminate.
  - vm_compute. reflexivity.
  - intros h Hh Hobj Hsig.
    assert (Hs : handlers s
                 = [max_position_handler 22 sample_blist;
                    focus_handler sample_blist 11])
      by (vm_compute; reflexivity).
    rewrite Hs in Hh.
    apply elem_of_cons in Hh as [->|Hh].
    + destruct Hsig as [Hsig|Hsig]; discriminate Hsig.
    + apply list_elem_of_singleton in Hh as ->. discriminate Hobj.
Defined.

(** ** Laying the panes out again and again *)

Lemma pwm_create_paned_layout_step b cw side s :
  layout_ready b cw s →
  ∃ s' q cq,
    pwm_create_paned_layout b side s = Some s'
    ∧ layout_merged b cw (next_id s) q
        (paned_layout (side_is side "t" "b") (side_is side "t" "l")
           (blist_notebook b) (conv_notebook cw)) cq s'
    ∧ ∀ w, is_Some (containers s' !! w) →
           w = next_id s
           ∨ (is_Some (containers s !! w) ∧ pwm_fetch b "paned" s ≠ PWidget w).
Proof.
  intros [(box & cbox & bl & cl & H)|(old & q & po & cq & H)].
  - rewrite (pwm_create_paned_layout_initial _ _ _ _ _ _ side _ H).
    pose proof (laid_out_initial_unused _ _ _ _ _ _ side _ H) as Hun'.
    destruct H as [Hconvs Hnop Hun Hnb Hbox Hcnb Hcbox Hd].
    apply NoDup_4 in Hd as (D1 & D2 & D3 & D4 & D5 & D6).
    pose proof (used_lt _ _ _ (unused_parent Hun) Hnb) as L1.
    pose proof (used_lt _ _ _ (unused_parent Hun) Hcnb) as L2.
    pose proof (used_lt _ _ _ (unused_containers Hun) Hbox) as L3.
    pose proof (used_lt _ _ _ (unused_containers Hun) Hcbox) as L4.
    set (n := next_id s) in *.
    set (nb := blist_notebook b) in *. set (cnb := conv_notebook cw) in *.
    set (L := laid_out_initial b cw box cbox bl cl side s) in *.
    assert (T1 : object_data L !! (nb, "pwm_convs")
                 = object_data s !! (nb, "pwm_convs")).
    { unf. fold n nb cnb. look2. reflexivity. }
    exists L, box, (Children (list_subst nb n bl)).
    split; [reflexivity|]. split.
    + split.
      * unfold pwm_blist_get_convs, g_object_get_data in Hconvs |- *.
        fold nb in Hconvs |- *. rewrite T1. exact Hconvs.
      * unfold pwm_fetch, g_object_get_data. keys. fold nb.
        replace (object_data L !! (nb, "pwm_paned"))
          with (Some (PWidget n)); [reflexivity|].
        symmetry. unf. fold n nb cnb. look2. reflexivity.
      * exact Hun'.
      * unf. fold n nb cnb. look2. reflexivity.
      * unfold paned_layout. cbn [child1 child2].
        destruct (side_is side "t" "l"); auto.
      * unf. fold n nb cnb. look2. reflexivity.
      * unf. fold n nb cnb. look2. reflexivity.
      * unf. fold n nb cnb. look2. reflexivity.
      * unf. fold n nb cnb. look2. reflexivity.
      * rewrite !NoDup_cons, !not_elem_of_cons.
        split_and!; try assumption; try lia;
          first [apply not_elem_of_nil | apply NoDup_nil_2].
    + intros w Hw. destruct (decide (w = n)) as [->|Hne]; [by left|].
      right. rewrite Hnop. split; [|discriminate].
      revert Hw. unf. fold n nb cnb. fields.
      rewrite lookup_insert_ne by done.
      destruct (decide (w = box)) as [->|?]; [by rewrite Hbox|].
      rewrite lookup_insert_ne by done.
      destruct (decide (w = cbox)) as [->|?]; [by rewrite Hcbox|].
      by rewrite lookup_insert_ne by done.
  - rewrite (pwm_create_paned_layout_again _ _ _ _ _ _ side _ H).
    pose proof (laid_out_again_unused _ _ _ _ _ _ side _ H) as Hun'.
    destruct H as [Hconvs Hpaned Hun Hold Hch Hnb Hcnb Hq Hcq Hd].
    apply NoDup_4 in Hd as (D1 & D2 & D3 & D4 & D5 & D6).
    pose proof (used_lt _ _ _ (unused_parent Hun) Hnb) as L1.
    pose proof (used_lt _ _ _ (unused_parent Hun) Hcnb) as L2.
    pose proof (used_lt _ _ _ (unused_containers Hun) Hold) as L3.
    pose proof (used_lt _ _ _ (unused_containers Hun) Hcq) as L4.
    set (n := next_id s) in *.
    set (nb := blist_notebook b) in *. set (cnb := conv_notebook cw) in *.
    set (L := laid_out_again b cw old q cq side s) in *.
    assert (T1 : object_data L !! (nb, "pwm_convs")
                 = object_data s !! (nb, "pwm_convs")).
    { unfold L, laid_out_again. cbv zeta. fold n nb cnb. look2.
      reflexivity. }
    exists L, q, (container_substitute old n cq).
    split; [reflexivity|]. split.
    + split.
      * unfold pwm_blist_get_convs, g_object_get_data in Hconvs |- *.
        fold nb in Hconvs |- *. rewrite T1. exact Hconvs.
      * unfold pwm_fetch, g_object_get_data. keys. fold nb.
        replace (object_data L !! (nb, "pwm_paned"))
          with (Some (PWidget n)); [reflexivity|].
        symmetry. unfold L, laid_out_again. cbv zeta. fold n nb cnb. look2.
        reflexivity.
      * exact Hun'.
      * unfold L, laid_out_again. cbv zeta. fold n nb cnb. look2.
        reflexivity.
      * unfold paned_layout. cbn [child1 child2].
        destruct (side_is side "t" "l"); auto.
      * unfold L, laid_out_again. cbv zeta. fold n nb cnb. look2.
        reflexivity.
      * unfold L, laid_out_again. cbv zeta. fold n nb cnb. look2.
        reflexivity.
      * unfold L, laid_out_again. cbv zeta. fold n nb cnb. look2.
        reflexivity.
      * unfold L, laid_out_again. cbv zeta. fold n nb cnb. look2.
        reflexivity.
      * rewrite !NoDup_cons, !not_elem_of_cons.
        split_and!; try assumption; try lia;
          first [apply not_elem_of_nil | apply NoDup_nil_2].
    + intros w Hw. destruct (decide (w = n)) as [->|Hne]; [by left|].
      right. rewrite Hpaned.
      revert Hw. unfold L, laid_out_again. cbv zeta. fold n nb cnb. fields.
      rewrite lookup_insert_ne by done.
      destruct (decide (w = q)) as [->|?].
      { intros _. split; [by rewrite Hcq|]. intros [= <-]. done. }
      rewrite lookup_insert_ne by done.
      destruct (decide (w = old)) as [->|?].
      { rewrite lookup_delete_eq. by intros [? ?]. }
      rewrite lookup_delete_ne by done.
      intros Hw. split; [exact Hw|]. by intros [= <-].
Qed.

(** However often the panes are laid out, for whatever sides, the calls run
    to their end and the outcome is that of the last side alone: the
    "paned" slot names a paned with the orientation and the order of the
    last side, holding the two notebooks.  No paned made on the way is
    left, nor the one there was at the start: every other container of the
    end was a container at the start and not the paned of the slot. *)
Theorem pwm_create_paned_layouts_last (gtkblist : PidginBuddyList)
    (cw : PidginWindow) (sides : list (option string))
    (side : option string) (s : World) :
  layout_ready gtkblist cw s →
  ∃ s' paned,
    pwm_create_paned_layouts gtkblist (sides ++ [side]) s = Some s'
    ∧ pwm_fetch gtkblist "paned" s' = PWidget paned
    ∧ as_paned paned s'
      = Some (paned_layout (side_is side "t" "b") (side_is side "t" "l")
                (blist_notebook gtkblist) (conv_notebook cw))
    ∧ gtk_widget_get_parent (blist_notebook gtkblist) s' = Some paned
    ∧ gtk_widget_get_parent (conv_notebook cw) s' = Some paned
    ∧ ∀ w, is_Some (containers s' !! w) →
           w = paned
           ∨ (is_Some (containers s !! w)
              ∧ pwm_fetch gtkblist "paned" s ≠ PWidget w).
Proof.
  revert s. induction sides as [|a sides IH]; intros s Hready.
  - destruct (pwm_create_paned_layout_step _ _ side _ Hready)
      as (s' & q & cq & Hrun & H & Hw).
    exists s', (next_id s). cbn. rewrite Hrun. cbn.
    destruct H as [Hconvs Hpaned Hun Hold Hch Hnb Hcnb Hq Hcq Hd].
    split_and!; try done.
    unfold as_paned. by rewrite Hold.
  - destruct (pwm_create_paned_layout_step _ _ a _ Hready)
      as (s1 & q & cq & Hrun & H & Hw).
    destruct (IH s1) as (s' & paned & Hrun' & Hslot & Hp & Hnb & Hcnb & Hw').
    { right. by eexists _, _, _, _. }
    exists s', paned. cbn. rewrite Hrun. cbn.
    split_and!; try done.
    intros w Hin. destruct (Hw' w Hin) as [->|[Hin1 Hnot]]; [by left|].
    right. destruct (Hw w Hin1) as [->|Hs]; [|exact Hs].
    destruct H as [_ Hpaned _ _ _ _ _ _ _ _]. by rewrite Hpaned in Hnot.
Qed.

Lemma pwm_create_paned_layouts_last_sample :
  ∃ s' paned,
    pwm_create_paned_layouts sample_blist
      ([Some "top"; None; Some "right"] ++ [Some "bottom"]) sample_merged
    = Some s'
    ∧ pwm_fetch sample_blist "paned" s' = PWidget paned
    ∧ as_paned paned s'
      = Some (paned_layout (side_is (Some "bottom") "t" "b")
                (side_is (Some "bottom") "t" "l")
                (blist_notebook sample_blist) (conv_notebook sample_convwin))
    ∧ gtk_widget_get_parent (blist_notebook sample_blist) s' = Some paned
    ∧ gtk_widget_get_parent (conv_notebook sample_convwin) s' = Some paned
    ∧ ∀ w, is_Some (containers s' !! w) →
           w = paned
           ∨ (is_Some (containers sample_merged !! w)
              ∧ pwm_fetch sample_blist "paned" sample_merged ≠ PWidget w).
Proof.
  exact (pwm_create_paned_layouts_last sample_blist sample_convwin
           [Some "top"; None; Some "right"] (Some "bottom") sample_merged
           sample_layout_ready).
Defined.

(** ** What a split leaves of the widgets of the merge *)



(** ** Which pane resizes *)

(** Whatever the side, in the paned [pwm_create_paned_layout] builds the
    pane of the conversation notebook resizes with the window and the pane
    of the buddy list's notebook does not: the "resize" child properties
    follow the notebooks, not the positions. *)
Theorem pwm_create_paned_layout_resize (gtkblist : PidginBuddyList)
    (cw : PidginWindow) (side : option string) (s : World) :
  layout_ready gtkblist cw s →
  ∃ s' paned p,
    pwm_create_paned_layout gtkblist side s = Some s'
    ∧ pwm_fetch gtkblist "paned" s' = PWidget paned
    ∧ as_paned paned s' = Some p
    ∧ ((child1 p = Some (conv_notebook cw)
        ∧ child2 p = Some (blist_notebook gtkblist)
        ∧ child1_resize p = true ∧ child2_resize p = false)
       ∨ (child1 p = Some (blist_notebook gtkblist)
          ∧ child2 p = Some (conv_notebook cw)
          ∧ child1_resize p = false ∧ child2_resize p = true)).
Proof.
  intros Hready.
  destruct (pwm_create_paned_layout_paned _ _ side _ Hready)
    as (s' & Hrun & Hslot & Hp & _).
  eexists s', (next_id s), _. split_and!; [done..|].
  unfold paned_layout. cbn.
  destruct (side_is side "t" "l"); [left|right]; done.
Qed.

Lemma pwm_create_paned_layout_resize_sample :
  ∃ s' paned p,
    pwm_create_paned_layout sample_blist (Some "left") sample_merged = Some s'
    ∧ pwm_fetch sample_blist "paned" s' = PWidget paned
    ∧ as_paned paned s' = Some p
    ∧ ((child1 p = Some (conv_notebook sample_convwin)
        ∧ child2 p = Some (blist_notebook sample_blist)
        ∧ child1_resize p = true ∧ child2_resize p = false)
       ∨ (child1 p = Some (blist_notebook sample_blist)
          ∧ child2 p = Some (conv_notebook sample_convwin)
          ∧ child1_resize p = false ∧ child2_resize p = true)).
Proof.
  exact (pwm_create_paned_layout_resize sample_blist sample_convwin
           (Some "left") sample_merged sample_layout_ready).
Defined.

(** ** Splitting after the panes have been laid out again *)

Ltac unf ::=
  repeat match goal with
  | x := _ : World |- _ => progress unfold x
  end;
  try unfold laid_out_initial; try unfold merged_world;
  try unfold merged_at;
  try unfold conv_world, pidgin_conv_window_new; cbv zeta; cbn [snd].

Lemma split_at b box menu bl pre s P nid vert cfirst hs :
  pristine b box menu bl pre s →
  next_id (conv_world s) ≤ P →
  P ≠ S (next_id (conv_world s)) → P ≠ S (S (next_id (conv_world s))) →
  filter (λ h, h_object h ≠ P)
    (filter (λ h, ¬ handler_matches (blist_window b) cb_focus_in_event
                     (PWidget (next_id s + 1)) h) hs)
  = handlers s →
  Forall (λ h, h_object h ≠ S (next_id (conv_world s))
               ∧ h_object h ≠ S (S (next_id (conv_world s)))) hs →
  pwm_split_conversation b (merged_at b box menu bl pre s P nid vert cfirst hs)
  = Some (upd_next_id (λ _, nid) (split_world b s)).
Proof.
  intros (Hun & Hwin & Hslots & Hnb & Hbox & Htray & Hmenu & Hpre & Hd)
    HP HP1 HP2 Hhs Hhs2.
  change (next_id (conv_world s))
    with (next_id s + 6 + length (host_conv_menus s)
          + length (host_conv_menus s)) in HP, HP1, HP2, Hhs2.
  apply NoDup_4 in Hd as (D1 & D2 & D3 & D4 & D5 & D6).
  pose proof (used_lt _ _ _ (unused_parent Hun) Hnb) as L1.
  pose proof (used_lt _ _ _ (unused_containers Hun) Hbox) as L2.
  pose proof (used_lt _ _ _ (unused_parent Hun) Htray) as L3.
  pose proof (used_lt _ _ _ (unused_containers Hun) Hmenu) as L4.
  unfold merge_slots in Hslots. rewrite !Forall_cons in Hslots.
  destruct Hslots as (S1 & S2 & S3 & S4 & S5 & S6 & S7 & _).
  set (M := merged_at b box menu bl pre s P nid vert cfirst hs).
  set (n := next_id s) in *.
  set (k := length (host_conv_menus s)) in *.
  set (items := seq (n + 6) k).
  assert (Hitems : ∀ i, i ∈ items ↔ n + 6 ≤ i < n + 6 + k)
    by (intros i; apply elem_of_seq).
  set (nb := blist_notebook b) in *. set (tray := blist_menutray b) in *.
  set (bwin := blist_window b) in *.
  set (pn := n + 6 + k + k) in *.
  set (σ := conv_world s).
  assert (Hσ : σ = conv_world s) by reflexivity.
  unfold pwm_split_conversation.
  assert (Hconvs : pwm_blist_get_convs b M = PConvWin n).
  { unfold pwm_blist_get_convs, g_object_get_data.
    fold nb.
    replace (object_data M !! (nb, "pwm_convs"))
      with (Some (PConvWin n)); [reflexivity|].
    symmetry. unfold M, merged_at. cbv zeta. fold n nb k.
    look2.
    reflexivity. }
  rewrite Hconvs.
  assert (Hmenus : as_glist (pwm_fetch b "conv_menus" M) = items).
  { unfold pwm_fetch, g_object_get_data. keys. fold nb.
    replace (object_data M !! (nb, "pwm_conv_menus"))
      with (match of_glist items with NULL => None | v => Some v end).
    - by destruct items.
    - symmetry. unf. fold n nb k items pn. look2.
      by destruct (of_glist items). }
  assert (Hpaned : as_widget (pwm_fetch b "paned" M) = Some P).
  { unfold pwm_fetch, g_object_get_data. keys. fold nb.
    replace (object_data M !! (nb, "pwm_paned")) with (Some (PWidget P));
      [reflexivity|].
    symmetry. unf. fold n nb k items pn. look2.
    destruct (of_glist items); reflexivity. }
  assert (Htitle : as_string (pwm_fetch b "title" M) = title s !! bwin).
  { unfold pwm_fetch, g_object_get_data. keys. fold nb.
    replace (object_data M !! (nb, "pwm_title"))
      with (match of_string (title s !! bwin) with
            | NULL => None | v => Some v end).
    - by destruct (title s !! bwin).
    - symmetry. unf. fold n nb k items pn bwin. look2.
      destruct (of_glist items); look2; by destruct (of_string _). }
  rewrite Hmenus, Hpaned, Htitle.
  unfold pwm_clear, g_object_steal_data. keys. fold nb bwin.
  cbn [deref_convwin].
  set (cwM := {| conv_window := Some bwin; conv_notebook := n + 4;
                 conv_menubar := n + 3 |}).
  replace (convwins (upd_object_data (delete (nb, "pwm_convs")) M) !! n)
    with (Some cwM) by (symmetry; unf; fold n nb k items pn bwin; look2; reflexivity).
  cbn [mbind option_bind conv_notebook conv_menubar cwM].
  set (T2 := upd_object_data (delete (n + 4, "pwm_blist")) _).
  assert (Hcwin : as_widget (pwm_fetch b "conv_window" T2) = Some (n + 1)).
  { unfold pwm_fetch, g_object_get_data. keys. fold nb.
    replace (object_data T2 !! (nb, "pwm_conv_window"))
      with (Some (PWidget (n + 1))); [reflexivity|].
    symmetry. unf. fold n nb k items pn bwin. look2. reflexivity. }
  rewrite Hcwin. cbn [set_conv_window of_widget].
  erewrite (alter_upd_convwins n);
    [ | unf; fold n nb k items pn bwin; look2; reflexivity ].
  unfold g_object_disconnect. rewrite decide_True by reflexivity.
  set (T5 := upd_handlers _ _).
  assert (Hσun : unused_from pn σ) by apply (conv_world_unused s Hun).
  assert (Hprei : ∀ x, x ∈ pre → x ∉ items).
  { intros x Hx Hi%Hitems.
    assert (x < n); [|lia].
    eapply (unused_children Hun _ _ x Hmenu). cbn.
    apply elem_of_app. by left. }
  erewrite (split_loop b menu (n + 3) items [] (pre ++ items ++ [tray])).
  2:{ unfold T5, T2, M, merged_at. cbv zeta. fold n nb k items pn bwin tray.
      look2. reflexivity. }
  2:{ unfold T5, T2, M, merged_at. cbv zeta. fold n nb k items pn bwin tray.
      look2. reflexivity. }
  2:{ lia. }
  2:{ intros i Hi. pose proof (proj1 (Hitems i) Hi).
      unfold T5, T2, M, merged_at. cbv zeta.
      fold n nb k items pn bwin tray. look2. reflexivity. }
  2:{ apply NoDup_seq. }
  rewrite filter_notin_app by (first [exact Hprei | rewrite Hitems; lia]).
  cbn [app].
  set (T7 := upd_object_data (delete (nb, "pwm_conv_menus")) _).
  assert (Hph : as_widget (pwm_fetch b "placeholder" T7) = Some (S pn)).
  { unfold pwm_fetch, g_object_get_data. keys. fold nb.
    replace (object_data T7 !! (nb, "pwm_placeholder"))
      with (Some (PWidget (S pn))); [reflexivity|].
    symmetry. unf. fold n nb k items pn bwin tray. look2.
    destruct (of_glist items); reflexivity. }
  match goal with |- context [convwins ?X !! n] => set (T8 := X) end.
  eassert (E8 : T8 = _).
  { unfold T8. rewrite Hph.
    erewrite (pwm_widget_replace_swap (S pn) (n + 4) (n + 2) P);
      [ | unf; fold n nb k items pn bwin tray; look2; reflexivity ..].
    erewrite (gtk_container_remove_eq P (n + 4));
      [ | unf; fold n nb k items pn bwin tray; look2; reflexivity ..].
    erewrite (alter_upd_containers (n + 2));
      [ | unf; fold n nb k items pn bwin tray; look2; reflexivity ].
    cbn [container_substitute]. unfold list_subst.
    cbn [fmap list_fmap].
    rewrite (decide_False (P := n + 3 = S pn)) by lia.
    rewrite (decide_True (P := S pn = S pn)) by reflexivity.
    rewrite gtk_widget_destroy_leaf.
    2:{ unf. fold n nb k items pn bwin tray. look2. reflexivity. }
    2:{ unfold gtk_container_get_children.
        replace (containers _ !! S pn) with (@None container); [reflexivity|].
        symmetry. unf. fold n nb k items pn bwin tray. look2. unused_tac. }
    unfold dispose. reflexivity. }
  rewrite E8. clear E8 T8.
  match goal with |- context [convwins ?X !! n] => set (T9 := X) end.
  set (cw0 := {| conv_window := Some (n + 1); conv_notebook := n + 4;
                 conv_menubar := n + 3 |}).
  replace (convwins T9 !! n) with (Some cw0)
    by (symmetry; unf; fold n nb k items pn bwin tray; look2; reflexivity).
  cbn [mbind option_bind pidgin_conv_window_show conv_window cw0].
  unfold gtk_widget_show, pwm_free_dummy_conversation.
  match goal with |- context [upd_visible ?f T9] => set (T10 := upd_visible f T9) end.
  assert (Htab : as_widget (pwm_fetch b "fake_tab" T10) = Some (S (S pn))).
  { unfold pwm_fetch, g_object_get_data. keys. fold nb.
    replace (object_data T10 !! (nb, "pwm_fake_tab"))
      with (Some (PWidget (S (S pn)))); [reflexivity|].
    symmetry. unf. fold n nb k items pn bwin tray. look2.
    destruct (of_glist items); reflexivity. }
  rewrite Htab.
  erewrite (gtk_widget_destroy_child (S (S pn)) (n + 4));
    [ | unf; fold n nb k items pn bwin tray; look2; try reflexivity ..].
  2:{ lia. }
  2:{ unfold gtk_container_get_children.
      replace (containers _ !! S (S pn)) with (@None container); [reflexivity|].
      symmetry. unf. fold n nb k items pn bwin tray. look2. unused_tac. }
  cbn [container_remove_child].
  rewrite filter_cons_False by (intros Hn; by apply Hn).
  rewrite filter_nil.
  unfold dispose, pwm_clear, g_object_steal_data. keys. fold nb.
  match goal with |- context [pwm_widget_replace _ _ _ ?X] => set (T11 := X) end.
  erewrite (pwm_widget_replace_swap P nb box P);
    [ | unf; fold n nb k items pn bwin tray; look2; reflexivity ..].
  erewrite (gtk_container_remove_eq P nb);
    [ | unf; fold n nb k items pn bwin tray; look2; reflexivity ..].
  erewrite (alter_upd_containers box);
    [ | unf; fold n nb k items pn bwin tray; look2; reflexivity ].
  cbn [container_substitute].
  rewrite list_subst_back.
  2:{ intros Hin. pose proof (unused_children Hun _ _ _ Hbox Hin). lia. }
  rewrite gtk_widget_destroy_leaf.
  2:{ unf. fold n nb k items pn bwin tray. look2. reflexivity. }
  2:{ unfold gtk_container_get_children.
      match goal with |- context [containers ?X !! P] =>
        eassert (E : containers X !! P = Some _) end.
      { unf. fold n nb k items pn bwin tray. look2. reflexivity. }
      rewrite E. apply paned_emptied. unfold paned_layout. cbn [child1 child2].
      destruct cfirst; auto. }
  unfold dispose, gtk_window_set_icon_list.
  rewrite gtk_window_set_title_eq.
  refine (f_equal Some _); apply World_eq.
  all: unfold split_world; unf; fold n nb k items pn bwin tray; fields.
  all: try reflexivity.
  - map_solver4 k.
  - map_solver4 k.
  - map_solver4 k.
  - apply set_eq. intros x.
    pose proof (unused_visible Hun x) as Hv.
    rewrite !elem_of_difference, !elem_of_union, !elem_of_difference,
      !elem_of_union, !elem_of_singleton, !elem_of_list_to_set,
      !elem_of_cons, !Hitems.
    assert (Hlt : x ∈ visible s → x < n).
    { intros Hin. destruct (decide (n ≤ x)); [exfalso; by apply Hv | lia]. }
    clear Hv. unfold pn in *. clearbody n k. clear -Hlt HP HP1 HP2.
    intuition lia.
  - destruct (title s !! bwin) as [t|] eqn:Et; map_solver4 k.
  - map_solver4 k.
  - match goal with |- context [item_accel_group ?X <$> items] =>
      assert (HX : item_accel_group X <$> items = conv_item_accels s)
    end.
    { unfold conv_item_accels. fold n k items.
      apply list_fmap_ext. intros j i Hi%list_elem_of_lookup_2.
      cbv beta.
      pose proof (proj1 (Hitems i) Hi) as Hi'.
      apply conv_item_accel; [exact Hun | exact Hi | fold n k pn ..].
      all: unfold conv_world, pidgin_conv_window_new; cbv zeta; cbn [snd].
      all: fold n k items pn.
      all: look2; exact eq_refl. }
    rewrite HX. clear HX.
    apply set_eq. intros [w g].
    rewrite !elem_of_filter, elem_of_difference, !elem_of_union,
      elem_of_singleton. cbn [fst].
    pose proof (unused_accel_groups Hun w g) as HA.
    pose proof (elem_of_accel_pairs_conv s bwin (w, g)) as HB.
    fold n in HB.
    split.
    + intros (_ & _ & _ & [[H|H]|H] & Hn); auto. contradiction.
    + intros [H|H].
      * destruct (HA H) as [Hw Hg].
        split_and!; try lia; [auto|].
        intros [= -> ->]%HB. lia.
      * injection H as -> ->.
        split_and!; try lia; [auto|].
        intros [= E]%HB. lia.
  - map_solver4 k.
  - map_solver4 k.
  - apply map_eq. intros i.
    destruct (decide (i.1 = P)) as [E1|E1];
      [look2; symmetry; destruct i; apply (unused_object_data Hun);
       cbn [fst] in *; lia|].
    destruct (decide (i.1 = S (S pn))) as [E2|E2];
      [look2; symmetry; destruct i; apply (unused_object_data Hun);
       cbn [fst] in *; lia|].
    destruct (decide (i.1 = S pn)) as [E3|E3];
      [look2; symmetry; destruct i; apply (unused_object_data Hun);
       cbn [fst] in *; lia|].
    look2. map_cases2 i.
    all: try fin4 k.
  - rewrite <- Hhs. f_equal.
    rewrite Forall_forall in Hhs2.
    set (X := filter (λ h, ¬ handler_matches bwin cb_focus_in_event
                              (PWidget (n + 1)) h) hs).
    assert (HX : ∀ h, h ∈ X → h ∈ hs)
      by (intros h [_ Hh]%list_elem_of_filter; exact Hh).
    rewrite (filter_all _ X) by (intros h Hh%HX; by apply Hhs2).
    apply filter_all. intros h Hh%HX. by apply Hhs2.
  - map_solver4 k.
Qed.


Lemma merged_world_at b box menu bl pre s :
  merged_world b box menu bl pre s
  = merged_at b box menu bl pre s (next_id (conv_world s))
      (S (S (S (next_id (conv_world s)))))
      (side_is (purple_prefs_get_string PREF_SIDE s) "t" "b")
      (side_is (purple_prefs_get_string PREF_SIDE s) "t" "l")
      ((handlers s ++ [max_position_handler (next_id (conv_world s)) b])
       ++ [focus_handler b (next_id s + 1)]).
Proof. reflexivity. Qed.

Lemma merged_world_at_ok b box menu bl pre s :
  pristine b box menu bl pre s →
  merged_at_ok b s (next_id (conv_world s))
    (S (S (S (next_id (conv_world s)))))
    ((handlers s ++ [max_position_handler (next_id (conv_world s)) b])
     ++ [focus_handler b (next_id s + 1)]).
Proof.
  intros (Hun & Hwin & _).
  change (next_id (conv_world s))
    with (next_id s + 6 + length (host_conv_menus s)
          + length (host_conv_menus s)).
  set (n := next_id s) in *. set (k := length (host_conv_menus s)) in *.
  set (pn := n + 6 + k + k) in *.
  unfold merged_at_ok.
  change (next_id (conv_world s)) with pn. cbv zeta. fold n.
  split_and!; try lia.
  - rewrite !filter_app.
    rewrite (filter_all _ (handlers s)).
    2:{ intros h Hh (_ & _ & Hd).
        pose proof (unused_handler_data Hun h (n + 1) Hh Hd). lia. }
    rewrite (filter_cons_True _ (max_position_handler pn b)), filter_nil
      by (intros (Ho & _); cbn in Ho; lia).
    rewrite (filter_cons_False _ (focus_handler b (n + 1))), !filter_nil
      by (intros Hn; apply Hn; by split_and!).
    rewrite (filter_all _ (handlers s)).
    2:{ intros h Hh. pose proof (unused_handlers Hun h Hh). lia. }
    rewrite filter_cons_False, filter_nil by (intros Hn; by apply Hn).
    by rewrite !app_nil_r.
  - rewrite !Forall_app, !Forall_cons. split_and!; try apply Forall_nil_2;
      try (cbn; lia).
    apply Forall_forall. intros h Hh.
    pose proof (unused_handlers Hun h Hh).
    split_and!; try lia.
    destruct (h_data h) as [|w| | | |] eqn:Hd; try exact I. cbn.
    pose proof (unused_handler_data Hun h w Hh Hd). lia.
Qed.

Lemma merged_at_unused b box menu bl pre s P nid vert cfirst hs :
  pristine b box menu bl pre s →
  merged_at_ok b s P nid hs →
  unused_from nid (merged_at b box menu bl pre s P nid vert cfirst hs).
Proof.
  intros (Hun & Hwin & Hslots & Hnb & Hbox & Htray & Hmenu & Hpre & Hd)
    (HP & HP1 & HP2 & HP3 & Hnid & Hhs & Hhs2).
  change (next_id (conv_world s))
    with (next_id s + 6 + length (host_conv_menus s)
          + length (host_conv_menus s)) in HP, HP1, HP2, Hnid, Hhs2.
  pose proof (used_lt _ _ _ (unused_parent Hun) Hnb) as L1.
  pose proof (used_lt _ _ _ (unused_containers Hun) Hbox) as L2.
  pose proof (used_lt _ _ _ (unused_parent Hun) Htray) as L3.
  pose proof (used_lt _ _ _ (unused_containers Hun) Hmenu) as L4.
  pose proof (conv_world_unused s Hun) as Hσ.
  set (n := next_id s) in *. set (k := length (host_conv_menus s)) in *.
  set (pn := n + 6 + k + k) in *.
  assert (Hbl : Forall (λ x, x < n) bl).
  { apply Forall_forall. intros x Hx. exact (unused_children Hun _ _ _ Hbox Hx). }
  assert (Hprel : Forall (λ x, x < n) (pre ++ [blist_menutray b])).
  { apply Forall_forall. intros x Hx. exact (unused_children Hun _ _ _ Hmenu Hx). }
  apply Forall_app in Hprel as [Hprel _].
  apply (unused_from_weaken _ nid) in Hun; [|lia].
  apply (unused_from_weaken _ nid) in Hσ; [|lia].
  destruct Hun
    as (H1 & H2 & H3 & H4 & H5 & H6 & H7 & H8 & H9 & H10 & H11 & H12).
  destruct Hσ
    as (G1 & G2 & G3 & G4 & G5 & G6 & G7 & G8 & G9 & G10 & G11 & G12).
  assert (Hitems : ∀ i, i ∈ seq (n + 6) k → i < nid)
    by (intros i Hi%elem_of_seq; lia).
  unfold unused_from, merged_at. cbv zeta. fold n k pn. split_and!.
  8: rewrite submenu_Build; exact G8.
  8: rewrite menu_accel_Build; exact G9.
  all: fields; try assumption.
  - repeat (apply below_insert; [lia|]).
    apply below_insert_all; [exact Hitems|]. exact G1.
  - apply cbelow_insert; [lia| |].
    { cbn. repeat (apply Forall_cons; split; [lia|]). apply Forall_nil_2. }
    apply cbelow_insert; [lia| |].
    { cbn. rewrite !Forall_app. split_and!.
      - eapply Forall_impl; [exact Hprel|]. cbn. lia.
      - apply Forall_forall. exact Hitems.
      - apply Forall_cons. split; [lia|apply Forall_nil_2]. }
    apply cbelow_insert; [lia| |].
    { apply Forall_nil_2. }
    apply cbelow_insert; [lia| |].
    { cbn. destruct cfirst;
        repeat (apply Forall_cons; split; [lia|]); apply Forall_nil_2. }
    apply cbelow_insert; [lia| |].
    { cbn. apply Forall_list_subst; [lia|].
      eapply Forall_impl; [exact Hbl|]. cbn. lia. }
    apply cbelow_insert; [lia| |exact G2].
    cbn. repeat (apply Forall_cons; split; [lia|]). apply Forall_nil_2.
  - repeat (apply below_insert; [lia|]). exact G3.
  - apply set_Forall_difference_1.
    apply set_Forall_union; [exact G4|]. apply set_Forall_singleton. lia.
  - apply set_Forall_union; [exact G7|].
    intros p Hp%elem_of_accel_pairs_conv. subst p. fold n. cbn. lia.
  - apply map_Forall_insert_2; [cbn; lia|].
    apply map_Forall_insert_2; [cbn; lia|].
    apply set_data_map_below; [cbn; lia|].
    apply map_Forall_insert_2; [cbn; lia|].
    apply map_Forall_insert_2; [cbn; lia|].
    apply set_data_map_below; [cbn; lia|].
    apply map_Forall_insert_2; [cbn; lia|].
    apply map_Forall_insert_2; [cbn; lia|]. exact H10.
  - eapply Forall_impl; [exact Hhs2|]. cbn. tauto.
  - apply below_insert; [lia|exact G12].
Qed.

Lemma merged_at_layout_merged b box menu bl pre s P nid vert cfirst hs :
  pristine b box menu bl pre s →
  merged_at_ok b s P nid hs →
  layout_merged b
    {| conv_window := Some (blist_window b); conv_notebook := next_id s + 4;
       conv_menubar := next_id s + 3 |}
    P box (paned_layout vert cfirst (blist_notebook b) (next_id s + 4))
    (Children (list_subst (blist_notebook b) P bl))
    (merged_at b box menu bl pre s P nid vert cfirst hs).
Proof.
  intros Hp Hok. pose proof (merged_at_unused _ _ _ _ _ _ _ _ vert cfirst _
                               Hp Hok) as HunM.
  destruct Hp as (Hun & Hwin & Hslots & Hnb & Hbox & Htray & Hmenu & Hpre & Hd).
  destruct Hok as (HP & HP1 & HP2 & HP3 & Hnid & Hhs & Hhs2).
  change (next_id (conv_world s))
    with (next_id s + 6 + length (host_conv_menus s)
          + length (host_conv_menus s)) in HP, HP1, HP2, Hnid, Hhs2.
  apply NoDup_4 in Hd as (D1 & D2 & D3 & D4 & D5 & D6).
  pose proof (used_lt _ _ _ (unused_parent Hun) Hnb) as L1.
  pose proof (used_lt _ _ _ (unused_containers Hun) Hbox) as L2.
  pose proof (used_lt _ _ _ (unused_parent Hun) Htray) as L3.
  pose proof (used_lt _ _ _ (unused_containers Hun) Hmenu) as L4.
  set (M := merged_at b box menu bl pre s P nid vert cfirst hs) in *.
  set (n := next_id s) in *. set (k := length (host_conv_menus s)) in *.
  set (items := seq (n + 6) k).
  assert (Hitems : ∀ i, i ∈ items ↔ n + 6 ≤ i < n + 6 + k)
    by (intros i; apply elem_of_seq).
  set (nb := blist_notebook b) in *. set (bwin := blist_window b) in *.
  set (pn := n + 6 + k + k) in *.
  split.
  - unfold pwm_blist_get_convs, g_object_get_data. fold nb.
    replace (object_data M !! (nb, "pwm_convs"))
      with (Some (PConvWin n)).
    + change (default NULL (Some (PConvWin n))) with (PConvWin n).
      cbn [deref_convwin]. unf. fold n nb k items pn. look2. reflexivity.
    + symmetry. unf. fold n nb k items pn. look2.
      destruct (of_glist items); reflexivity.
  - unfold pwm_fetch, g_object_get_data. keys. fold nb.
    replace (object_data M !! (nb, "pwm_paned")) with (Some (PWidget P));
      [reflexivity|].
    symmetry. unf. fold n nb k items pn. look2.
    destruct (of_glist items); reflexivity.
  - exact HunM.
  - unf. fold n nb k items pn. look2. reflexivity.
  - unfold paned_layout. cbn [child1 child2 conv_notebook].
    destruct cfirst; auto.
  - unf. fold n nb k items pn. look2. reflexivity.
  - cbn [conv_notebook]. unf. fold n nb k items pn. look2. reflexivity.
  - unf. fold n nb k items pn. look2. reflexivity.
  - unf. fold n nb k items pn. look2. reflexivity.
  - cbn [conv_notebook]. fold nb.
    rewrite !NoDup_cons, !not_elem_of_cons.
    split_and!; try assumption; try lia;
      first [apply not_elem_of_nil | apply NoDup_nil_2].
Qed.

Lemma list_subst_trans x y z l :
  y ∉ l → list_subst y z (list_subst x y l) = list_subst x z l.
Proof.
  intros Hy. unfold list_subst. rewrite <- list_fmap_compose.
  apply list_fmap_ext. intros i w Hw%list_elem_of_lookup_2. cbn.
  destruct (decide (w = x)) as [->|Hwx].
  - by rewrite decide_True.
  - rewrite decide_False; [reflexivity|]. intros ->. contradiction.
Qed.

Lemma merged_at_layout b box menu bl pre s P nid vert cfirst hs side :
  pristine b box menu bl pre s →
  merged_at_ok b s P nid hs →
  pwm_create_paned_layout b side
    (merged_at b box menu bl pre s P nid vert cfirst hs)
  = Some (merged_at b box menu bl pre s nid (S nid)
            (side_is side "t" "b") (side_is side "t" "l")
            (filter (λ h, h_object h ≠ P)
               (hs ++ [max_position_handler nid b]))).
Proof.
  intros Hp Hok.
  rewrite (pwm_create_paned_layout_again _ _ _ _ _ _ side _
             (merged_at_layout_merged _ _ _ _ _ _ _ _ vert cfirst _ Hp Hok)).
  destruct Hp as (Hun & Hwin & Hslots & Hnb & Hbox & Htray & Hmenu & Hpre & Hd).
  destruct Hok as (HP & HP1 & HP2 & HP3 & Hnid & Hhs & Hhs2).
  change (next_id (conv_world s))
    with (next_id s + 6 + length (host_conv_menus s)
          + length (host_conv_menus s)) in HP, HP1, HP2, Hnid, Hhs2.
  apply NoDup_4 in Hd as (D1 & D2 & D3 & D4 & D5 & D6).
  pose proof (used_lt _ _ _ (unused_parent Hun) Hnb) as L1.
  pose proof (used_lt _ _ _ (unused_containers Hun) Hbox) as L2.
  pose proof (used_lt _ _ _ (unused_parent Hun) Htray) as L3.
  pose proof (used_lt _ _ _ (unused_containers Hun) Hmenu) as L4.
  assert (Hσun : unused_from (next_id s + 6 + length (host_conv_menus s)
                              + length (host_conv_menus s)) (conv_world s))
    by apply (conv_world_unused s Hun).
  set (n := next_id s) in *. set (k := length (host_conv_menus s)) in *.
  set (items := seq (n + 6) k).
  assert (Hitems : ∀ i, i ∈ items ↔ n + 6 ≤ i < n + 6 + k)
    by (intros i; apply elem_of_seq).
  set (nb := blist_notebook b) in *. set (bwin := blist_window b) in *.
  set (tray := blist_menutray b) in *.
  set (pn := n + 6 + k + k) in *.
  set (σ := conv_world s) in *.
  refine (f_equal Some _). apply World_eq.
  all: unfold laid_out_again, merged_at; cbv zeta;
    fold n nb k items pn bwin tray σ; fields; cbn [conv_notebook].
  all: try reflexivity.
  - map_solver4 k.
  - cbn [container_substitute]. rewrite list_subst_trans.
    2:{ intros Hin. pose proof (unused_children Hun _ _ _ Hbox Hin). lia. }
    map_solver4 k.
  - map_solver4 k.
  - apply set_eq. intros x.
    pose proof (unused_visible Hσun x) as Hv.
    rewrite !elem_of_difference, !elem_of_union, !elem_of_difference,
      !elem_of_union, !elem_of_singleton, !elem_of_list_to_set, !Hitems.
    assert (Hlt : x ∈ visible σ → x < pn).
    { intros Hin. destruct (decide (pn ≤ x)); [exfalso; by apply Hv | lia]. }
    clear Hv. unfold pn in *. clearbody n k σ.
    clear -Hlt HP HP1 HP2 HP3 Hnid. intuition lia.
  - map_solver4 k.
  - map_solver4 k.
  - apply set_eq. intros [w g].
    rewrite elem_of_filter, elem_of_union. cbn [fst].
    pose proof (unused_accel_groups Hσun w g) as HA.
    pose proof (elem_of_accel_pairs_conv s bwin (w, g)) as HB.
    fold n in HB.
    split; [tauto|]. intros H. split; [|exact H].
    destruct H as [H|H].
    + apply HA in H. lia.
    + apply HB in H. injection H as -> ->. lia.
  - map_solver4 k.
  - map_solver4 k.
  - apply map_eq. intros i.
    destruct (decide (i.1 = P)) as [E1|E1];
      [look2; symmetry; destruct i; apply (unused_object_data Hun);
       cbn [fst] in *; lia|].
    look2. map_cases2 i.
    all: try fin4 k.
Qed.

Lemma merged_at_ok_layout b s P nid hs :
  unused_from (next_id s) s →
  merged_at_ok b s P nid hs →
  merged_at_ok b s nid (S nid)
    (filter (λ h, h_object h ≠ P) (hs ++ [max_position_handler nid b])).
Proof.
  intros Hun (HP & HP1 & HP2 & HP3 & Hnid & Hhs & Hhs2).
  unfold merged_at_ok. cbv zeta.
  set (pn := next_id (conv_world s)) in *.
  rewrite Forall_forall in Hhs2.
  split_and!; try lia.
  - rewrite filter_app.
    rewrite (filter_cons_True _ (max_position_handler nid b)), filter_nil
      by (cbn; lia).
    rewrite !filter_app.
    rewrite (filter_cons_True _ (max_position_handler nid b)), filter_nil
      by (intros (_ & Hc & _); discriminate Hc).
    rewrite (filter_cons_False _ (max_position_handler nid b)), filter_nil
      by (intros Hn; by apply Hn).
    rewrite app_nil_r.
    rewrite (filter_comm _ (λ h, h_object h ≠ P) hs).
    rewrite Hhs. apply filter_all.
    intros h Hh. rewrite <- Hhs in Hh.
    apply list_elem_of_filter in Hh as [_ Hh].
    apply list_elem_of_filter in Hh as [_ Hh].
    apply Hhs2 in Hh. lia.
  - apply Forall_forall. intros h [_ Hh]%list_elem_of_filter.
    apply elem_of_app in Hh as [Hh|Hh].
    + apply Hhs2 in Hh as (? & ? & ? & Hd). split_and!; try lia.
      destruct (h_data h); cbn in *; try exact I. lia.
    + apply list_elem_of_singleton in Hh as ->.
      cbn [h_object h_data max_position_handler data_below].
      split_and!; first [lia | exact I].
Qed.

Lemma merged_at_layouts b box menu bl pre s sides : ∀ P nid vert cfirst hs,
  pristine b box menu bl pre s →
  merged_at_ok b s P nid hs →
  ∃ P' vert' cfirst' hs',
    pwm_create_paned_layouts b sides
      (merged_at b box menu bl pre s P nid vert cfirst hs)
    = Some (merged_at b box menu bl pre s P' (nid + length sides)
              vert' cfirst' hs')
    ∧ merged_at_ok b s P' (nid + length sides) hs'.
Proof.
  induction sides as [|side sides IH]; intros P nid vert cfirst hs Hp Hok.
  - exists P, vert, cfirst, hs. cbn. rewrite Nat.add_0_r. done.
  - cbn [pwm_create_paned_layouts length].
    rewrite (merged_at_layout _ _ _ _ _ _ _ _ _ _ _ side Hp Hok).
    cbn [mbind option_bind].
    destruct (IH nid (S nid) (side_is side "t" "b") (side_is side "t" "l")
                (filter (λ h, h_object h ≠ P)
                   (hs ++ [max_position_handler nid b])) Hp)
      as (P' & v' & c' & hs' & Hrun & Hok').
    { apply merged_at_ok_layout; [by destruct Hp|exact Hok]. }
    exists P', v', c', hs'.
    replace (nid + S (length sides)) with (S nid + length sides) by lia.
    done.
Qed.

(** However often and for whatever sides the panes are laid out again
    between a merge and the split, the split runs to its end and reaches
    the world it reaches right after the merge, but for the allocator,
    which has handed out one more widget for every layout. *)
Theorem pwm_split_conversation_after_layouts (gtkblist : PidginBuddyList)
    (box menu : widget) (bl pre : list widget)
    (sides : list (option string)) (s : World) :
  pristine gtkblist box menu bl pre s →
  ∃ s1 s2 direct again,
    pwm_merge_conversation gtkblist s = Some s1
    ∧ pwm_split_conversation gtkblist s1 = Some direct
    ∧ pwm_create_paned_layouts gtkblist sides s1 = Some s2
    ∧ pwm_split_conversation gtkblist s2 = Some again
    ∧ next_id s2 = next_id s1 + length sides
    ∧ again = upd_next_id (λ _, next_id s2) direct.
Proof.
  intros Hp.
  pose proof (merged_world_at_ok _ _ _ _ _ _ Hp) as Hok.
  destruct (merged_at_layouts _ _ _ _ _ _ sides _ _
              (side_is (purple_prefs_get_string PREF_SIDE s) "t" "b")
              (side_is (purple_prefs_get_string PREF_SIDE s) "t" "l")
              _ Hp Hok)
    as (P' & v' & c' & hs' & Hrun & Hok').
  rewrite <- merged_world_at in Hrun.
  eexists _, _, _, _.
  split; [by apply merge_run|]. split; [by apply split_run|].
  split; [exact Hrun|].
  destruct Hok' as (HP & HP1 & HP2 & HP3 & Hnid & Hhs & Hhs2).
  split; [|split].
  - apply split_at; try assumption.
    eapply Forall_impl; [exact Hhs2|]. cbn. tauto.
  - reflexivity.
  - reflexivity.
Qed.

Lemma pwm_split_conversation_after_layouts_sample :
  ∃ s1 s2 direct again,
    pwm_merge_conversation sample_blist sample_world = Some s1
    ∧ pwm_split_conversation sample_blist s1 = Some direct
    ∧ pwm_create_paned_layouts sample_blist
        [Some "top"; None; Some "right"] s1 = Some s2
    ∧ pwm_split_conversation sample_blist s2 = Some again
    ∧ next_id s2 = next_id s1 + 3
    ∧ again = upd_next_id (λ _, next_id s2) direct.
Proof.
  refine (pwm_split_conversation_after_layouts sample_blist 2 3 [3; 4] [5; 6]
            [Some "top"; None; Some "right"] sample_world _).
  refine (bool_decide_unpack _ _). vm_compute. exact I.
Defined.
